(** * InferenceNode: preview streaming, pipeline bundles, publisher persistence

    A shallow embedding of three parts of the InferenceNode control plane:

    - [Stream]: the MJPEG preview endpoints [stream_pipeline] and
      [stream_pipeline_hq] of [api/routes_pipelines.py] (start-up wait,
      the [generate_frames] generator, its [finally] block);
    - [Bundle]: [import_pipeline] of [api/routes_pipelines.py];
    - [Persist]: [_serialize_publishers] / [_deserialize_publishers] of
      [settings_manager.py] and the publisher part of
      [InferenceNode._save_settings] of [inference_node.py].

    Python objects and dictionaries are finite maps from names to values,
    exceptions are an explicit outcome of every call to a collaborator, and
    the generators are run against a list of observations, one per loop
    iteration, that records what the collaborators answered. *)

From Stdlib Require Import ZArith Floats Uint63 Lia Ascii.
From stdpp Require Import gmap strings list pretty.

Set Warnings "-register-all".
Local Open Scope Z_scope.

(** ** Outcomes of calls into collaborators

    A call either returns, raises an exception derived from [Exception]
    (which [except Exception] catches), or is left by an exception that is
    not (a [BaseException] like [KeyboardInterrupt], which only [finally]
    sees). *)

Inductive call (A : Type) : Type :=
  | Returns (a : A)
  | Raises
  | Aborts.
Arguments Returns {A} a.
Arguments Raises {A}.
Arguments Aborts {A}.

(** ** Double-precision arithmetic as Python does it on [int] operands *)

(** [float(z)] for [0 <= z < 2^63]. *)
Definition float_of_int (z : Z) : float := PrimFloat.of_uint63 (Uint63.of_Z z).

(** [int(f)]: truncation toward zero; [None] stands for the [ValueError] /
    [OverflowError] that Python raises on NaN and the infinities. *)
Definition int_of_float (f : float) : option Z :=
  match Prim2SF f with
  | S754_zero _ => Some 0
  | S754_finite s m e =>
      let mag := if 0 <=? e then Z.pos m * 2 ^ e else Z.pos m / 2 ^ (- e) in
      Some (if s then - mag else mag)
  | S754_infinity _ | S754_nan => None
  end.

(** [round(n / d)] on the exact quotient of two positive integers, ties to
    the even neighbour as Python's [round] does. Used only to state what the
    specification asks for. *)
Definition round_div (n d : Z) : Z :=
  let q := n / d in
  let r := n mod d in
  if 2 * r <? d then q
  else if d <? 2 * r then q + 1
  else if Z.even q then q else q + 1.

Module Stream.

(** *** Tiers: the constants in which the two endpoints differ *)

Inductive tier := Standard | HighQuality.

Definition max_width (t : tier) : Z :=
  match t with Standard => 640 | HighQuality => 1280 end.

Definition jpeg_quality (t : tier) : Z :=
  match t with Standard => 70 | HighQuality => 85 end.

(** [frame_skip_threshold = 1.0 / fps] *)
Definition target_fps (t : tier) : Z :=
  match t with Standard => 30 | HighQuality => 60 end.

(** Sleeps, in microseconds. *)
Definition pace_sleep (t : tier) : Z :=
  match t with Standard => 10000 | HighQuality => 5000 end.
Definition miss_sleep (t : tier) : Z :=
  match t with Standard => 10000 | HighQuality => 5000 end.
Definition backoff_sleep (t : tier) : Z :=
  match t with Standard => 100000 | HighQuality => 50000 end.

Definition max_retries : nat := 50.

(** *** Frames *)

(** [frame.shape[:2]] is all the loop looks at. *)
Record frame := { height : Z; width : Z }.

(** [cv2.resize(frame, (w, h), interpolation=cv2.INTER_AREA)]: an image of
    the requested size; OpenCV raises on an empty size. *)
Definition cv2_resize (f : frame) (w h : Z) : call frame :=
  if (0 <? w) && (0 <? h) then Returns {| height := h; width := w |} else Raises.

(** [scale = max / width] *)
Definition scale (t : tier) (f : frame) : float :=
  (float_of_int (max_width t) / float_of_int (width f))%float.

(** [new_height = int(height * scale)] *)
Definition new_height (t : tier) (f : frame) : option Z :=
  int_of_float (float_of_int (height f) * scale t f)%float.

(** Lines 489-495 / 604-610: the frame that goes to the encoder. *)
Definition downscale (t : tier) (f : frame) : call frame :=
  if max_width t <? width f then
    match new_height t f with
    | Some h => cv2_resize f (max_width t) h
    | None => Raises
    end
  else Returns f.

(** *** The pipeline instance as the loop sees it *)

(** What [hasattr] answers on the instance. *)
Record instance := {
  inst_id : nat;
  exposes_is_running : bool;
  exposes_is_initialized : bool;
  exposes_start_streaming : bool;
  exposes_stop_streaming : bool
}.

(** The response writer either asks for the next chunk or, when the client
    has gone, closes the generator: [GeneratorExit] is raised at the
    [yield]. *)
Inductive consumer := Resume | Close.

(** Everything the collaborators answer during one pass through the body
    of the [while] loop. A field is read only if the pass gets that far. *)
Record observation := {
  ob_active : bool;                          (* pipeline_id in active_pipelines *)
  ob_instance : call (option instance);      (* pipeline_info.get('pipeline_instance') *)
  ob_running : call bool;                    (* pipeline_instance.is_running() *)
  ob_time : Z;                               (* time.time(), microseconds *)
  ob_frame : call (option frame);            (* pipeline_instance.get_latest_frame() *)
  ob_encode : frame -> call (option (list Byte.byte)); (* cv2.imencode: None is ret = False *)
  ob_consumer : consumer
}.

Record loop_state := {
  frame_count : nat;
  retry_count : nat;
  last_frame_time : Z;
  pipeline_instance : option instance
}.

Definition set_instance (i : option instance) (st : loop_state) : loop_state :=
  {| frame_count := frame_count st; retry_count := retry_count st;
     last_frame_time := last_frame_time st; pipeline_instance := i |}.

(** [retry_count += 1] *)
Definition miss (st : loop_state) : loop_state :=
  {| frame_count := frame_count st; retry_count := S (retry_count st);
     last_frame_time := last_frame_time st;
     pipeline_instance := pipeline_instance st |}.

(** [frame_count += 1; retry_count = 0; last_frame_time = current_time] *)
Definition emitted (now : Z) (st : loop_state) : loop_state :=
  {| frame_count := S (frame_count st); retry_count := 0;
     last_frame_time := now; pipeline_instance := pipeline_instance st |}.

Inductive event :=
  | Chunk (body : list Byte.byte)    (* one yielded multipart part *)
  | Sleep (us : Z)
  | LogWarning
  | LogError
  | StartStreaming (i : instance)
  | StopStreaming (i : instance)
  | LogEnded (frames : nat).          (* "Stream ended ..., streamed N frames" *)

Inductive exit_path :=
  | PipelineRemoved      (* no longer in active_pipelines *)
  | PipelineStopped      (* is_running() is false *)
  | MissCap              (* retry_count reached max_retries *)
  | ClientDisconnect     (* GeneratorExit at the yield *)
  | Unhandled.           (* an exception that except Exception lets through *)

Inductive step :=
  | Continue (st : loop_state) (evs : list event)
  | Exit (why : exit_path) (st : loop_state) (evs : list event).

(** [b'--frame\r\n' b'Content-Type: image/jpeg\r\n\r\n' + frame_bytes + b'\r\n'] *)
Definition crlf : list Byte.byte := [Byte.x0d; Byte.x0a].
Definition multipart (frame_bytes : list Byte.byte) : list Byte.byte :=
  String.list_byte_of_string "--frame" ++ crlf
  ++ String.list_byte_of_string "Content-Type: image/jpeg" ++ crlf ++ crlf
  ++ frame_bytes ++ crlf.

(** The [except Exception] handler of the loop body. *)
Definition on_exception (t : tier) (st : loop_state) : step :=
  Continue (miss st) [LogError; Sleep (backoff_sleep t)].

(** The warning that only the standard endpoint logs before its [break]. *)
Definition removed_log (t : tier) : list event :=
  match t with Standard => [LogWarning] | HighQuality => [] end.

(** One pass through the body of [while retry_count < max_retries]
    (lines 466-515 / 582-630). *)
Definition loop_body (t : tier) (ob : observation) (st : loop_state) : step :=
  if negb (ob_active ob) then Exit PipelineRemoved st (removed_log t)
  else
    match ob_instance ob with
    | Raises => on_exception t st
    | Aborts => Exit Unhandled st []
    | Returns inst =>
      let st := set_instance inst st in
      match inst with
      | None => Continue (miss st) [Sleep (backoff_sleep t)]
      | Some i =>
        match (if exposes_is_running i then ob_running ob else Returns true) with
        | Raises => on_exception t st
        | Aborts => Exit Unhandled st []
        | Returns false => Exit PipelineStopped st []
        | Returns true =>
          if (ob_time ob - last_frame_time st) * target_fps t <? 1000000
          then Continue st [Sleep (pace_sleep t)]
          else
            match ob_frame ob with
            | Raises => on_exception t st
            | Aborts => Exit Unhandled st []
            | Returns None => Continue (miss st) [Sleep (miss_sleep t)]
            | Returns (Some f) =>
              match downscale t f with
              | Raises => on_exception t st
              | Aborts => Exit Unhandled st []
              | Returns f' =>
                match ob_encode ob f' with
                | Raises => on_exception t st
                | Aborts => Exit Unhandled st []
                | Returns None => Continue st []
                | Returns (Some frame_bytes) =>
                  match ob_consumer ob with
                  | Close => Exit ClientDisconnect st [Chunk (multipart frame_bytes)]
                  | Resume =>
                      Continue (emitted (ob_time ob) st) [Chunk (multipart frame_bytes)]
                  end
                end
              end
            end
        end
      end
    end.

(** The [finally] block (lines 516-519 / 631-634). *)
Definition cleanup (st : loop_state) : list event :=
  match pipeline_instance st with
  | Some i => if exposes_stop_streaming i then [StopStreaming i] else []
  | None => []
  end ++ [LogEnded (frame_count st)].

Inductive run :=
  | Running (st : loop_state)                  (* suspended, observations used up *)
  | Ended (why : exit_path) (st : loop_state).

(** The [try: while ...: finally: ...] statement, run against the
    observations of successive passes. *)
Fixpoint stream_loop (t : tier) (obs : list observation) (st : loop_state)
  : list event * run :=
  if (retry_count st <? max_retries)%nat then
    match obs with
    | [] => ([], Running st)
    | ob :: rest =>
        match loop_body t ob st with
        | Continue st' evs =>
            let '(evs', r) := stream_loop t rest st' in (evs ++ evs', r)
        | Exit why st' evs => (evs ++ cleanup st', Ended why st')
        end
    end
  else (cleanup st, Ended MissCap st).

Definition initial_state (i : option instance) : loop_state :=
  {| frame_count := 0; retry_count := 0; last_frame_time := 0;
     pipeline_instance := i |}.

(** [generate_frames()]: [manager] is the truth value of
    [node.pipeline_manager], [first] the instance found by the look-up in
    front of the [try]. [None] is the early [return]. *)
Definition generate_frames (t : tier) (manager : bool) (first : option instance)
    (obs : list observation) : option (list event * run) :=
  if manager then Some (stream_loop t obs (initial_state first)) else None.

(** *** The request handlers [stream_pipeline] / [stream_pipeline_hq] *)

Inductive response :=
  | JsonError (status : Z) (error : string)   (* jsonify({'error': ...}), status *)
  | StreamResponse (t : tier).                (* Response(generate_frames(), ...) *)

(** A handler answers, or is left by an exception that its
    [except Exception] does not catch. *)
Inductive reply := Reply (r : response) | Escapes.

(** [node.pipeline_manager.active_pipelines.get(pipeline_id)] and its
    ['pipeline_instance'] entry. *)
Inductive info_lookup :=
  | NoInfo                              (* None or an empty dict *)
  | NoInstanceKey                       (* 'pipeline_instance' not in pipeline_info *)
  | HasInstance (i : option instance).  (* the entry; None when it holds None *)

Record request_env := {
  env_manager : bool;                          (* node.pipeline_manager is set *)
  env_active : bool;                           (* pipeline_id in active_pipelines *)
  env_info : info_lookup;
  env_is_running : call bool;
  env_is_initialized : call bool;
  env_start : Z;                               (* wait_start = time.time() *)
  env_latest_frame : Z -> call (option frame); (* get_latest_frame() at clock reading t *)
  env_after_sleep : Z -> Z                     (* the clock after time.sleep(0.1) begun at t *)
}.

Definition not_found_msg : string := "Pipeline not found or not running".
Definition no_instance_msg : string := "Pipeline instance not available".
Definition not_running_msg : string := "Pipeline is not running".
Definition not_initialized_msg : string := "Pipeline is not initialized".
Definition starting_msg : string :=
  "Pipeline is starting - no frames available yet. Please try again in a moment.".
Definition failed_msg (t : tier) : string :=
  match t with
  | Standard => "Failed to start video stream"
  | HighQuality => "Failed to start HQ video stream"
  end.

(** [max_wait_time = 5.0] and the poll interval [time.sleep(0.1)]. *)
Definition max_wait_time : Z := 5000000.
Definition poll_sleep : Z := 100000.

(** The start-up wait (lines 544-548 / 659-663); the result is
    [frame_available]. [None]: out of fuel. *)
Fixpoint wait_for_frame (fuel : nat) (env : request_env) (wait_start now : Z)
  : option (list event * call bool) :=
  match fuel with
  | O => None
  | S k =>
      if now - wait_start <? max_wait_time then
        match env_latest_frame env now with
        | Returns (Some _) => Some ([], Returns true)
        | Returns None =>
            match wait_for_frame k env wait_start (env_after_sleep env now) with
            | Some (evs, r) => Some (Sleep poll_sleep :: evs, r)
            | None => None
            end
        | Raises => Some ([], Raises)
        | Aborts => Some ([], Aborts)
        end
      else Some ([], Returns false)
  end.

Definition if_exposed (b : bool) (e : event) : list event := if b then [e] else [].

(** The handler body (lines 521-562 / 636-677). [start_streaming] and
    [stop_streaming] only set and clear the flag. *)
Definition stream_pipeline (t : tier) (fuel : nat) (env : request_env)
  : option (list event * reply) :=
  if negb (env_manager env) || negb (env_active env)
  then Some ([], Reply (JsonError 404 not_found_msg))
  else
    match env_info env with
    | NoInfo | NoInstanceKey => Some ([], Reply (JsonError 404 no_instance_msg))
    | HasInstance None =>
        (* hasattr(None, ...) is False thrice; None.get_latest_frame() raises *)
        Some ([], Reply (JsonError 500 (failed_msg t)))
    | HasInstance (Some i) =>
        match (if exposes_is_running i then env_is_running env else Returns true) with
        | Raises => Some ([], Reply (JsonError 500 (failed_msg t)))
        | Aborts => Some ([], Escapes)
        | Returns false => Some ([], Reply (JsonError 400 not_running_msg))
        | Returns true =>
          match (if exposes_is_initialized i then env_is_initialized env
                 else Returns true) with
          | Raises => Some ([], Reply (JsonError 500 (failed_msg t)))
          | Aborts => Some ([], Escapes)
          | Returns false => Some ([], Reply (JsonError 400 not_initialized_msg))
          | Returns true =>
            let started := if_exposed (exposes_start_streaming i) (StartStreaming i) in
            match wait_for_frame fuel env (env_start env) (env_start env) with
            | None => None
            | Some (evs, Returns true) =>
                Some (started ++ evs, Reply (StreamResponse t))
            | Some (evs, Returns false) =>
                Some (started ++ evs
                        ++ if_exposed (exposes_stop_streaming i) (StopStreaming i),
                      Reply (JsonError 503 starting_msg))
            | Some (evs, Raises) =>
                Some (started ++ evs, Reply (JsonError 500 (failed_msg t)))
            | Some (evs, Aborts) => Some (started ++ evs, Escapes)
            end
          end
        end
    end.

(** *** Reading a trace *)

Definition is_chunk (e : event) : bool :=
  match e with Chunk _ => true | _ => false end.
Definition is_stop (e : event) : bool :=
  match e with StopStreaming _ => true | _ => false end.
Definition is_ended (e : event) : bool :=
  match e with LogEnded _ => true | _ => false end.
Definition is_sleep (e : event) : bool :=
  match e with Sleep _ => true | _ => false end.

Definition count (p : event -> bool) (evs : list event) : nat :=
  length (filter (fun e => p e = true) evs).

(** The streaming-enabled flag of instance [i] after a trace. *)
Definition streaming_flag (i : instance) (before : bool) (evs : list event) : bool :=
  fold_left (fun flag e =>
               match e with
               | StartStreaming j => if decide (inst_id j = inst_id i) then true else flag
               | StopStreaming j => if decide (inst_id j = inst_id i) then false else flag
               | _ => flag
               end) evs before.

End Stream.

(** * Python values and paths *)

(** JSON documents and the attribute values of objects. *)
Inductive pyval :=
  | PNone
  | PBool (b : bool)
  | PInt (z : Z)
  | PStr (s : string)
  | PList (l : list pyval)
  | PDict (m : gmap string pyval).

(** The truth value Python gives a value in [if v:]. *)
Definition truthy (v : pyval) : bool :=
  match v with
  | PNone => false
  | PBool b => b
  | PInt z => negb (z =? 0)
  | PStr s => negb (String.eqb s "")
  | PList l => match l with [] => false | _ => true end
  | PDict m => negb (bool_decide (m = ∅))
  end.

(** [PStr s in l] for a list [l] of values: only a string equals a string. *)
Definition str_in (s : string) (l : list pyval) : bool :=
  existsb (fun v => match v with PStr s' => String.eqb s s' | _ => false end) l.

Module Path.

(** [s.rfind(c)]; [None] is Python's [-1]. *)
Fixpoint rfind (c : ascii) (s : string) : option nat :=
  match s with
  | EmptyString => None
  | String a s' =>
      match rfind c s' with
      | Some i => Some (S i)
      | None => if Ascii.eqb a c then Some 0%nat else None
      end
  end.

(** [s[:i]] and [s[i:]] *)
Definition upto (i : nat) (s : string) : string := String.substring 0 i s.
Definition from (i : nat) (s : string) : string :=
  String.substring i (String.length s - i) s.

Definition starts_with (s pre : string) : bool := String.prefix pre s.
Definition ends_with (s suf : string) : bool :=
  (String.length suf <=? String.length s)%nat
  && String.eqb (from (String.length s - String.length suf) s) suf.

(** The loop of [genericpath._splitext] that skips leading dots: [true] when
    a character other than a dot stands in [p[filename_index:dot_index]]. *)
Fixpoint has_stem (fuel : nat) (p : string) (filename_index dot_index : nat) : bool :=
  match fuel with
  | O => false
  | S k =>
      if (filename_index <? dot_index)%nat then
        match String.get filename_index p with
        | Some "."%char => has_stem k p (S filename_index) dot_index
        | _ => true
        end
      else false
  end.

(** [os.path.splitext] (posixpath). *)
Definition splitext (p : string) : string * string :=
  match rfind "." p with
  | None => (p, "")
  | Some dot_index =>
      let filename_index :=
        match rfind "/" p with Some sep_index => S sep_index | None => 0%nat end in
      if (filename_index <=? dot_index)%nat
         && has_stem (String.length p) p filename_index dot_index
      then (upto dot_index p, from dot_index p)
      else (p, "")
  end.

(** [os.path.join(a, b)] (posixpath). *)
Definition join (a b : string) : string :=
  if starts_with b "/" then b
  else if String.eqb a "" || ends_with a "/" then a +:+ b
  else a +:+ "/" +:+ b.

(** [head.rstrip('/')] *)
Fixpoint rstrip_slash (s : string) : string :=
  match s with
  | EmptyString => EmptyString
  | String a s' =>
      match rstrip_slash s' with
      | EmptyString => if Ascii.eqb a "/" then EmptyString else String a EmptyString
      | r => String a r
      end
  end.

(** [os.path.dirname] (posixpath). *)
Definition dirname (p : string) : string :=
  let head := match rfind "/" p with Some i => upto (S i) p | None => "" end in
  match rstrip_slash head with
  | EmptyString => head          (* empty, or nothing but slashes *)
  | stripped => stripped
  end.

End Path.

(** * Importing a pipeline bundle *)

Module Bundle.

Definition content := list Byte.byte.

(** The file system and, opaque to this module, the state of the model
    repository and of the pipeline manager. *)
Record world (R : Type) := World { files : gmap string content; registries : R }.
Arguments World {R} files registries.
Arguments files {R} w.
Arguments registries {R} w.

(** The archive as extracted to the scratch directory. *)
Record extracted := {
  ex_config : option (call pyval);            (* pipeline_config.json: json.load of it *)
  ex_models : option (list (string * content)); (* os.listdir('models') with the files *)
  ex_metadata : call pyval                    (* json.load of models/model_metadata.json *)
}.

(** The upload: [request.files.get('file')], its [filename], and what
    [ZipFile(...).extractall] leaves. *)
Record upload := {
  up_filename : option string;
  up_archive : call extracted
}.

Inductive response :=
  | JsonError (status : Z) (error : string)
  | ServerError                        (* status 500, the exception's text *)
  | Imported (pipeline_id : pyval) (pipeline_name : string) (model_id : pyval).

Definition metadata_name : string := "model_metadata.json".
Definition required_fields : list string := ["name"; "frame_source"; "model"].

(** The first required field that [config_data] lacks (lines 896-899). *)
Definition first_missing (config_data : gmap string pyval) : option string :=
  List.find (fun field => negb (bool_decide (is_Some (config_data !! field))))
    required_fields.

(** [model_files = [f for f in os.listdir(models_dir) if f != 'model_metadata.json']] *)
Definition model_files_of (listing : list (string * content)) : list (string * content) :=
  List.filter (fun e => negb (String.eqb (fst e) metadata_name)) listing.

Definition listed (name : string) (l : list (string * content)) : bool :=
  existsb (fun e => String.eqb (fst e) name) l.

(** Lines 913-917: the stored file named by the metadata if it was
    extracted, the first file otherwise. *)
Definition choose_main (model_metadata : pyval) (first : string)
    (model_files : list (string * content)) : string :=
  match model_metadata with
  | PDict m =>
      if truthy model_metadata then
        match m !! "stored_filename" with
        | Some (PStr stored) => if listed stored model_files then stored else first
        | Some _ => first
        | None => first
        end
      else first
  | _ => first
  end.

(** Is [model_file] copied by the loop of lines 938-944? *)
Definition is_sibling (main_model_file model_file : string) : bool :=
  negb (String.eqb model_file main_model_file)
  && negb (String.eqb model_file metadata_name).

(** [os.path.join(new_model_dir, f"{new_model_base}{file_ext}")] *)
Definition sibling_dest (new_model_dir new_model_base model_file : string) : string :=
  Path.join new_model_dir (new_model_base +:+ snd (Path.splitext model_file)).

(** The copy loop of lines 938-944; [shutil.copy2] writes the destination. *)
Definition copy_siblings (new_model_dir new_model_base main_model_file : string)
    (model_files : list (string * content)) (fs : gmap string content)
  : gmap string content :=
  fold_left
    (fun fs e =>
       if is_sibling main_model_file (fst e)
       then <[sibling_dest new_model_dir new_model_base (fst e) := snd e]> fs
       else fs)
    model_files fs.

(** [f"{original_name} (imported {counter})"] *)
Definition imported_name (original_name : string) (counter : nat) : string :=
  original_name +:+ " (imported " +:+ pretty counter +:+ ")".

(** The loop of lines 954-957, entered with [pipeline_name] and [counter];
    [None]: out of fuel. *)
Fixpoint rename_loop (fuel : nat) (original_name : string) (existing_names : list pyval)
    (pipeline_name : string) (counter : nat) : option string :=
  if str_in pipeline_name existing_names then
    match fuel with
    | O => None
    | S k =>
        rename_loop k original_name existing_names
          (imported_name original_name counter) (S counter)
    end
  else Some pipeline_name.

(** Lines 949-957. One more candidate than there are existing names is
    enough to find a free one. *)
Definition unique_name (original_name : string) (existing_names : list pyval)
  : option string :=
  rename_loop (S (length existing_names)) original_name existing_names original_name 1.

Section ImportPipeline.

Context {R : Type}.

(** The collaborators: [node.model_repo] and [node.pipeline_manager]. *)
Variable store_model :
  world R -> string -> content -> pyval -> pyval -> string -> pyval ->
  call (pyval * world R).
Variable get_model_metadata : world R -> pyval -> call pyval.
Variable pipeline_names : world R -> call (list pyval). (* the 'name' of each listed pipeline *)
Variable create_pipeline : world R -> gmap string pyval -> call (pyval * world R).

(** The [except Exception] handler: [jsonify({'error': str(e)}), 500]. *)
Definition failure (w : world R) : option (response * world R) :=
  Some (ServerError, w).

(** Lines 933-944, after [store_model] has answered. An exception here is
    raised before the first copy. *)
Definition copy_into_new_model (w : world R) (new_model_id : pyval)
    (main_model_file : string) (model_files : list (string * content))
  : call (world R) :=
  match get_model_metadata w new_model_id with
  | Raises => Raises
  | Aborts => Aborts
  | Returns new_model_metadata =>
      if truthy new_model_metadata then
        match new_model_metadata with
        | PDict m =>
            match m !! "stored_path", m !! "stored_filename" with
            | Some (PStr stored_path), Some (PStr stored_filename) =>
                Returns
                  (World
                     (copy_siblings (Path.dirname stored_path)
                        (fst (Path.splitext stored_filename))
                        main_model_file model_files (files w))
                     (registries w))
            | _, _ => Raises        (* KeyError, or TypeError in os.path *)
            end
        | _ => Raises               (* indexing by a string fails *)
        end
      else Returns w
  end.

(** Lines 901-944: the model part. The result is [new_model_id], or the
    exception, together with the world as the model part leaves it. A
    metadata document that is truthy and not an object raises at one of its
    uses ([in], a subscript, [.get]), all of which come before [store_model]. *)
Definition import_model (w : world R) (name : string) (config_data : gmap string pyval)
    (ex : extracted) : call pyval * world R :=
  match ex_models ex with
  | None => (Returns PNone, w)
  | Some listing =>
      match (if listed metadata_name listing then ex_metadata ex else Returns PNone) with
      | Raises => (Raises, w)
      | Aborts => (Aborts, w)
      | Returns model_metadata =>
          let model_files := model_files_of listing in
          match model_files with
          | [] => (Returns PNone, w)
          | (first, first_data) :: _ =>
              let main_model_file := choose_main model_metadata first model_files in
              let main_data :=
                match List.find (fun e => String.eqb (fst e) main_model_file) model_files with
                | Some e => snd e
                | None => first_data
                end in
              let original_filename :=
                match model_metadata with
                | PDict m =>
                    if truthy model_metadata
                    then Returns (default (PStr main_model_file) (m !! "original_filename"))
                    else Returns (PStr main_model_file)
                | _ => if truthy model_metadata then Raises
                       else Returns (PStr main_model_file)
                end in
              match original_filename, config_data !! "model" with
              | Returns (PStr original), Some (PDict model) =>
                  let engine_type := default (PStr "unknown") (model !! "engine_type") in
                  let description := "Imported with pipeline: " +:+ name in
                  let stem := PStr (fst (Path.splitext original)) in
                  let imported :=
                    match model_metadata with
                    | PDict m => if truthy model_metadata
                                 then default stem (m !! "name") else stem
                    | _ => stem
                    end in
                  match store_model w (Path.join "models" main_model_file) main_data
                          (PStr original) engine_type description imported with
                  | Raises => (Raises, w)
                  | Aborts => (Aborts, w)
                  | Returns (new_model_id, w1) =>
                      match copy_into_new_model w1 new_model_id main_model_file
                              model_files with
                      | Raises => (Raises, w1)
                      | Aborts => (Aborts, w1)
                      | Returns w2 => (Returns new_model_id, w2)
                      end
                  end
              | _, _ => (Raises, w)  (* .get on a non-dict, splitext on a non-string *)
              end
          end
      end
  end.

(** [import_pipeline] (lines 865-978). [manager] is the truth value of
    [node.pipeline_manager]. The model covers configuration documents that
    are JSON objects whose ['name'], when present, is a string; [None] marks
    an upload outside of that, and a handler left by an exception that
    [except Exception] does not catch. A collaborator that raises leaves the
    world as it found it. *)
Definition import_pipeline (manager : bool) (up : option upload) (w : world R)
  : option (response * world R) :=
  if negb manager then Some (JsonError 503 "Pipeline manager not available", w)
  else
    match up with
    | None => Some (JsonError 400 "No file uploaded", w)
    | Some u =>
      match up_filename u with
      | None => Some (JsonError 400 "No file selected", w)
      | Some filename =>
        if String.eqb filename "" then Some (JsonError 400 "No file selected", w)
        else if negb (Path.ends_with filename ".zip")
        then Some (JsonError 400 "File must be a ZIP archive", w)
        else
          match up_archive u with
          | Raises => failure w
          | Aborts => None
          | Returns ex =>
            match ex_config ex with
            | None =>
                Some (JsonError 400 "Invalid pipeline export: missing pipeline_config.json", w)
            | Some Raises => failure w
            | Some Aborts => None
            | Some (Returns (PDict config_data)) =>
              match first_missing config_data with
              | Some field =>
                  Some (JsonError 400 ("Invalid pipeline configuration: missing " +:+ field), w)
              | None =>
                match config_data !! "name" with
                | Some (PStr original_name) =>
                  match import_model w original_name config_data ex with
                  | (Raises, w1) => failure w1
                  | (Aborts, _) => None
                  | (Returns new_model_id, w1) =>
                    let config_data :=
                      if truthy new_model_id then
                        match config_data !! "model" with
                        | Some (PDict model) =>
                            Returns (<["model" := PDict (<["id" := new_model_id]> model)]>
                                       config_data)
                        | _ => Raises
                        end
                      else Returns config_data in
                    match config_data, pipeline_names w1 with
                    | Returns config_data, Returns existing_names =>
                      match unique_name original_name existing_names with
                      | None => None
                      | Some pipeline_name =>
                        let config_data :=
                          delete "export_metadata"
                            (<["name" := PStr pipeline_name]> config_data) in
                        match create_pipeline w1 config_data with
                        | Returns (pipeline_id, w2) =>
                            Some (Imported pipeline_id pipeline_name new_model_id, w2)
                        | Raises => failure w1
                        | Aborts => None
                        end
                      end
                    | Aborts, _ | Returns _, Aborts => None
                    | _, _ => failure w1
                    end
                  end
                | _ => None
                end
              end
            | Some (Returns _) => None
            end
          end
      end
    end.

End ImportPipeline.

End Bundle.

(** * Persisting result publishers *)

Module Persist.

(** A destination object: its class and its instance attributes. *)
Record dest := Dest { class_name : string; attrs : gmap string pyval }.

Definition hasattr (d : dest) (a : string) : bool := bool_decide (is_Some (attrs d !! a)).

(** [dest.a]: [AttributeError] when the attribute is not there. *)
Definition attr (d : dest) (a : string) : call pyval :=
  match attrs d !! a with Some v => Returns v | None => Raises end.

(** [getattr(dest, a, fallback)] *)
Definition getattr (d : dest) (a : string) (fallback : pyval) : pyval :=
  default fallback (attrs d !! a).

Definition setattr (d : dest) (a : string) (v : pyval) : dest :=
  Dest (class_name d) (<[a := v]> (attrs d)).

(** [if hasattr(dest, a): config[a] = dest.a] *)
Definition copy_attr (d : dest) (a : string) (config : gmap string pyval)
  : gmap string pyval :=
  match attrs d !! a with Some v => <[a := v]> config | None => config end.

(** [if hasattr(dest, a) and dest.a: config[a] = dest.a] *)
Definition copy_truthy (d : dest) (a : string) (config : gmap string pyval)
  : gmap string pyval :=
  match attrs d !! a with
  | Some v => if truthy v then <[a := v]> config else config
  | None => config
  end.

(** [config[a] = dest.a] *)
Definition copy_required (d : dest) (a : string) (config : call (gmap string pyval))
  : call (gmap string pyval) :=
  match config with
  | Returns c => match attr d a with
                 | Returns v => Returns (<[a := v]> c)
                 | Raises => Raises
                 | Aborts => Aborts
                 end
  | other => other
  end.

(** *** [str.replace(old, '')] and [str.lower()] on ASCII text *)

(** [skip] counts the characters of a matched occurrence still to drop. *)
Fixpoint remove_from (old s : string) (skip : nat) : string :=
  match s with
  | EmptyString => EmptyString
  | String a s' =>
      match skip with
      | S k => remove_from old s' k
      | O =>
          if String.prefix old s
          then remove_from old s' (String.length old - 1)
          else String a (remove_from old s' 0)
      end
  end.

(** [s.replace(old, '')] for a non-empty [old]. *)
Definition remove_all (old s : string) : string := remove_from old s 0.

Definition lower_char (c : ascii) : ascii :=
  let n := nat_of_ascii c in
  if (65 <=? n)%nat && (n <=? 90)%nat then ascii_of_nat (n + 32) else c.

Fixpoint lower (s : string) : string :=
  match s with
  | EmptyString => EmptyString
  | String a s' => String (lower_char a) (lower s')
  end.

(** [dest.__class__.__name__.replace('Destination', '').lower()] *)
Definition type_of_class (name : string) : string := lower (remove_all "Destination" name).

(** *** [settings_manager._serialize_publishers] *)

(** The ['config'] entry (lines 103-135). *)
Definition serialized_config (d : dest) : call (gmap string pyval) :=
  if hasattr d "server" then
    match copy_required d "topic"
            (copy_required d "port" (copy_required d "server" (Returns ∅))) with
    | Returns c =>
        Returns (copy_attr d "include_image_data"
                   (copy_truthy d "password" (copy_truthy d "username" c)))
    | other => other
    end
  else if hasattr d "url" then
    match copy_required d "url" (Returns ∅) with
    | Returns c => Returns (copy_attr d "include_image_data" (copy_attr d "timeout" c))
    | other => other
    end
  else if hasattr d "com_port" then
    match copy_required d "baud" (copy_required d "com_port" (Returns ∅)) with
    | Returns c => Returns (copy_attr d "include_image_data" c)
    | other => other
    end
  else if hasattr d "folder_path" then
    match copy_required d "folder_path" (Returns ∅) with
    | Returns c => Returns (copy_attr d "format" c)
    | other => other
    end
  else Returns ∅.

(** One pass of the loop of lines 95-139: the record of one destination. *)
Definition serialize_publisher (d : dest) : call (gmap string pyval) :=
  match attr d "rate_limit" with
  | Returns rate_limit =>
      match serialized_config d with
      | Returns config =>
          Returns {[ "id" := getattr d "_id" PNone;
                     "type" := PStr (type_of_class (class_name d));
                     "rate_limit" := rate_limit;
                     "config" := PDict config ]}
      | Raises => Raises
      | Aborts => Aborts
      end
  | Raises => Raises
  | Aborts => Aborts
  end.

Fixpoint _serialize_publishers (destinations : list dest) : call (list pyval) :=
  match destinations with
  | [] => Returns []
  | d :: rest =>
      match serialize_publisher d with
      | Returns dest_data =>
          match _serialize_publishers rest with
          | Returns serialized => Returns (PDict dest_data :: serialized)
          | other => other
          end
      | Raises => Raises
      | Aborts => Aborts
      end
  end.

(** *** The publisher part of [InferenceNode._save_settings] *)

(** Lines 428-436. *)
Definition dest_type (d : dest) : string :=
  if hasattr d "server" && hasattr d "port" && hasattr d "topic" then "mqtt"
  else if hasattr d "url" then "webhook"
  else if hasattr d "com_port" then "serial"
  else if hasattr d "file_path" then "file"
  else "unknown".

(** Lines 455-497. *)
Definition saved_config (d : dest) : gmap string pyval :=
  let t := dest_type d in
  if String.eqb t "mqtt" then
    copy_truthy d "password" (copy_truthy d "username" (copy_truthy d "topic"
      (copy_attr d "port" (copy_truthy d "server" ∅))))
  else if String.eqb t "webhook" then
    copy_attr d "method" (copy_truthy d "headers" (copy_truthy d "url" ∅))
  else if String.eqb t "serial" then
    copy_attr d "timeout" (copy_attr d "baud" (copy_truthy d "com_port" ∅))
  else if String.eqb t "file" then
    copy_attr d "format" (copy_truthy d "file_path" ∅)
  else ∅.

(** [pub_config] (lines 438-497). *)
Definition save_publisher (d : dest) : gmap string pyval :=
  let pub_config := {[ "type" := PStr (dest_type d); "config" := PDict (saved_config d) ]} in
  let pub_config :=
    match attrs d !! "_id" with
    | Some v => if truthy v then <["id" := v]> pub_config else pub_config
    | None => pub_config
    end in
  let pub_config :=
    match attrs d !! "rate_limit" with
    | Some PNone | None => pub_config
    | Some v => <["rate_limit" := v]> pub_config
    end in
  match attrs d !! "include_image_data" with
  | Some v => <["include_image_data" := v]> pub_config
  | None => pub_config
  end.

(** *** [settings_manager._deserialize_publishers] *)

Record node := { node_id : pyval; node_name : pyval }.

(** What the restoration leaves: the destinations of [node.result_publisher]
    and, for every record that failed, the value the warning names
    ([pub_data.get('type', 'unknown')]). [Escaped]: the loop was left by an
    exception. *)
Inductive restored :=
  | Done (destinations : list dest) (warnings : list pyval)
  | Escaped (destinations : list dest) (warnings : list pyval).

Section Restore.

(** The class [ResultPublisher.ResultDestination] and the registry's [add],
    which this repository imports. *)
Variable ResultDestination : pyval -> call dest.
Variable set_context_variables : dest -> pyval -> pyval -> call dest.
Variable configure : dest -> gmap string pyval -> call dest.
Variable set_rate_limit : dest -> pyval -> call dest.
Variable add : list dest -> dest -> call (list dest).

Definition and_then {A B} (c : call A) (k : A -> call B) : call B :=
  match c with Returns a => k a | Raises => Raises | Aborts => Aborts end.

(** Lines 150-173: the destination built from one record, before it is
    added. *)
Definition build (n : node) (pub_data : pyval) : call dest :=
  match pub_data with
  | PDict m =>
      match m !! "type" with
      | None => Raises                                        (* KeyError *)
      | Some dest_type =>
          let config := default (PDict ∅) (m !! "config") in
          let rate_limit := default PNone (m !! "rate_limit") in
          let dest_id := default PNone (m !! "id") in
          and_then (ResultDestination dest_type) (fun destination =>
          let destination :=
            if truthy dest_id then setattr destination "_id" dest_id else destination in
          and_then (set_context_variables destination (node_id n) (node_name n))
            (fun destination =>
          and_then (match config with
                    | PDict c => configure destination c
                    | _ => Raises       (* ** needs a mapping *)
                    end) (fun destination =>
          match rate_limit with
          | PNone => Returns destination
          | _ => set_rate_limit destination rate_limit
          end)))
      end
  | _ => Raises                        (* pub_data['type'] on a non-dict *)
  end.

(** The loop of lines 148-179. The handler's own [pub_data.get(...)] raises
    on a record that is not a dict, and nothing catches that. *)
Fixpoint _deserialize_publishers (n : node) (publishers_data : list pyval)
    (destinations : list dest) (warnings : list pyval) : restored :=
  match publishers_data with
  | [] => Done destinations warnings
  | pub_data :: rest =>
      match and_then (build n pub_data) (add destinations) with
      | Returns destinations' => _deserialize_publishers n rest destinations' warnings
      | Aborts => Escaped destinations warnings
      | Raises =>
          match pub_data with
          | PDict m =>
              _deserialize_publishers n rest destinations
                (warnings ++ [default (PStr "unknown") (m !! "type")])
          | _ => Escaped destinations warnings
          end
      end
  end.

End Restore.

(** *** The destination classes *)

(** Modelled from the spec: the class [ResultDestination] of the
    [ResultPublisher] package is not among the sources. Section 3 and 4.3
    describe a destination as a kind from a closed set, a sparse key-value
    configuration and an optional rate limit; deserialisation constructs a
    destination of the recorded kind, injects the node's identity variables,
    applies the stored sparse configuration, then the rate limit. The class
    names are the ones [inference_node.py] and [settings_manager.py] mention. *)
Definition class_of_kind (kind : string) : option string :=
  if String.eqb kind "mqtt" then Some "MQTTDestination"
  else if String.eqb kind "webhook" then Some "WebhookDestination"
  else if String.eqb kind "serial" then Some "SerialDestination"
  else if String.eqb kind "file" then Some "FileDestination"
  else if String.eqb kind "folder" then Some "FolderDestination"
  else None.

(** Modelled from the spec: a destination of the recorded kind without any
    configuration and without a rate limit; an unknown kind fails. *)
Definition ResultDestination_spec (kind : pyval) : call dest :=
  match kind with
  | PStr k =>
      match class_of_kind k with
      | Some c => Returns (Dest c {[ "rate_limit" := PNone ]})
      | None => Raises
      end
  | _ => Raises
  end.

(** Modelled from the spec: the node's identity variables are kept for the
    substitution in configuration values at publishing time. *)
Definition set_context_variables_spec (d : dest) (id name : pyval) : call dest :=
  Returns (setattr d "context_variables"
             (PDict {[ "node_id" := id; "node_name" := name ]})).

(** Modelled from the spec: the stored sparse configuration is applied,
    each entry becoming the attribute of its name. *)
Definition configure_spec (d : dest) (config : gmap string pyval) : call dest :=
  Returns (Dest (class_name d) (config ∪ attrs d)).

(** Modelled from the spec: the minimum interval between deliveries. *)
Definition set_rate_limit_spec (d : dest) (interval : pyval) : call dest :=
  Returns (setattr d "rate_limit" interval).

(** Modelled from the spec: the registry is an ordered collection. *)
Definition add_spec (destinations : list dest) (d : dest) : call (list dest) :=
  Returns (destinations ++ [d]).

End Persist.

(** * Exporting a pipeline: the download name *)

Module Exporter.

(** [s.replace(old, new)] for one-character [old] and [new]. *)
Fixpoint replace_char (old new : ascii) (s : string) : string :=
  match s with
  | EmptyString => EmptyString
  | String a s' => String (if Ascii.eqb a old then new else a) (replace_char old new s')
  end.

(** The character class of the [re.sub] of line 830: the characters
    [< > : / \ | ? *] and the double quote (character 34). *)
Definition reserved (c : ascii) : bool :=
  existsb (Ascii.eqb c) ["<"; ">"; ":"; "034"; "/"; "\"; "|"; "?"; "*"]%char.

Fixpoint sub_reserved (s : string) : string :=
  match s with
  | EmptyString => EmptyString
  | String a s' => String (if reserved a then "_"%char else a) (sub_reserved s')
  end.

(** Lines 829-830 of [export_pipeline]: the file name of the download. The
    characters concerned are ASCII, so working on bytes is working on the
    characters of the name. *)
Definition zip_filename (name : string) : string :=
  sub_reserved (replace_char "/" "_" (replace_char " " "_" name) +:+ "_export.zip").

End Exporter.

(** * Python containers as the handlers probe them *)

Module Py.

(** [pat in s] on strings. *)
Fixpoint is_substring (pat s : string) : bool :=
  String.prefix pat s
  || match s with
     | EmptyString => false
     | String _ s' => is_substring pat s'
     end.

(** [k in v] for a string [k]: a key of a dict, an element of a list, a
    substring of a string; [TypeError] on anything else. *)
Definition contains (v : pyval) (k : string) : call bool :=
  match v with
  | PDict m => Returns (bool_decide (is_Some (m !! k)))
  | PList l => Returns (str_in k l)
  | PStr s => Returns (is_substring k s)
  | PNone | PBool _ | PInt _ => Raises
  end.

(** [v[k]] for a string [k]: [KeyError] on a dict without it, [TypeError]
    on anything that is not a dict. *)
Definition getitem (v : pyval) (k : string) : call pyval :=
  match v with
  | PDict m => match m !! k with Some x => Returns x | None => Raises end
  | _ => Raises
  end.

(** [v.get(k, fallback)]: only dicts have [get]. *)
Definition get (v : pyval) (k : string) (fallback : pyval) : call pyval :=
  match v with
  | PDict m => Returns (default fallback (m !! k))
  | _ => Raises
  end.

(** [len(v)] succeeds on dicts, lists and strings. *)
Definition sized (v : pyval) : bool :=
  match v with PDict _ | PList _ | PStr _ => true | _ => false end.

Fixpoint chars (s : string) : list pyval :=
  match s with
  | EmptyString => []
  | String a s' => PStr (String a EmptyString) :: chars s'
  end.

(** What [for x in v] visits: the elements of a list, the keys of a dict,
    the characters of a string. *)
Definition iterate (v : pyval) : call (list pyval) :=
  match v with
  | PList l => Returns l
  | PDict m => Returns (PStr <$> (map_to_list m).*1)
  | PStr s => Returns (chars s)
  | PNone | PBool _ | PInt _ => Raises
  end.

End Py.

(** * [settings_manager]: saving and loading the node settings *)

Module Settings.
Import Persist.

(** The node as these two functions see it: [node_id], [node_name],
    [node_info['node_name']], [favorite_configs], the destinations of
    [result_publisher], and the attributes of [telemetry] when there is one. *)
Record node_state := {
  st_node_id : pyval;
  st_node_name : pyval;
  st_info_name : pyval;
  st_favorite_configs : pyval;
  st_destinations : list dest;
  st_telemetry : option (gmap string pyval)
}.

(** Lines 74-80. *)
Definition telemetry_section (telemetry : gmap string pyval) : pyval :=
  PDict {[ "enabled" := default (PBool false) (telemetry !! "running");
           "publish_interval" := default (PInt 30) (telemetry !! "update_interval");
           "mqtt_server" := default (PStr "") (telemetry !! "mqtt_server");
           "mqtt_port" := default (PInt 1883) (telemetry !! "mqtt_port");
           "mqtt_topic" := default (PStr "infernode/telemetry")
                             (telemetry !! "mqtt_topic") ]}.

(** The dictionary of lines 66-80. *)
Definition settings_document (n : node_state) : call (gmap string pyval) :=
  match _serialize_publishers (st_destinations n) with
  | Returns serialized =>
      let settings : gmap string pyval :=
        {[ "node_name" := st_node_name n;
           "favorite_configs" := st_favorite_configs n;
           "result_publishers" := PList serialized ]} in
      Returns match st_telemetry n with
              | Some telemetry => <["telemetry" := telemetry_section telemetry]> settings
              | None => settings
              end
  | Raises => Raises
  | Aborts => Aborts
  end.

(** [save_settings(node)]: the content of the settings file afterwards
    ([None]: no file) and whether an error was logged. The file is opened
    only after the dictionary is complete. *)
Definition save_settings (n : node_state) (file : option pyval) : option pyval * bool :=
  match settings_document n with
  | Returns settings => (Some (PDict settings), false)
  | _ => (file, true)
  end.

Section Loading.

Variable ResultDestination : pyval -> call dest.
Variable set_context_variables : dest -> pyval -> pyval -> call dest.
Variable configure : dest -> gmap string pyval -> call dest.
Variable set_rate_limit : dest -> pyval -> call dest.
Variable add : list dest -> dest -> call (list dest).
(** [node.telemetry.configure_mqtt(mqtt_server=, mqtt_port=, mqtt_topic=)]
    and [node.telemetry.start_telemetry()] on the telemetry attributes. *)
Variable configure_mqtt :
  gmap string pyval -> pyval -> pyval -> pyval -> call (gmap string pyval).
Variable start_telemetry : gmap string pyval -> call (gmap string pyval).

(** How [load_settings] ends: normally, in its [except Exception] handler
    (a warning is logged), or left by an exception nobody catches. *)
Inductive ending := Loaded | Warned | Left.

Definition set_name (v : pyval) (n : node_state) : node_state :=
  {| st_node_id := st_node_id n; st_node_name := v; st_info_name := v;
     st_favorite_configs := st_favorite_configs n;
     st_destinations := st_destinations n; st_telemetry := st_telemetry n |}.

Definition set_favorites (v : pyval) (n : node_state) : node_state :=
  {| st_node_id := st_node_id n; st_node_name := st_node_name n;
     st_info_name := st_info_name n; st_favorite_configs := v;
     st_destinations := st_destinations n; st_telemetry := st_telemetry n |}.

Definition set_destinations (ds : list dest) (n : node_state) : node_state :=
  {| st_node_id := st_node_id n; st_node_name := st_node_name n;
     st_info_name := st_info_name n; st_favorite_configs := st_favorite_configs n;
     st_destinations := ds; st_telemetry := st_telemetry n |}.

Definition set_telemetry (t : gmap string pyval) (n : node_state) : node_state :=
  {| st_node_id := st_node_id n; st_node_name := st_node_name n;
     st_info_name := st_info_name n; st_favorite_configs := st_favorite_configs n;
     st_destinations := st_destinations n; st_telemetry := Some t |}.

(** One guarded step [if key in settings: ...]: the step runs on the entry
    when the key is there. *)
Definition when_present (settings : pyval) (key : string)
    (step : pyval -> node_state -> node_state * ending) (n : node_state)
  : node_state * ending :=
  match Py.contains settings key with
  | Returns true =>
      match Py.getitem settings key with
      | Returns v => step v n
      | Raises => (n, Warned)
      | Aborts => (n, Left)
      end
  | Returns false => (n, Loaded)
  | Raises => (n, Warned)
  | Aborts => (n, Left)
  end.

(** Run [second] after [first] unless [first] ended in an exception. *)
Definition next (first : node_state * ending)
    (second : node_state -> node_state * ending) : node_state * ending :=
  match first with
  | (n, Loaded) => second n
  | ended => ended
  end.

(** Lines 21-23. *)
Definition restore_name (v : pyval) (n : node_state) : node_state * ending :=
  (set_name v n, Loaded).

(** Lines 26-28: [len(node.favorite_configs)] is taken for the log line. *)
Definition restore_favorites (v : pyval) (n : node_state) : node_state * ending :=
  (set_favorites v n, if Py.sized v then Loaded else Warned).

(** Lines 31-32. *)
Definition restore_publishers (v : pyval) (n : node_state) : node_state * ending :=
  match Py.iterate v with
  | Returns publishers_data =>
      match _deserialize_publishers ResultDestination set_context_variables configure
              set_rate_limit add
              {| node_id := st_node_id n; node_name := st_node_name n |}
              publishers_data (st_destinations n) [] with
      | Done ds _ => (set_destinations ds n, Loaded)
      | Escaped ds _ => (set_destinations ds n, Warned)
      end
  | Raises => (n, Warned)
  | Aborts => (n, Left)
  end.

(** Lines 39-47: the inner [try] around [configure_mqtt]; the arguments are
    evaluated inside it. *)
Definition restore_mqtt (telemetry_settings : pyval) (t : gmap string pyval)
  : call (gmap string pyval) :=
  match and_then (Py.getitem telemetry_settings "mqtt_server") (fun server =>
        and_then (Py.get telemetry_settings "mqtt_port" (PInt 1883)) (fun port =>
        and_then (Py.get telemetry_settings "mqtt_topic" (PStr "infernode/telemetry"))
          (fun topic => configure_mqtt t server port topic))) with
  | Returns t' => Returns t'
  | Raises => Returns t              (* warning logged *)
  | Aborts => Aborts
  end.

(** Lines 35-55, entered when ['telemetry'] is in the settings and the node
    has a telemetry service [t]. *)
Definition restore_telemetry (telemetry_settings : pyval) (t : gmap string pyval)
  : call unit * gmap string pyval :=
  match and_then (Py.contains telemetry_settings "mqtt_server") (fun has =>
          if has then restore_mqtt telemetry_settings t else Returns t) with
  | Returns t1 =>
      match and_then (Py.contains telemetry_settings "publish_interval") (fun has =>
              if has
              then and_then (Py.getitem telemetry_settings "publish_interval")
                     (fun v => Returns (<["update_interval" := v]> t1))
              else Returns t1) with
      | Returns t2 =>
          match Py.get telemetry_settings "enabled" (PBool false) with
          | Returns enabled =>
              if truthy enabled
              then match start_telemetry t2 with
                   | Returns t3 => (Returns tt, t3)
                   | Raises => (Raises, t2)
                   | Aborts => (Aborts, t2)
                   end
              else (Returns tt, t2)
          | Raises => (Raises, t2)
          | Aborts => (Aborts, t2)
          end
      | Raises => (Raises, t1)
      | Aborts => (Aborts, t1)
      end
  | Raises => (Raises, t)
  | Aborts => (Aborts, t)
  end.

Definition restore_telemetry_step (v : pyval) (n : node_state) : node_state * ending :=
  match st_telemetry n with
  | Some t =>
      match restore_telemetry v t with
      | (Returns _, t') => (set_telemetry t' n, Loaded)
      | (Raises, t') => (set_telemetry t' n, Warned)
      | (Aborts, t') => (set_telemetry t' n, Left)
      end
  | None => (n, Loaded)
  end.

(** [load_settings(node)] (lines 13-60); [file] is what [json.load] reads,
    [None] when there is no settings file. *)
Definition load_settings (file : option (call pyval)) (n : node_state)
  : node_state * ending :=
  match file with
  | None => (n, Loaded)
  | Some Raises => (n, Warned)
  | Some Aborts => (n, Left)
  | Some (Returns settings) =>
      next (when_present settings "node_name" restore_name n) (fun n =>
      next (when_present settings "favorite_configs" restore_favorites n) (fun n =>
      next (when_present settings "result_publishers" restore_publishers n) (fun n =>
      match Py.contains settings "telemetry" with
      | Returns true =>
          match st_telemetry n with
          | Some _ =>
              match Py.getitem settings "telemetry" with
              | Returns v => restore_telemetry_step v n
              | Raises => (n, Warned)
              | Aborts => (n, Left)
              end
          | None => (n, Loaded)
          end
      | Returns false => (n, Loaded)
      | Raises => (n, Warned)
      | Aborts => (n, Left)
      end)))
  end.

End Loading.

End Settings.

(** * [InferenceNode._load_settings] and [_save_settings] *)

Module NodeSettings.
Import Persist Settings.

(** Lines 282-290: the saved type names mapped to destination types. *)
Definition normalize_type (destination_type : pyval) : pyval :=
  match destination_type with
  | PStr s =>
      if String.eqb s "MQTTDestination" || String.eqb s "mqtt" then PStr "mqtt"
      else if String.eqb s "WebhookDestination" || String.eqb s "webhook"
      then PStr "webhook"
      else if String.eqb s "SerialDestination" || String.eqb s "serial"
      then PStr "serial"
      else if String.eqb s "FileDestination" || String.eqb s "file" then PStr "file"
      else destination_type
  | _ => destination_type
  end.

(** [value is not None and value != ''] *)
Definition kept (value : pyval) : bool :=
  match value with
  | PNone => false
  | PStr EmptyString => false
  | _ => true
  end.

(** Lines 294-297 (and lines 202-205 of [routes_publisher.py]): the loop
    over [config.items()] that fills [cleaned_config]. *)
Definition clean_config (config : gmap string pyval) : gmap string pyval :=
  map_fold (fun key value cleaned_config =>
              if kept value then <[key := value]> cleaned_config else cleaned_config)
           ∅ config.

Section Loading.

Variable ResultDestination : pyval -> call dest.
Variable set_context_variables : dest -> pyval -> pyval -> call dest.
Variable configure : dest -> gmap string pyval -> call dest.
Variable set_rate_limit : dest -> pyval -> call dest.
Variable add : list dest -> dest -> call (list dest).

(** Lines 282-317: the destination one record configures, before it is
    registered. *)
Definition configured (n : node) (pub_config : gmap string pyval) : call dest :=
  match pub_config !! "type" with
  | None => Raises                                             (* KeyError *)
  | Some saved_type =>
      let destination_type := normalize_type saved_type in
      match default (PDict ∅) (pub_config !! "config") with
      | PDict config =>
          let cleaned_config := clean_config config in
          and_then (ResultDestination destination_type) (fun destination =>
          and_then (set_context_variables destination (node_id n) (node_name n))
            (fun destination =>
          and_then (configure destination cleaned_config) (fun destination =>
          and_then (match pub_config !! "rate_limit" with
                    | None | Some PNone => Returns destination
                    | Some rate_limit => set_rate_limit destination rate_limit
                    end) (fun destination =>
          Returns match pub_config !! "include_image_data" with
                  | Some flag => setattr destination "include_image_data" flag
                  | None => destination
                  end))))
      | _ => Raises                          (* config.items() *)
      end
  end.

(** Lines 319-327: a record with an ['id'] is appended to the destinations
    directly; one without goes through [result_publisher.add]. *)
Definition register (pub_config : gmap string pyval) (destinations : list dest)
    (destination : dest) : call (list dest) :=
  match pub_config !! "id" with
  | Some ident => Returns (destinations ++ [setattr destination "_id" ident])
  | None => add destinations destination
  end.

(** The loop of lines 279-331. The handler's own [pub_config.get] raises on
    a record that is not a dict; that exception leaves the loop. *)
Fixpoint restore_publishers (n : node) (publishers : list pyval)
    (destinations : list dest) (errors : list pyval) : restored :=
  match publishers with
  | [] => Done destinations errors
  | PDict pub_config :: rest =>
      match and_then (configured n pub_config) (register pub_config destinations) with
      | Returns destinations' => restore_publishers n rest destinations' errors
      | Raises =>
          restore_publishers n rest destinations
            (errors ++ [default (PStr "unknown") (pub_config !! "type")])
      | Aborts => Escaped destinations errors
      end
  | _ :: _ => Escaped destinations errors
  end.

(** Lines 273-331 of [_load_settings]: the node name, then the publishers.
    The name is replaced only by a non-empty one. *)
Definition load_name_and_publishers (settings : pyval) (n : node_state)
  : node_state * ending :=
  match and_then (Py.contains settings "node_name") (fun has =>
          if has then Py.getitem settings "node_name" else Returns PNone) with
  | Returns name =>
      let n := if truthy name
               then {| st_node_id := st_node_id n; st_node_name := name;
                       st_info_name := st_info_name n;
                       st_favorite_configs := st_favorite_configs n;
                       st_destinations := st_destinations n;
                       st_telemetry := st_telemetry n |}
               else n in
      match Py.contains settings "publishers" with
      | Returns true =>
          match and_then (Py.getitem settings "publishers") Py.iterate with
          | Returns publishers =>
              match restore_publishers
                      {| node_id := st_node_id n; node_name := st_node_name n |}
                      publishers (st_destinations n) [] with
              | Done destinations _ => (set_destinations destinations n, Loaded)
              | Escaped destinations _ => (set_destinations destinations n, Warned)
              end
          | Raises => (n, Warned)
          | Aborts => (n, Left)
          end
      | Returns false => (n, Loaded)
      | Raises => (n, Warned)
      | Aborts => (n, Left)
      end
  | Raises => (n, Warned)
  | Aborts => (n, Left)
  end.

End Loading.

(** Lines 502-516 of [_save_settings]. *)
Definition telemetry_config (telemetry : gmap string pyval) : gmap string pyval :=
  let config : gmap string pyval :=
    {[ "enabled" := default (PBool false) (telemetry !! "running");
       "publish_interval" := default (PInt 30) (telemetry !! "update_interval") ]} in
  match telemetry !! "mqtt_server" with
  | Some server =>
      if truthy server
      then <["mqtt_topic" := default (PStr "infernode/telemetry")
                               (telemetry !! "mqtt_topic")]>
             (<["mqtt_port" := default (PInt 1883) (telemetry !! "mqtt_port")]>
                (<["mqtt_server" := server]> config))
      else config
  | None => config
  end.

(** The dictionary [_save_settings] hands to [json.dump] (lines 418-519). *)
Definition _save_settings (n : node_state) : gmap string pyval :=
  <["favorite_configs" := st_favorite_configs n]>
    (<["telemetry" := PDict match st_telemetry n with
                            | Some telemetry => telemetry_config telemetry
                            | None => ∅
                            end]>
       {[ "node_id" := st_node_id n;
          "node_name" := st_node_name n;
          "publishers" := PList ((fun d => PDict (save_publisher d))
                                   <$> st_destinations n) ]}).

End NodeSettings.

(** * [routes_publisher]: configuring publishers and keeping favourites *)

Module PublisherRoutes.
Import Persist Settings.

(** ** [configure_publisher] *)

(** The replies of [POST /api/publisher/configure]: 200 "configured", 400
    "Configuration failed: ...", 400 "... configuration failed - check logs",
    and 500. *)
Inductive configure_reply := Configured | ConfigurationFailed | NotConfigured | Failed.

Section Configure.

Variable ResultDestination : pyval -> call dest.
Variable set_context_variables : dest -> pyval -> pyval -> call dest.
Variable configure : dest -> gmap string pyval -> call dest.
Variable set_rate_limit : dest -> pyval -> call dest.
Variable add : list dest -> dest -> call (list dest).

(** Lines 20-72; [data] is what [request.get_json()] returns. The handler's
    result is the reply, the node and the settings file afterwards. *)
Definition configure_publisher (data : pyval) (n : node_state) (file : option pyval)
  : call (configure_reply * node_state * option pyval) :=
  match data with
  | PDict request =>
      let destination_type := default PNone (request !! "type") in
      match default (PDict ∅) (request !! "config") with
      | PDict config =>
          let rate_limit := default PNone (config !! "rate_limit") in
          let config := delete "rate_limit" config in
          match and_then (ResultDestination destination_type) (fun destination =>
                  set_context_variables destination (st_node_id n) (st_node_name n)) with
          | Returns destination =>
              match configure destination config with
              | Returns destination =>
                  match attr destination "is_configured" with
                  | Returns is_configured =>
                      if truthy is_configured then
                        match and_then
                                match rate_limit with
                                | PNone => Returns destination
                                | _ => set_rate_limit destination rate_limit
                                end
                                (add (st_destinations n)) with
                        | Returns destinations =>
                            let n' := set_destinations destinations n in
                            Returns (Configured, n', (save_settings n' file).1)
                        | Raises => Returns (Failed, n, file)
                        | Aborts => Aborts
                        end
                      else Returns (NotConfigured, n, file)
                  | Raises => Returns (Failed, n, file)
                  | Aborts => Aborts
                  end
              | Raises => Returns (ConfigurationFailed, n, file)
              | Aborts => Aborts
              end
          | Raises => Returns (Failed, n, file)
          | Aborts => Aborts
          end
      | _ => Returns (Failed, n, file)                 (* config.pop *)
      end
  | _ => Returns (Failed, n, file)                     (* data.get *)
  end.

End Configure.

(** ** The favourites *)

(** [node.favorite_configs] while the node runs: a dict from favourite ids
    to favourites, in insertion order. *)
Definition favorites := list (string * pyval).

Definition dict_get (k : string) (d : favorites) : option pyval :=
  snd <$> List.find (fun entry => String.eqb entry.1 k) d.

(** [d[k] = v]: in place when the key is there, at the end otherwise. *)
Fixpoint dict_set (k : string) (v : pyval) (d : favorites) : favorites :=
  match d with
  | [] => [(k, v)]
  | (k', v') :: rest =>
      if String.eqb k' k then (k, v) :: rest else (k', v') :: dict_set k v rest
  end.

(** [del d[k]] *)
Definition dict_del (k : string) (d : favorites) : favorites :=
  List.filter (fun entry => negb (String.eqb entry.1 k)) d.

(** What [json.dump] writes for the favourites. *)
Definition as_object (d : favorites) : pyval := PDict (list_to_map d).

(** [save_settings(node)] with the favourites as they are now; only the file
    changes. *)
Definition persist (favs : favorites) (n : node_state) (file : option pyval)
  : option pyval :=
  (save_settings
     {| st_node_id := st_node_id n; st_node_name := st_node_name n;
        st_info_name := st_info_name n; st_favorite_configs := as_object favs;
        st_destinations := st_destinations n; st_telemetry := st_telemetry n |}
     file).1.

(** The replies of the favourites routes: 200 with the favourite, 200
    "deleted", 400, 404 and 500. *)
Inductive reply :=
  | Saved (favorite : pyval)
  | Updated (favorite : pyval)
  | Deleted
  | BadRequest
  | NotFound
  | ServerError.

Section Favorites.

(** [str.strip] and [str.lower]. *)
Variable strip : string -> string.
Variable lower : string -> string.

(** [v.strip()] and [v.lower()]: only strings have them. *)
Definition py_strip (v : pyval) : call string :=
  match v with PStr s => Returns (strip s) | _ => Raises end.

Definition py_lower (v : pyval) : call string :=
  match v with PStr s => Returns (lower s) | _ => Raises end.

(** [existing_fav['name'].lower() == name.lower()] *)
Definition same_name (existing_fav : pyval) (name : string) : call bool :=
  and_then (Py.getitem existing_fav "name") (fun v =>
  and_then (py_lower v) (fun s => Returns (String.eqb s (lower name)))).

(** The loop of lines 297-299: [true] when it returns the 400. *)
Fixpoint name_taken (name : string) (existing : list pyval) : call bool :=
  match existing with
  | [] => Returns false
  | existing_fav :: rest =>
      match same_name existing_fav name with
      | Returns true => Returns true
      | Returns false => name_taken name rest
      | Raises => Raises
      | Aborts => Aborts
      end
  end.

(** [save_favorite_config] (lines 268-315); [favorite_id] is the fresh
    [uuid4] and [now] the time stamp. *)
Definition save_favorite_config (data : pyval) (favorite_id now : string)
    (favs : favorites) (n : node_state) (file : option pyval)
  : reply * favorites * option pyval :=
  match
    and_then (Py.get data "name" (PStr "")) (fun v =>
    and_then (py_strip v) (fun name =>
    and_then (Py.get data "description" (PStr "")) (fun v =>
    and_then (py_strip v) (fun description =>
    and_then (Py.get data "type" PNone) (fun destination_type =>
    and_then (Py.get data "config" (PDict ∅)) (fun config =>
    if String.eqb name "" then Returns (BadRequest, favs, file)
    else if negb (truthy destination_type) then Returns (BadRequest, favs, file)
    else
      let favorite :=
        PDict {[ "id" := PStr favorite_id; "name" := PStr name;
                 "description" := PStr description; "type" := destination_type;
                 "config" := config; "created_at" := PStr now ]} in
      and_then (name_taken name (snd <$> favs)) (fun taken =>
      if taken then Returns (BadRequest, favs, file)
      else
        let favs' := dict_set favorite_id favorite favs in
        Returns (Saved favorite, favs', persist favs' n file)))))))) with
  | Returns result => result
  | _ => (ServerError, favs, file)
  end.

(** [delete_favorite_config] (lines 318-338). *)
Definition delete_favorite_config (favorite_id : string)
    (favs : favorites) (n : node_state) (file : option pyval)
  : reply * favorites * option pyval :=
  match dict_get favorite_id favs with
  | None => (NotFound, favs, file)
  | Some favorite =>
      match Py.getitem favorite "name" with
      | Returns _ =>
          let favs' := dict_del favorite_id favs in
          (Deleted, favs', persist favs' n file)
      | _ => (ServerError, favs, file)
      end
  end.

(** The loop of lines 357-359: the other favourites are compared, in
    order. *)
Fixpoint name_taken_by_other (favorite_id new_name : string) (items : favorites)
  : call bool :=
  match items with
  | [] => Returns false
  | (fav_id, existing_fav) :: rest =>
      if String.eqb fav_id favorite_id then name_taken_by_other favorite_id new_name rest
      else
        match same_name existing_fav new_name with
        | Returns true => Returns true
        | Returns false => name_taken_by_other favorite_id new_name rest
        | Raises => Raises
        | Aborts => Aborts
        end
  end.

(** [favorite[key] = value] on the favourite stored under [favorite_id]:
    the stored object itself is changed. *)
Definition set_field (favorite_id key : string) (value : pyval) (favs : favorites)
  : call favorites :=
  match dict_get favorite_id favs with
  | Some (PDict favorite) =>
      Returns (dict_set favorite_id (PDict (<[key := value]> favorite)) favs)
  | _ => Raises
  end.

(** One [if key in data: ...] block of lines 351-367; the favourites come
    back as they are when the block is left, also by an exception. *)
Definition rename (favorite_id : string) (data : pyval) (favs : favorites)
  : call (option favorites) :=
  and_then (Py.contains data "name") (fun has =>
  if has then
    and_then (Py.getitem data "name") (fun v =>
    and_then (py_strip v) (fun new_name =>
    if String.eqb new_name "" then Returns None
    else
      and_then (name_taken_by_other favorite_id new_name favs) (fun taken =>
      if taken then Returns None
      else and_then (set_field favorite_id "name" (PStr new_name) favs)
             (fun favs' => Returns (Some favs')))))
  else Returns (Some favs)).

Definition redescribe (favorite_id : string) (data : pyval) (favs : favorites)
  : call favorites :=
  and_then (Py.contains data "description") (fun has =>
  if has then
    and_then (Py.getitem data "description") (fun v =>
    and_then (py_strip v) (fun description =>
    set_field favorite_id "description" (PStr description) favs))
  else Returns favs).

Definition reconfigure (favorite_id : string) (data : pyval) (favs : favorites)
  : call favorites :=
  and_then (Py.contains data "config") (fun has =>
  if has then
    and_then (Py.getitem data "config") (fun config =>
    set_field favorite_id "config" config favs)
  else Returns favs).

(** [update_favorite_config] (lines 341-382). *)
Definition update_favorite_config (favorite_id : string) (data : pyval) (now : string)
    (favs : favorites) (n : node_state) (file : option pyval)
  : reply * favorites * option pyval :=
  match dict_get favorite_id favs with
  | None => (NotFound, favs, file)
  | Some _ =>
      match rename favorite_id data favs with
      | Returns None => (BadRequest, favs, file)
      | Returns (Some favs1) =>
          match redescribe favorite_id data favs1 with
          | Returns favs2 =>
              match reconfigure favorite_id data favs2 with
              | Returns favs3 =>
                  match set_field favorite_id "updated_at" (PStr now) favs3 with
                  | Returns favs4 =>
                      (Updated (default PNone (dict_get favorite_id favs4)), favs4,
                       persist favs4 n file)
                  | _ => (ServerError, favs3, file)
                  end
              | _ => (ServerError, favs2, file)
              end
          | _ => (ServerError, favs1, file)
          end
      | _ => (ServerError, favs, file)
      end
  end.

End Favorites.

End PublisherRoutes.

(** * [routes_pipelines]: creating and updating a pipeline *)

Module PipelineRoutes.
Import Persist.

(** The replies of [create_pipeline] and [update_pipeline]. *)
Inductive reply :=
  | Unavailable                       (* 503 "Pipeline manager not available" *)
  | MissingField (field : string)     (* 400 "Missing required field: ..." *)
  | NoData                            (* 400 "No data provided" *)
  | NotFound                          (* 404 "Pipeline not found" *)
  | Running                           (* 400 "Cannot update a running pipeline..." *)
  | UpdateFailed                      (* 500 "Failed to update pipeline" *)
  | ServerError                       (* 500, the exception's text *)
  | Created (pipeline_id : pyval)     (* 200 "created" *)
  | Updated.                          (* 200 "updated" *)

Definition required_fields : list string :=
  ["name"; "frame_source"; "model"; "destinations"].

(** The loop of lines 36-38: the first field that is not [in config]. *)
Fixpoint first_missing (config : pyval) (fields : list string) : call (option string) :=
  match fields with
  | [] => Returns None
  | field :: rest =>
      match Py.contains config field with
      | Returns true => first_missing config rest
      | Returns false => Returns (Some field)
      | Raises => Raises
      | Aborts => Aborts
      end
  end.

Section Routes.

(** The state of the pipeline manager and of the node info. *)
Context {R : Type}.

(** [node.hardware_detector.format_for(engine_type, device)] *)
Variable format_for : pyval -> pyval -> call pyval.
(** [node.pipeline_manager]: [create_pipeline], [get_pipeline],
    [update_pipeline]. *)
Variable manager_create : R -> pyval -> call (pyval * R).
Variable manager_get : R -> string -> call pyval.
Variable manager_update : R -> string -> pyval -> call (pyval * R).
(** [node._update_node_info_with_pipelines()] *)
Variable update_node_info : R -> call R.

(** Lines 41-49 and 218-226: the device of the model section rewritten for
    its engine, in the request's own dictionary. *)
Definition format_device (config : pyval) : call pyval :=
  and_then (Py.contains config "model") (fun has_model =>
  if negb has_model then Returns config else
  and_then (Py.getitem config "model") (fun model =>
  and_then (Py.contains model "device") (fun has_device =>
  if negb has_device then Returns config else
  and_then (Py.contains model "engine_type") (fun has_engine =>
  if negb has_engine then Returns config else
  and_then (Py.getitem model "device") (fun original_device =>
  and_then (Py.getitem model "engine_type") (fun engine_type =>
  and_then (format_for engine_type original_device) (fun formatted_device =>
  match config, model with
  | PDict c, PDict m =>
      Returns (PDict (<["model" := PDict (<["device" := formatted_device]> m)]> c))
  | _, _ => Raises                       (* item assignment *)
  end))))))).

(** [create_pipeline] (lines 26-67). [manager] is the truth value of
    [node.pipeline_manager], [config] what [request.get_json()] returns. A
    collaborator that raises leaves the state as it found it. *)
Definition create_pipeline (manager : bool) (config : pyval) (w : R) : call (reply * R) :=
  if negb manager then Returns (Unavailable, w)
  else
    match first_missing config required_fields with
    | Returns (Some field) => Returns (MissingField field, w)
    | Returns None =>
        match format_device config with
        | Returns config =>
            match manager_create w config with
            | Returns (pipeline_id, w1) =>
                match update_node_info w1 with
                | Returns w2 =>
                    match Py.getitem config "name" with
                    | Returns _ => Returns (Created pipeline_id, w2)
                    | Raises => Returns (ServerError, w2)
                    | Aborts => Aborts
                    end
                | Raises => Returns (ServerError, w1)
                | Aborts => Aborts
                end
            | Raises => Returns (ServerError, w)
            | Aborts => Aborts
            end
        | Raises => Returns (ServerError, w)
        | Aborts => Aborts
        end
    | Raises => Returns (ServerError, w)
    | Aborts => Aborts
    end.

(** [pipeline.get('status') == 'running'] *)
Definition is_running (pipeline : pyval) : call bool :=
  and_then (Py.get pipeline "status" PNone) (fun status =>
  Returns match status with
          | PStr s => String.eqb s "running"
          | _ => false
          end).

(** [update_pipeline] (lines 198-243). *)
Definition update_pipeline (manager : bool) (pipeline_id : string) (data : pyval) (w : R)
  : call (reply * R) :=
  if negb manager then Returns (Unavailable, w)
  else if negb (truthy data) then Returns (NoData, w)
  else
    match manager_get w pipeline_id with
    | Returns pipeline =>
        if negb (truthy pipeline) then Returns (NotFound, w)
        else
          match is_running pipeline with
          | Returns true => Returns (Running, w)
          | Returns false =>
              match format_device data with
              | Returns data =>
                  match manager_update w pipeline_id data with
                  | Returns (success, w1) =>
                      if negb (truthy success) then Returns (UpdateFailed, w1)
                      else
                        match Py.get data "name" (PStr "Unknown") with
                        | Returns _ => Returns (Updated, w1)
                        | Raises => Returns (ServerError, w1)
                        | Aborts => Aborts
                        end
                  | Raises => Returns (ServerError, w)
                  | Aborts => Aborts
                  end
              | Raises => Returns (ServerError, w)
              | Aborts => Aborts
              end
          | Raises => Returns (ServerError, w)
          | Aborts => Aborts
          end
    | Raises => Returns (ServerError, w)
    | Aborts => Aborts
    end.

End Routes.

End PipelineRoutes.

(** * Properties of the streaming endpoints *)

Module StreamFacts.
Import Stream.

(** ** Downscaling *)

(** What the specification asks of the frame handed to the encoder: exactly
    the tier's width and the rounded proportional height above the maximum
    width, the frame itself otherwise. *)
Definition rounded_downscale (t : tier) (f : frame) : Prop :=
  (max_width t < width f ->
   downscale t f = Returns {| height := round_div (height f * max_width t) (width f);
                              width := max_width t |})
  /\ (width f <= max_width t -> downscale t f = Returns f).

Example downscale_1080p :
  downscale Standard {| height := 1080; width := 1920 |}
  = Returns {| height := 360; width := 640 |}.
Proof. vm_compute. reflexivity. Qed.

Example downscale_hq_4k :
  downscale HighQuality {| height := 2160; width := 3840 |}
  = Returns {| height := 720; width := 1280 |}.
Proof. vm_compute. reflexivity. Qed.

Example downscale_small_unscaled :
  downscale Standard {| height := 480; width := 640 |}
  = Returns {| height := 480; width := 640 |}.
Proof. reflexivity. Qed.

(** The product is formed in double precision: [49 * (640 / 31360)] is just
    below one and truncates to an empty image, which OpenCV refuses. *)
Example downscale_float_product :
  new_height Standard {| height := 49; width := 31360 |} = Some 0
  /\ downscale Standard {| height := 49; width := 31360 |} = Raises.
Proof. split; vm_compute; reflexivity. Qed.

(** C2, counterexample: a 1281x720 frame on the standard tier. The exact
    height is 359.71..., the specification's rounding gives 360, the code's
    [int(...)] gives 359. *)
Lemma C2_int_truncates :
  downscale Standard {| height := 720; width := 1281 |}
    = Returns {| height := 359; width := 640 |}
  /\ round_div (720 * 640) 1281 = 360
  /\ ~ rounded_downscale Standard {| height := 720; width := 1281 |}.
Proof.
  assert (Hd : downscale Standard {| height := 720; width := 1281 |}
               = Returns {| height := 359; width := 640 |})
    by (vm_compute; reflexivity).
  split; [exact Hd|]. split; [reflexivity|].
  intros [Hwide _].
  assert (Hlt : max_width Standard < width {| height := 720; width := 1281 |})
    by (simpl; lia).
  specialize (Hwide Hlt). rewrite Hd in Hwide.
  vm_compute in Hwide. discriminate Hwide.
Qed.

Lemma cv2_resize_returns f w h f' :
  cv2_resize f w h = Returns f' -> height f' = h /\ width f' = w /\ 0 < h /\ 0 < w.
Proof.
  unfold cv2_resize. destruct (0 <? w) eqn:Hw, (0 <? h) eqn:Hh; simpl; try discriminate.
  intros [= <-]. simpl. apply Z.ltb_lt in Hw, Hh. auto.
Qed.

(** C2, as amended: a frame wider than the tier's maximum is resized to
    exactly the maximum width, and its height is [int(H * (max / W))], the
    double-precision product truncated toward zero (when that is positive;
    otherwise the resize raises); a frame no wider than the maximum goes to
    the encoder unscaled. *)
Theorem C2_downscale_truncates (t : tier) (f : frame) :
  (width f <= max_width t -> downscale t f = Returns f)
  /\ (max_width t < width f ->
      forall f', downscale t f = Returns f' ->
        width f' = max_width t
        /\ int_of_float (float_of_int (height f)
                         * (float_of_int (max_width t) / float_of_int (width f)))%float
           = Some (height f'))
  /\ (max_width t < width f ->
      forall h, new_height t f = Some h -> 0 < h ->
        downscale t f = Returns {| height := h; width := max_width t |}).
Proof.
  unfold downscale. split; [|split].
  - intros Hle. apply Z.ltb_ge in Hle. now rewrite Hle.
  - intros Hlt f' Hret. apply Z.ltb_lt in Hlt. rewrite Hlt in Hret.
    unfold new_height, scale in Hret.
    destruct (int_of_float _) as [h|] eqn:Hh; [|discriminate].
    apply cv2_resize_returns in Hret. destruct Hret as (-> & -> & _). auto.
  - intros Hlt h Hh Hpos. apply Z.ltb_lt in Hlt. rewrite Hlt, Hh.
    unfold cv2_resize.
    assert (Hm : (0 <? max_width t) = true) by (destruct t; reflexivity).
    apply Z.ltb_lt in Hpos. now rewrite Hm, Hpos.
Qed.

(** ** The loop body *)

Lemma count_app p (a b : list event) : count p (a ++ b) = (count p a + count p b)%nat.
Proof. unfold count. now rewrite filter_app, length_app. Qed.

Lemma count_cleanup_ended st : count is_ended (cleanup st) = 1%nat.
Proof.
  unfold cleanup. destruct (pipeline_instance st) as [i|]; [|reflexivity].
  destruct (exposes_stop_streaming i); reflexivity.
Qed.

Lemma count_cleanup_chunk st : count is_chunk (cleanup st) = 0%nat.
Proof.
  unfold cleanup. destruct (pipeline_instance st) as [i|]; [|reflexivity].
  destruct (exposes_stop_streaming i); reflexivity.
Qed.

Definition stops_due (st : loop_state) : nat :=
  match pipeline_instance st with
  | Some i => if exposes_stop_streaming i then 1%nat else 0%nat
  | None => 0%nat
  end.

Lemma count_cleanup_stop st : count is_stop (cleanup st) = stops_due st.
Proof.
  unfold cleanup, stops_due. destruct (pipeline_instance st) as [i|]; [|reflexivity].
  destruct (exposes_stop_streaming i); reflexivity.
Qed.

Lemma last_cleanup body st : last (body ++ cleanup st) = Some (LogEnded (frame_count st)).
Proof. unfold cleanup. rewrite !app_assoc. apply last_snoc. Qed.

(** The chunk a closing client was offered is not counted. *)
Definition uncounted (why : exit_path) : nat :=
  match why with ClientDisconnect => 1%nat | _ => 0%nat end.

Ltac body_cases :=
  unfold loop_body, on_exception, removed_log in *;
  repeat case_match; simplify_eq/=.

(** No pass through the body runs any part of the [finally] block, and the
    frame counter follows the chunks that were taken. *)
Lemma loop_body_events t ob st :
  match loop_body t ob st with
  | Continue st' evs =>
      count is_ended evs = 0%nat /\ count is_stop evs = 0%nat
      /\ frame_count st' = (frame_count st + count is_chunk evs)%nat
  | Exit why st' evs =>
      count is_ended evs = 0%nat /\ count is_stop evs = 0%nat
      /\ (frame_count st' + uncounted why = frame_count st + count is_chunk evs)%nat
  end.
Proof. body_cases; cbv [count]; simpl; repeat split; lia. Qed.

(** ** The loop and its [finally] block *)

(** The trace of a run: what the passes through the body did, followed,
    once the [try] statement is left, by the [finally] block. *)
Lemma stream_loop_shape t obs : forall st evs r,
  stream_loop t obs st = (evs, r) ->
  match r with
  | Running st' =>
      count is_ended evs = 0%nat /\ count is_stop evs = 0%nat
      /\ frame_count st' = (frame_count st + count is_chunk evs)%nat
  | Ended why st' =>
      exists body, evs = body ++ cleanup st'
        /\ count is_ended body = 0%nat /\ count is_stop body = 0%nat
        /\ (frame_count st' + uncounted why
            = frame_count st + count is_chunk body)%nat
  end.
Proof.
  induction obs as [|ob rest IH]; intros st evs r; simpl;
    destruct (retry_count st <? max_retries)%nat.
  - intros [= <- <-]. cbv [count]; simpl. repeat split; lia.
  - intros [= <- <-]. exists []. cbv [count]; simpl. repeat split; lia.
  - pose proof (loop_body_events t ob st) as Hb.
    destruct (loop_body t ob st) as [st1 evs1 | why st1 evs1].
    + destruct (stream_loop t rest st1) as [evs2 r2] eqn:Hrest.
      intros [= <- <-]. specialize (IH _ _ _ Hrest).
      destruct Hb as (He & Hs & Hc). destruct r2 as [st2 | why st2].
      * destruct IH as (He2 & Hs2 & Hc2). rewrite !count_app. repeat split; lia.
      * destruct IH as (body & -> & He2 & Hs2 & Hc2).
        exists (evs1 ++ body). rewrite !count_app, app_assoc. repeat split; lia.
    + intros [= <- <-]. exists evs1. destruct Hb as (He & Hs & Hc). auto.
  - intros [= <- <-]. exists []. cbv [count]; simpl. repeat split; lia.
Qed.

Lemma streaming_flag_app i b evs1 evs2 :
  streaming_flag i b (evs1 ++ evs2) = streaming_flag i (streaming_flag i b evs1) evs2.
Proof. unfold streaming_flag. apply fold_left_app. Qed.

Lemma streaming_flag_cleanup i b st :
  pipeline_instance st = Some i -> exposes_stop_streaming i = true ->
  streaming_flag i b (cleanup st) = false.
Proof.
  intros Hi Hs. unfold cleanup. rewrite Hi, Hs. simpl.
  destruct (decide (inst_id i = inst_id i)); [reflexivity | contradiction].
Qed.


(** Sample collaborators for the concrete runs below. *)
Definition cam : instance :=
  {| inst_id := 1; exposes_is_running := true; exposes_is_initialized := true;
     exposes_start_streaming := true; exposes_stop_streaming := true |}.

Definition jpeg : list Byte.byte := [Byte.xff; Byte.xd8; Byte.xff; Byte.xd9].

(** A pass at clock reading [now] in which a 320x240 frame is fetched, the
    encoder answers [enc] and the consumer does [c]. *)
Definition pass (now : Z) (enc : call (option (list Byte.byte))) (c : consumer)
  : observation :=
  {| ob_active := true; ob_instance := Returns (Some cam); ob_running := Returns true;
     ob_time := now; ob_frame := Returns (Some {| height := 240; width := 320 |});
     ob_encode := fun _ => enc; ob_consumer := c |}.

Definition pass_removed : observation :=
  {| ob_active := false; ob_instance := Returns None; ob_running := Returns true;
     ob_time := 0; ob_frame := Returns None; ob_encode := fun _ => Returns None;
     ob_consumer := Resume |}.

Definition pass_stopped : observation :=
  {| ob_active := true; ob_instance := Returns (Some cam); ob_running := Returns false;
     ob_time := 0; ob_frame := Returns None; ob_encode := fun _ => Returns None;
     ob_consumer := Resume |}.

Definition pass_no_frame (now : Z) : observation :=
  {| ob_active := true; ob_instance := Returns (Some cam); ob_running := Returns true;
     ob_time := now; ob_frame := Returns None; ob_encode := fun _ => Returns None;
     ob_consumer := Resume |}.

(** Two frames are taken, the client leaves at the third. *)
Definition disconnect_run : list observation :=
  [pass 1000000 (Returns (Some jpeg)) Resume;
   pass 2000000 (Returns (Some jpeg)) Resume;
   pass 3000000 (Returns (Some jpeg)) Close].


(** Each way out runs the [finally] block. *)
Example exit_removed :
  stream_loop Standard [pass 1000000 (Returns (Some jpeg)) Resume; pass_removed]
    (initial_state (Some cam))
  = ([Chunk (multipart jpeg); LogWarning; StopStreaming cam; LogEnded 1],
     Ended PipelineRemoved (emitted 1000000 (initial_state (Some cam)))).
Proof. reflexivity. Qed.

Example exit_stopped :
  stream_loop HighQuality [pass_stopped] (initial_state (Some cam))
  = ([StopStreaming cam; LogEnded 0], Ended PipelineStopped (initial_state (Some cam))).
Proof. reflexivity. Qed.

Example exit_miss_cap :
  snd (stream_loop Standard (repeat (pass_no_frame 1000000) 50) (initial_state (Some cam)))
  = Ended MissCap {| frame_count := 0; retry_count := 50; last_frame_time := 0;
                     pipeline_instance := Some cam |}
  /\ count is_ended
       (fst (stream_loop Standard (repeat (pass_no_frame 1000000) 50)
               (initial_state (Some cam)))) = 1%nat.
Proof. split; vm_compute; reflexivity. Qed.

Example exit_unhandled :
  stream_loop Standard [pass 1000000 Aborts Resume] (initial_state (Some cam))
  = ([StopStreaming cam; LogEnded 0], Ended Unhandled (initial_state (Some cam))).
Proof. reflexivity. Qed.

(** ** Encoder failures *)

(** A pass that gets as far as the encoder. *)
Definition reaches_encoder (t : tier) (ob : observation) (st : loop_state)
    (i : instance) (f' : frame) : Prop :=
  ob_active ob = true
  /\ ob_instance ob = Returns (Some i)
  /\ (if exposes_is_running i then ob_running ob else Returns true) = Returns true
  /\ ((ob_time ob - last_frame_time st) * target_fps t <? 1000000) = false
  /\ exists f, ob_frame ob = Returns (Some f) /\ downscale t f = Returns f'.

(** When [cv2.imencode] raises, the handler counts a miss and backs off;
    when it returns [ret = False], the pass ends with nothing counted, logged
    or slept. Neither leaves the loop. *)
Lemma encoder_failure_pass t ob st i f' :
  reaches_encoder t ob st i f' ->
  (ob_encode ob f' = Raises ->
   loop_body t ob st
   = Continue (miss (set_instance (Some i) st)) [LogError; Sleep (backoff_sleep t)])
  /\ (ob_encode ob f' = Returns None ->
      loop_body t ob st = Continue (set_instance (Some i) st) []).
Proof.
  intros (Ha & Hi & Hr & Hc & f & Hf & Hd).
  unfold loop_body, on_exception. rewrite Ha, Hi. simpl.
  rewrite Hr, Hc, Hf, Hd. split; intros ->; reflexivity.
Qed.

(** C1 (the code departs from the claim): on both tiers, any number of
    consecutive passes in which a frame is fetched and [cv2.imencode] returns
    [ret = False] leaves the miss counter at zero; nothing is slept or
    logged, and the loop is still running after 50 and more of them. The
    loop does go on, but the failure is not counted as a miss. *)
Theorem C1_failed_encode_not_counted (t : tier) (n : nat) :
  stream_loop t (repeat (pass 1000000 (Returns None) Resume) n)
    (initial_state (Some cam))
  = ([], Running (initial_state (Some cam)))
  /\ retry_count (initial_state (Some cam)) = 0%nat.
Proof.
  split; [|reflexivity].
  induction n as [|n IH]; [reflexivity|].
  cbn [repeat stream_loop].
  assert (Hb : loop_body t (pass 1000000 (Returns None) Resume)
                 (initial_state (Some cam))
               = Continue (initial_state (Some cam)) [])
    by (destruct t; reflexivity).
  rewrite Hb, IH. reflexivity.
Qed.

(** The sibling path: when the encoder raises instead, fifty passes reach
    the cap and end the stream. *)
Example encoder_raising_reaches_cap :
  snd (stream_loop Standard (repeat (pass 1000000 Raises Resume) 50)
         (initial_state (Some cam)))
  = Ended MissCap {| frame_count := 0; retry_count := 50; last_frame_time := 0;
                     pipeline_instance := Some cam |}.
Proof. vm_compute. reflexivity. Qed.

(** ** The start-up wait *)

Section StartupWait.
Variable env : request_env.
Hypothesis sleep_advances : forall now, now + poll_sleep <= env_after_sleep env now.
Hypothesis no_frame : forall now,
  env_start env <= now < env_start env + max_wait_time ->
  env_latest_frame env now = Returns None.

(** With [k] polls left in the budget and more fuel than that, the wait
    ends with [frame_available = False], having only slept. *)
Lemma wait_times_out : forall (fuel k : nat) (now : Z),
  env_start env <= now ->
  env_start env + max_wait_time - now <= Z.of_nat k * poll_sleep ->
  (k < fuel)%nat ->
  exists evs, wait_for_frame fuel env (env_start env) now = Some (evs, Returns false)
              /\ Forall (fun e => is_sleep e = true) evs.
Proof.
  induction fuel as [|fuel IH]; intros k now Hge Hk Hfuel; [lia|].
  cbn [wait_for_frame].
  destruct (now - env_start env <? max_wait_time) eqn:Hin.
  - apply Z.ltb_lt in Hin. rewrite no_frame by lia.
    pose proof (sleep_advances now) as Hadv. unfold poll_sleep in *.
    destruct k as [|k]; [lia|].
    destruct (IH k (env_after_sleep env now)) as (evs & -> & Hs); try lia.
    eexists. split; [reflexivity|]. constructor; [reflexivity | exact Hs].
  - exists []. split; [reflexivity | constructor].
Qed.

End StartupWait.

Lemma sleeps_no_chunk evs :
  Forall (fun e => is_sleep e = true) evs -> count is_chunk evs = 0%nat.
Proof.
  induction 1 as [|e evs He _ IH]; [reflexivity|].
  destruct e; try discriminate He. exact IH.
Qed.

Lemma streaming_flag_stop_last i b evs :
  streaming_flag i b (evs ++ [StopStreaming i]) = false.
Proof.
  rewrite streaming_flag_app. simpl.
  destruct (decide (inst_id i = inst_id i)); [reflexivity | contradiction].
Qed.

(** C3: a pipeline that passes every precondition of the stream endpoint but
    whose accessor has no frame at any poll inside the five-second budget
    (one poll per 100 ms sleep) gets the 503 "starting" answer, on both
    tiers: the handler terminates, no [Response] over the generator is built
    and so no chunk is emitted, and when the instance exposes
    [stop_streaming] that call is the handler's last action and leaves the
    streaming flag cleared. *)
Theorem C3_not_ready_clears_flag (t : tier) (env : request_env) (i : instance)
    (fuel : nat) :
  env_manager env = true ->
  env_active env = true ->
  env_info env = HasInstance (Some i) ->
  (if exposes_is_running i then env_is_running env else Returns true) = Returns true ->
  (if exposes_is_initialized i then env_is_initialized env else Returns true)
    = Returns true ->
  (forall now, now + poll_sleep <= env_after_sleep env now) ->
  (forall now, env_start env <= now < env_start env + max_wait_time ->
               env_latest_frame env now = Returns None) ->
  (51 <= fuel)%nat ->
  exists evs,
    stream_pipeline t fuel env = Some (evs, Reply (JsonError 503 starting_msg))
    /\ count is_chunk evs = 0%nat
    /\ (exposes_stop_streaming i = true ->
        last evs = Some (StopStreaming i)
        /\ forall before, streaming_flag i before evs = false).
Proof.
  intros Hm Ha Hi Hrun Hinit Hadv Hnone Hfuel.
  destruct (wait_times_out env Hadv Hnone fuel 50 (env_start env))
    as (evs & Hwait & Hsleeps); [lia | unfold max_wait_time, poll_sleep; lia | lia |].
  unfold stream_pipeline. rewrite Hm, Ha, Hi. simpl. rewrite Hrun, Hinit, Hwait.
  eexists. split; [reflexivity|]. split.
  - rewrite !count_app, (sleeps_no_chunk _ Hsleeps).
    destruct (exposes_start_streaming i), (exposes_stop_streaming i); reflexivity.
  - intros ->. cbn [if_exposed]. rewrite app_assoc. split.
    + apply last_snoc.
    + intros before. apply streaming_flag_stop_last.
Qed.

(** A running, initialised camera that never has a frame, on a clock that
    advances by exactly the sleep. *)
Definition no_frame_env : request_env :=
  {| env_manager := true; env_active := true; env_info := HasInstance (Some cam);
     env_is_running := Returns true; env_is_initialized := Returns true;
     env_start := 0; env_latest_frame := fun _ => Returns None;
     env_after_sleep := fun now => now + poll_sleep |}.

Lemma C3_not_ready_clears_flag_witness :
  exists evs,
    stream_pipeline Standard 51 no_frame_env
      = Some (evs, Reply (JsonError 503 starting_msg))
    /\ count is_chunk evs = 0%nat
    /\ (exposes_stop_streaming cam = true ->
        last evs = Some (StopStreaming cam)
        /\ forall before, streaming_flag cam before evs = false).
Proof.
  apply (C3_not_ready_clears_flag Standard no_frame_env cam 51);
    try reflexivity; simpl; intros; lia.
Defined.

Example not_ready_trace :
  stream_pipeline HighQuality 51 no_frame_env
  = Some (StartStreaming cam :: repeat (Sleep poll_sleep) 50 ++ [StopStreaming cam],
          Reply (JsonError 503 starting_msg)).
Proof. vm_compute. reflexivity. Qed.

End StreamFacts.

(** * Properties of the bundle import *)

Module BundleFacts.
Import Bundle.

(** ** Strings *)

Lemma length_append (s t : string) :
  String.length (s +:+ t) = (String.length s + String.length t)%nat.
Proof. induction s as [|a s IH]; simpl; [reflexivity | now rewrite IH]. Qed.

Lemma append_inj_r (t s1 s2 : string) : s1 +:+ t = s2 +:+ t -> s1 = s2.
Proof.
  revert s2. induction s1 as [|a s1 IH]; intros [|b s2] Heq; simpl in Heq.
  - reflexivity.
  - apply (f_equal String.length) in Heq.
    rewrite !length_append in Heq. simpl in Heq. rewrite ?length_append in Heq. lia.
  - apply (f_equal String.length) in Heq.
    rewrite !length_append in Heq. simpl in Heq. rewrite ?length_append in Heq. lia.
  - injection Heq as -> Heq. f_equal. now apply IH.
Qed.

Lemma imported_name_inj original : Inj (=) (=) (imported_name original).
Proof.
  intros c1 c2 Heq. unfold imported_name in Heq.
  do 2 apply String.app_inj in Heq.
  apply append_inj_r in Heq. now apply pretty_nat_inj in Heq.
Qed.

(** ** The renaming loop *)

Section Rename.
Variable original_name : string.
Variable existing_names : list pyval.

Local Abbreviation taken s := (str_in s existing_names = true).
Local Abbreviation free s := (str_in s existing_names = false).

(** The strings among a list of values. *)
Fixpoint strings_of (l : list pyval) : list string :=
  match l with
  | [] => []
  | PStr s :: l => s :: strings_of l
  | _ :: l => strings_of l
  end.

Lemma strings_of_length l : (length (strings_of l) <= length l)%nat.
Proof. induction l as [|v l IH]; [reflexivity|]. destruct v; simpl; lia. Qed.

Lemma str_in_strings s l : str_in s l = true -> s ∈ strings_of l.
Proof.
  induction l as [|v l IH]; [discriminate|].
  unfold str_in in *. cbn [existsb].
  intros [Hv | Hl]%orb_true_iff.
  - destruct v; try discriminate. apply String.eqb_eq in Hv as ->. simpl. left.
  - specialize (IH Hl). destruct v; simpl; try exact IH. now right.
Qed.

(** Pigeonhole: one of the first [length existing_names + 1] candidates is
    not an existing name. *)
Lemma free_candidate :
  exists j, (1 <= j <= S (length existing_names))%nat
            /\ free (imported_name original_name j).
Proof.
  set (n := length existing_names).
  destruct (decide (Forall (fun j => taken (imported_name original_name j))
                      (seq 1 (S n)))) as [Hall | Hsome].
  - exfalso.
    assert (Hsub : imported_name original_name <$> seq 1 (S n)
                   ⊆+ strings_of existing_names).
    { apply NoDup_submseteq.
      - apply NoDup_fmap_2; [apply imported_name_inj | apply NoDup_seq].
      - intros s (j & -> & Hj)%list_elem_of_fmap.
        apply str_in_strings. rewrite Forall_forall in Hall. now apply Hall. }
    apply submseteq_length in Hsub.
    rewrite length_fmap, length_seq in Hsub.
    pose proof (strings_of_length existing_names). lia.
  - apply not_Forall_Exists in Hsome; [|intros j; apply _].
    apply Exists_exists in Hsome as (j & Hj & Hfree).
    apply elem_of_seq in Hj. exists j. split; [lia|].
    simpl in Hfree. now destruct (str_in _ _).
Qed.

(** Whatever the loop returns is free, and is either the name it was entered
    with or the first free candidate from [counter] on. *)
Lemma rename_loop_sound : forall fuel pipeline_name counter name,
  rename_loop fuel original_name existing_names pipeline_name counter = Some name ->
  free name
  /\ ((free pipeline_name /\ name = pipeline_name)
      \/ (taken pipeline_name
          /\ exists N, (counter <= N)%nat
               /\ name = imported_name original_name N
               /\ forall j, (counter <= j < N)%nat ->
                            taken (imported_name original_name j))).
Proof.
  induction fuel as [|fuel IH]; intros pipeline_name counter name; cbn [rename_loop];
    destruct (str_in pipeline_name existing_names) eqn:Hin; try discriminate.
  - intros [= <-]. auto.
  - intros Hrec. apply IH in Hrec as [Hfree Hcases]. split; [exact Hfree|].
    right. split; [reflexivity|].
    destruct Hcases as [[_ ->] | (Htaken & N & HN & -> & Hbelow)].
    + exists counter. split; [lia|]. split; [reflexivity|]. intros j Hj. lia.
    + exists N. split; [lia|]. split; [reflexivity|]. intros j Hj.
      destruct (decide (j = counter)) as [-> | Hne]; [exact Htaken | apply Hbelow; lia].
  - intros [= <-]. auto.
Qed.

(** The loop returns as soon as its fuel reaches a free candidate. *)
Lemma rename_loop_total : forall fuel pipeline_name counter,
  free pipeline_name
  \/ (exists j, (counter <= j < counter + fuel)%nat
                /\ free (imported_name original_name j)) ->
  is_Some (rename_loop fuel original_name existing_names pipeline_name counter).
Proof.
  induction fuel as [|fuel IH]; intros pipeline_name counter Hfree; cbn [rename_loop];
    destruct (str_in pipeline_name existing_names) eqn:Hin; eauto.
  - destruct Hfree as [Hf | (j & Hj & _)]; [discriminate | lia].
  - apply IH. destruct Hfree as [Hf | (j & Hj & Hf)]; [discriminate|].
    destruct (decide (j = counter)) as [-> | Hne]; [now left|].
    right. exists j. split; [lia | exact Hf].
Qed.

End Rename.


(** ** Validation of the configuration document *)

Lemma find_first {A} (p : A -> bool) (l : list A) :
  match List.find p l with
  | Some x => exists pre post, l = pre ++ x :: post /\ p x = true
                               /\ Forall (fun y => p y = false) pre
  | None => Forall (fun y => p y = false) l
  end.
Proof.
  induction l as [|a l IH]; cbn [List.find]; [constructor|].
  destruct (p a) eqn:Ha.
  - exists [], l. repeat split; [exact Ha | constructor].
  - destruct (List.find p l) as [x|].
    + destruct IH as (pre & post & -> & Hx & Hpre).
      exists (a :: pre), post. repeat split; [exact Hx | now constructor].
    + now constructor.
Qed.

Lemma present_iff (config_data : gmap string pyval) f :
  negb (bool_decide (is_Some (config_data !! f))) = false <-> is_Some (config_data !! f).
Proof. rewrite negb_false_iff, bool_decide_eq_true. reflexivity. Qed.

Lemma first_missing_spec (config_data : gmap string pyval) :
  match first_missing config_data with
  | Some field =>
      config_data !! field = None
      /\ exists pre post, required_fields = pre ++ field :: post
           /\ Forall (fun f => is_Some (config_data !! f)) pre
  | None => Forall (fun f => is_Some (config_data !! f)) required_fields
  end.
Proof.
  unfold first_missing.
  pose proof (find_first
                (fun field => negb (bool_decide (is_Some (config_data !! field))))
                required_fields) as Hfind.
  destruct (List.find _ required_fields) as [field|].
  - destruct Hfind as (pre & post & Heq & Hlack & Hpre). split.
    + apply negb_true_iff, bool_decide_eq_false in Hlack.
      now apply eq_None_not_Some.
    + exists pre, post. split; [exact Heq|].
      eapply Forall_impl; [exact Hpre|]. intros f. apply present_iff.
  - eapply Forall_impl; [exact Hfind|]. intros f. apply present_iff.
Qed.

Lemma first_missing_lacking (config_data : gmap string pyval) field :
  field ∈ required_fields -> config_data !! field = None ->
  is_Some (first_missing config_data).
Proof.
  intros Hin Hnone. pose proof (first_missing_spec config_data) as Hspec.
  destruct (first_missing config_data) as [f|]; [eauto|].
  rewrite Forall_forall in Hspec. apply Hspec in Hin. rewrite Hnone in Hin.
  now destruct Hin.
Qed.

Section Validation.
Context {R : Type}.
Variable store_model :
  world R -> string -> content -> pyval -> pyval -> string -> pyval ->
  call (pyval * world R).
Variable get_model_metadata : world R -> pyval -> call pyval.
Variable pipeline_names : world R -> call (list pyval).
Variable create_pipeline : world R -> gmap string pyval -> call (pyval * world R).

Local Abbreviation import :=
  (import_pipeline store_model get_model_metadata pipeline_names create_pipeline).

(** An upload that gets as far as the extracted archive [ex]. *)
Definition extracts_to (u : upload) (ex : extracted) : Prop :=
  exists filename, up_filename u = Some filename
                   /\ filename <> "" /\ Path.ends_with filename ".zip" = true
                   /\ up_archive u = Returns ex.

Lemma import_extracted u ex w :
  extracts_to u ex ->
  import true (Some u) w
  = match ex_config ex with
    | None => Some (JsonError 400 "Invalid pipeline export: missing pipeline_config.json", w)
    | Some c => import true (Some u) w
    end.
Proof.
  intros (filename & Hf & Hne & Hzip & Hex). destruct (ex_config ex) eqn:Hc; [reflexivity|].
  unfold import_pipeline. cbn [negb]. rewrite Hf.
  apply String.eqb_neq in Hne. rewrite Hne, Hzip, Hex, Hc. reflexivity.
Qed.


(** The name in the answer of a successful import is the one the renaming
    loop returns for the configuration's name and the names of the pipelines
    listed after the model part. *)
Lemma imported_under_unique_name u w pipeline_id pipeline_name model_id w' :
  import true (Some u) w = Some (Imported pipeline_id pipeline_name model_id, w') ->
  exists ex config_data original_name w1 existing_names,
    up_archive u = Returns ex
    /\ ex_config ex = Some (Returns (PDict config_data))
    /\ config_data !! "name" = Some (PStr original_name)
    /\ pipeline_names w1 = Returns existing_names
    /\ unique_name original_name existing_names = Some pipeline_name.
Proof.
  unfold import_pipeline, failure. cbn [negb]. intros Himp.
  repeat match type of Himp with
         | context [match ?x with _ => _ end] => destruct x eqn:?
         end; try discriminate.
  injection Himp as <- <- <- <-. eauto 10.
Qed.

End Validation.

(** Collaborators that would create a model and a pipeline if they were
    reached: the registry counts the calls. *)
Definition counting_store (w : world nat) (_ : string) (_ : content)
    (_ _ : pyval) (_ : string) (_ : pyval) : call (pyval * world nat) :=
  Returns (PStr "model-1", World (files w) (S (registries w))).
Definition counting_create (w : world nat) (_ : gmap string pyval)
  : call (pyval * world nat) :=
  Returns (PStr "pipeline-1", World (files w) (S (registries w))).

Definition empty_world : world nat := World ∅ 0%nat.

(** An archive whose configuration has a name and a frame source but no
    model. *)
Definition no_model_archive : extracted :=
  {| ex_config :=
       Some (Returns (PDict {[ "name" := PStr "Cam1"; "frame_source" := PDict ∅ ]}));
     ex_models := None;
     ex_metadata := Returns PNone |}.

Definition no_model_bundle : upload :=
  {| up_filename := Some "cam1_export.zip"; up_archive := Returns no_model_archive |}.


Example missing_model_rejected :
  import_pipeline counting_store (fun _ _ => Returns PNone) (fun _ => Returns [])
    counting_create true (Some no_model_bundle) empty_world
  = Some (JsonError 400 "Invalid pipeline configuration: missing model", empty_world).
Proof. vm_compute. reflexivity. Qed.

Example missing_document_rejected :
  import_pipeline counting_store (fun _ _ => Returns PNone) (fun _ => Returns [])
    counting_create true
    (Some {| up_filename := Some "x.zip";
             up_archive := Returns {| ex_config := None; ex_models := Some [];
                                      ex_metadata := Returns PNone |} |})
    empty_world
  = Some (JsonError 400 "Invalid pipeline export: missing pipeline_config.json",
          empty_world).
Proof. reflexivity. Qed.

(** The same collaborators on a complete bundle: both registries change. *)
Example complete_bundle_imported :
  import_pipeline counting_store (fun _ _ => Returns PNone)
    (fun _ => Returns [PStr "Cam1"]) counting_create true
    (Some {| up_filename := Some "cam1_export.zip";
             up_archive :=
               Returns {| ex_config :=
                            Some (Returns (PDict {[ "name" := PStr "Cam1";
                                                    "frame_source" := PDict ∅;
                                                    "model" := PDict ∅ ]}));
                          ex_models := Some [("net.onnx", [Byte.x01])];
                          ex_metadata := Returns PNone |} |})
    empty_world
  = Some (Imported (PStr "pipeline-1") "Cam1 (imported 1)" (PStr "model-1"),
          World ∅ 2%nat).
Proof. vm_compute. reflexivity. Qed.

(** ** Copying the sibling files *)

Lemma size_image {A B} `{Countable A, Countable B} (f : A -> B) (l : list A) :
  (size (list_to_set (C := gset B) (f <$> l)) <= size (list_to_set (C := gset A) l))%nat.
Proof.
  induction l as [|a l IH]; [reflexivity|]. cbn [fmap list_fmap list_to_set].
  destruct (decide (a ∈ (list_to_set l : gset A))) as [Hin | Hout].
  - assert (Hf : f a ∈ (list_to_set (f <$> l) : gset B)).
    { apply elem_of_list_to_set, list_elem_of_fmap. exists a. split; [reflexivity|].
      now apply elem_of_list_to_set in Hin. }
    rewrite (subseteq_union_1_L {[f a]}) by (now apply singleton_subseteq_l).
    rewrite (subseteq_union_1_L {[a]}) by (now apply singleton_subseteq_l).
    exact IH.
  - rewrite (size_union {[a]}) by (now apply disjoint_singleton_l).
    rewrite size_union_alt, !size_singleton.
    assert (size (list_to_set (f <$> l) ∖ {[f a]} : gset B)
            <= size (list_to_set (C := gset B) (f <$> l)))%nat
      by (apply subseteq_size, subseteq_difference_l; reflexivity).
    lia.
Qed.

Section Siblings.
Variables new_model_dir new_model_base main_model_file : string.

Local Abbreviation dest := (sibling_dest new_model_dir new_model_base).
Local Abbreviation copy := (copy_siblings new_model_dir new_model_base main_model_file).

(** The listed files that the loop copies to path [p], in listing order. *)
Definition writers (p : string) (model_files : list (string * content))
  : list (string * content) :=
  List.filter (fun e => is_sibling main_model_file (fst e) && String.eqb (dest (fst e)) p)
    model_files.

(** The extensions of the sibling files, and the paths they are copied to. *)
Definition sibling_names (model_files : list (string * content)) : list string :=
  fst <$> List.filter (fun e => is_sibling main_model_file (fst e)) model_files.
Definition extensions (model_files : list (string * content)) : gset string :=
  list_to_set ((fun n => snd (Path.splitext n)) <$> sibling_names model_files).
Definition written (model_files : list (string * content)) : gset string :=
  list_to_set (dest <$> sibling_names model_files).

Lemma copy_snoc model_files e fs :
  copy (model_files ++ [e]) fs
  = if is_sibling main_model_file (fst e)
    then <[dest (fst e) := snd e]> (copy model_files fs)
    else copy model_files fs.
Proof. unfold copy_siblings. now rewrite fold_left_app. Qed.

(** After the loop a path holds what the last sibling copied to it held,
    and is untouched when no sibling is copied to it. *)
Lemma copy_lookup model_files fs p :
  copy model_files fs !! p
  = match last (writers p model_files) with
    | Some e => Some (snd e)
    | None => fs !! p
    end.
Proof.
  induction model_files as [|e model_files IH] using rev_ind; [reflexivity|].
  rewrite copy_snoc. unfold writers. rewrite List.filter_app. cbn [List.filter].
  destruct (is_sibling main_model_file (fst e)) eqn:Hs; cbn [andb].
  - destruct (String.eqb (dest (fst e)) p) eqn:Hp.
    + apply String.eqb_eq in Hp as <-. rewrite last_snoc. apply lookup_insert_eq.
    + apply String.eqb_neq in Hp. rewrite app_nil_r, lookup_insert_ne by exact Hp.
      exact IH.
  - rewrite app_nil_r. exact IH.
Qed.

Lemma writers_elem p model_files e :
  e ∈ writers p model_files <->
  e ∈ model_files /\ is_sibling main_model_file (fst e) = true /\ dest (fst e) = p.
Proof.
  unfold writers. rewrite !list_elem_of_In, List.filter_In, andb_true_iff, String.eqb_eq.
  tauto.
Qed.


End Siblings.

(** A model exported with two weight shards and a label file: the shards
    share the extension [.bin], and only the second one survives. *)
Example shards_collide :
  copy_siblings "/models/m2" "m2_net" "net.onnx"
    [("net.onnx", [Byte.x01]); ("net_a.bin", [Byte.x0a]); ("net.txt", [Byte.x0c]);
     ("net_b.bin", [Byte.x0b]); ("model_metadata.json", [Byte.x7b])]
    ∅
  = {[ "/models/m2/m2_net.bin" := [Byte.x0b]; "/models/m2/m2_net.txt" := [Byte.x0c] ]}.
Proof. vm_compute. reflexivity. Qed.

End BundleFacts.

(** * Properties of the publisher persistence *)

Module PersistFacts.
Import Persist.

Example type_of_class_mqtt : type_of_class "MQTTDestination" = "mqtt".
Proof. reflexivity. Qed.

Example type_of_class_folder : type_of_class "FolderDestination" = "folder".
Proof. reflexivity. Qed.

(** ** Which kind is persisted *)

(** The specification's table, with the kinds as the code spells them
    (message-bus [mqtt], network-endpoint [webhook], serial-port [serial],
    file and folder sinks [file] and [folder]): what it asks of the kind
    persisted for a destination [d]. *)
Definition structural_kind (d : dest) (kind : string) : Prop :=
  (hasattr d "server" = true /\ hasattr d "port" = true /\ hasattr d "topic" = true ->
   kind = "mqtt")
  /\ (hasattr d "url" = true -> kind = "webhook")
  /\ (hasattr d "com_port" = true -> kind = "serial")
  /\ (hasattr d "file_path" = true \/ hasattr d "folder_path" = true ->
      kind = "file" \/ kind = "folder").

(** A folder sink as [settings_manager.py] expects it. *)
Definition folder_sink : dest :=
  Dest "FolderDestination"
    {[ "folder_path" := PStr "/var/results"; "format" := PStr "json";
       "rate_limit" := PNone; "_id" := PStr "pub-7" ]}.

(** Two objects with the same attributes and different classes. *)
Definition bus_attrs : gmap string pyval :=
  {[ "server" := PStr "broker"; "port" := PInt 1883; "topic" := PStr "results";
     "rate_limit" := PNone ]}.

Definition persisted_type (d : dest) : option pyval :=
  match serialize_publisher d with
  | Returns dest_data => dest_data !! "type"
  | _ => None
  end.

(** C4, counterexample: [_save_settings] persists a folder sink, which has
    [folder_path], as kind "unknown"; and [_serialize_publishers] does not
    look at the attributes for the kind at all: the same attribute triple is
    persisted as "mqtt" or as "tlsmqtt" depending on the class name. *)
Lemma C4_kind_not_structural :
  hasattr folder_sink "folder_path" = true
  /\ save_publisher folder_sink !! "type" = Some (PStr "unknown")
  /\ ~ structural_kind folder_sink (dest_type folder_sink)
  /\ persisted_type (Dest "MQTTDestination" bus_attrs) = Some (PStr "mqtt")
  /\ persisted_type (Dest "TLSMQTTDestination" bus_attrs) = Some (PStr "tlsmqtt")
  /\ ~ structural_kind (Dest "TLSMQTTDestination" bus_attrs) "tlsmqtt".
Proof.
  split; [reflexivity|]. split; [vm_compute; reflexivity|]. split.
  - intros (_ & _ & _ & Hsink).
    destruct Hsink as [Hk | Hk]; [right; reflexivity | discriminate Hk | discriminate Hk].
  - split; [vm_compute; reflexivity|]. split; [vm_compute; reflexivity|].
    intros (Hbus & _). discriminate Hbus. repeat split; reflexivity.
Qed.

Lemma copy_attr_ne d a k (c : gmap string pyval) :
  a <> k -> copy_attr d a c !! k = c !! k.
Proof.
  intros Hne. unfold copy_attr. destruct (attrs d !! a); [|reflexivity].
  now apply lookup_insert_ne.
Qed.

Lemma copy_truthy_ne d a k (c : gmap string pyval) :
  a <> k -> copy_truthy d a c !! k = c !! k.
Proof.
  intros Hne. unfold copy_truthy. destruct (attrs d !! a) as [v|]; [|reflexivity].
  destruct (truthy v); [|reflexivity]. now apply lookup_insert_ne.
Qed.

Lemma save_publisher_type d : save_publisher d !! "type" = Some (PStr (dest_type d)).
Proof.
  unfold save_publisher.
  repeat match goal with
         | |- context [match ?x with _ => _ end] => destruct x
         end;
    rewrite ?lookup_insert_ne by discriminate; apply lookup_insert_eq.
Qed.

Lemma serialize_publisher_type d dest_data :
  serialize_publisher d = Returns dest_data ->
  dest_data !! "type" = Some (PStr (type_of_class (class_name d))).
Proof.
  unfold serialize_publisher.
  destruct (attr d "rate_limit"); try discriminate.
  destruct (serialized_config d); try discriminate.
  intros [= <-]. rewrite lookup_insert_ne by discriminate. apply lookup_insert_eq.
Qed.

(** C4, as amended: the live settings save ([_save_settings]) infers the
    persisted kind from attribute presence, first match first: server, port
    and topic all present give "mqtt"; otherwise url gives "webhook";
    otherwise com_port gives "serial"; otherwise file_path gives "file";
    otherwise (folder_path alone included) the kind is "unknown". The
    publisher persistence ([_serialize_publishers]) does not infer the kind
    from attributes: it persists the class name without "Destination", in
    lower case. *)
Theorem C4_kind_inference (d : dest) :
  let bus := hasattr d "server" && hasattr d "port" && hasattr d "topic" in
  save_publisher d !! "type" = Some (PStr (dest_type d))
  /\ (bus = true -> dest_type d = "mqtt")
  /\ (bus = false -> hasattr d "url" = true -> dest_type d = "webhook")
  /\ (bus = false -> hasattr d "url" = false -> hasattr d "com_port" = true ->
      dest_type d = "serial")
  /\ (bus = false -> hasattr d "url" = false -> hasattr d "com_port" = false ->
      hasattr d "file_path" = true -> dest_type d = "file")
  /\ (bus = false -> hasattr d "url" = false -> hasattr d "com_port" = false ->
      hasattr d "file_path" = false -> dest_type d = "unknown")
  /\ (forall dest_data,
        serialize_publisher d = Returns dest_data ->
        dest_data !! "type"
        = Some (PStr (lower (remove_all "Destination" (class_name d))))).
Proof.
  intros bus. split; [apply save_publisher_type|].
  unfold dest_type. fold bus.
  repeat split; try (intros; repeat match goal with H : _ = _ |- _ => rewrite H end;
                     reflexivity).
  intros dest_data Hs. now apply serialize_publisher_type.
Qed.

(** ** Restoring a list of records *)

Definition is_object (v : pyval) : Prop :=
  match v with PDict _ => True | _ => False end.

Section RestoreFacts.
Variable ResultDestination : pyval -> call dest.
Variable set_context_variables : dest -> pyval -> pyval -> call dest.
Variable configure : dest -> gmap string pyval -> call dest.
Variable set_rate_limit : dest -> pyval -> call dest.
Variable add : list dest -> dest -> call (list dest).
Variable n : node.

Local Abbreviation build_one :=
  (build ResultDestination set_context_variables configure set_rate_limit n).
Local Abbreviation restore :=
  (_deserialize_publishers ResultDestination set_context_variables configure
     set_rate_limit add n).

(** The destinations that the records reconstruct, and the kinds named by
    the warnings for those that do not, both in the order of the records. *)
Fixpoint rebuilt (publishers_data : list pyval) : list dest :=
  match publishers_data with
  | [] => []
  | pub_data :: rest =>
      match build_one pub_data with
      | Returns d => d :: rebuilt rest
      | _ => rebuilt rest
      end
  end.

Fixpoint warned (publishers_data : list pyval) : list pyval :=
  match publishers_data with
  | [] => []
  | pub_data :: rest =>
      match build_one pub_data, pub_data with
      | Raises, PDict m => default (PStr "unknown") (m !! "type") :: warned rest
      | _, _ => warned rest
      end
  end.

(** A record that does not reconstruct leaves the registry as it was and
    the loop goes on with the next record. *)
Lemma failed_record_skipped m rest destinations warnings :
  build_one (PDict m) = Raises ->
  restore (PDict m :: rest) destinations warnings
  = restore rest destinations (warnings ++ [default (PStr "unknown") (m !! "type")]).
Proof. intros Hb. cbn [_deserialize_publishers]. rewrite Hb. reflexivity. Qed.


End RestoreFacts.

(** ** The round trip of a message-bus destination *)

Local Abbreviation build_spec :=
  (build ResultDestination_spec set_context_variables_spec configure_spec
     set_rate_limit_spec).
Local Abbreviation restore_spec :=
  (_deserialize_publishers ResultDestination_spec set_context_variables_spec
     configure_spec set_rate_limit_spec add_spec).

Definition this_node : node := {| node_id := PStr "node-1"; node_name := PStr "bench" |}.

Definition good_bus : pyval :=
  PDict {[ "id" := PStr "pub-1"; "type" := PStr "mqtt"; "rate_limit" := PNone;
           "config" := PDict {[ "server" := PStr "broker"; "port" := PInt 1883;
                                "topic" := PStr "results" ]} ]}.
Definition unknown_kind : pyval :=
  PDict {[ "id" := PStr "pub-2"; "type" := PStr "carrier-pigeon";
           "config" := PDict ∅ ]}.
Definition bad_config : pyval :=
  PDict {[ "id" := PStr "pub-3"; "type" := PStr "webhook"; "config" := PStr "oops" ]}.
Definition good_hook : pyval :=
  PDict {[ "id" := PStr "pub-4"; "type" := PStr "webhook"; "rate_limit" := PInt 5;
           "config" := PDict {[ "url" := PStr "http://example.test/hook" ]} ]}.

Definition mixed_records : list pyval := [good_bus; unknown_kind; bad_config; good_hook].


Example mixed_records_restored :
  match restore_spec this_node mixed_records [] [] with
  | Done destinations warnings =>
      (fun d => attrs d !! "_id") <$> destinations = [Some (PStr "pub-1"); Some (PStr "pub-4")]
      /\ warnings = [PStr "carrier-pigeon"; PStr "webhook"]
  | Escaped _ _ => False
  end.
Proof. vm_compute. split; reflexivity. Qed.

(** Outside the claim's records: an entry that is not a JSON object makes
    the handler's own [pub_data.get] raise, and the records after it are not
    looked at. *)
Example non_object_entry_escapes :
  restore_spec this_node [PNone; good_bus] [] [] = Escaped [] [].
Proof. reflexivity. Qed.

(** [dest.username] is empty: the attribute is missing, [None] or [""]. *)
Definition empty_attr (d : dest) (a : string) : Prop :=
  match attrs d !! a with Some v => truthy v = false | None => True end.

Lemma copy_truthy_empty d a (c : gmap string pyval) :
  empty_attr d a -> copy_truthy d a c = c.
Proof.
  unfold empty_attr, copy_truthy. destruct (attrs d !! a) as [v|]; [|reflexivity].
  now intros ->.
Qed.

(** The configuration written for a destination that has [server], [port]
    and [topic] and an empty [username]. *)
Lemma bus_config d server port topic :
  attrs d !! "server" = Some server -> attrs d !! "port" = Some port ->
  attrs d !! "topic" = Some topic -> empty_attr d "username" ->
  exists config,
    serialized_config d = Returns config
    /\ config !! "server" = Some server /\ config !! "port" = Some port
    /\ config !! "topic" = Some topic /\ config !! "username" = None
    /\ config !! "_id" = None.
Proof.
  intros Hs Hp Ht Hu. unfold serialized_config, hasattr, copy_required, attr.
  rewrite Hs, Hp, Ht. rewrite bool_decide_eq_true_2 by eauto.
  rewrite (copy_truthy_empty d "username") by exact Hu.
  eexists. split; [reflexivity|].
  rewrite !copy_attr_ne, !copy_truthy_ne by discriminate.
  repeat split; simplify_map_eq; reflexivity.
Qed.

(** C6: a message-bus destination (its class is persisted as "mqtt") with
    [server], [port] and [topic] set, an empty [username], a rate limit
    attribute and a non-empty identifier is serialised to a record from which
    the deserialiser builds a destination of the message-bus class that has
    no [username] configuration, the same [server], [port] and [topic], and
    the same identifier. *)
Theorem C6_bus_round_trip (nd : node) (d : dest)
    (server port topic ident rate_limit : pyval) :
  type_of_class (class_name d) = "mqtt" ->
  attrs d !! "server" = Some server ->
  attrs d !! "port" = Some port ->
  attrs d !! "topic" = Some topic ->
  empty_attr d "username" ->
  attrs d !! "_id" = Some ident -> truthy ident = true ->
  attrs d !! "rate_limit" = Some rate_limit ->
  exists dest_data d',
    serialize_publisher d = Returns dest_data
    /\ build_spec nd (PDict dest_data) = Returns d'
    /\ class_name d' = "MQTTDestination"
    /\ attrs d' !! "username" = None
    /\ attrs d' !! "server" = Some server
    /\ attrs d' !! "port" = Some port
    /\ attrs d' !! "topic" = Some topic
    /\ attrs d' !! "_id" = Some ident.
Proof.
  intros Hclass Hs Hp Ht Hu Hid Hidt Hr.
  destruct (bus_config d server port topic Hs Hp Ht Hu)
    as (config & Hconfig & Hcs & Hcp & Hct & Hcu & Hci).
  set (base := ({[ "context_variables" := PDict {[ "node_id" := node_id nd;
                                                     "node_name" := node_name nd ]};
                   "_id" := ident; "rate_limit" := PNone ]} : gmap string pyval)).
  exists {[ "id" := ident; "type" := PStr "mqtt"; "rate_limit" := rate_limit;
            "config" := PDict config ]},
         (Dest "MQTTDestination"
            match rate_limit with
            | PNone => config ∪ base
            | _ => <["rate_limit" := rate_limit]> (config ∪ base)
            end).
  split.
  { unfold serialize_publisher, attr, getattr.
    rewrite Hr, Hconfig, Hclass, Hid. reflexivity. }
  split.
  { unfold build.
    repeat (rewrite lookup_insert_eq || rewrite lookup_singleton_eq
            || rewrite lookup_insert_ne by discriminate).
    cbn [from_option ResultDestination_spec]. unfold id.
    change (class_of_kind "mqtt") with (Some "MQTTDestination").
    cbn [and_then]. rewrite Hidt.
    cbn [set_context_variables_spec and_then configure_spec setattr class_name attrs].
    destruct rate_limit; reflexivity. }
  split; [reflexivity|].
  assert (Hbase_user : base !! "username" = None) by reflexivity.
  assert (Hbase_id : base !! "_id" = Some ident).
  { unfold base. rewrite lookup_insert_ne by discriminate. apply lookup_insert_eq. }
  assert (Hfinal : forall k, k <> "rate_limit" ->
            (match rate_limit with
             | PNone => config ∪ base
             | _ => <["rate_limit" := rate_limit]> (config ∪ base)
             end) !! k = (config ∪ base) !! k).
  { intros k Hk. destruct rate_limit; try reflexivity;
      now rewrite lookup_insert_ne by congruence. }
  cbn [attrs]. rewrite !Hfinal by discriminate.
  split; [apply lookup_union_None; now split|].
  split; [now apply lookup_union_Some_l|].
  split; [now apply lookup_union_Some_l|].
  split; [now apply lookup_union_Some_l|].
  now rewrite lookup_union_r.
Qed.

(** A configured broker destination whose user name was left empty. *)
Definition broker : dest :=
  Dest "MQTTDestination"
    {[ "server" := PStr "broker.local"; "port" := PInt 1883;
       "topic" := PStr "infernode/{node_id}/results"; "username" := PStr "";
       "password" := PNone; "include_image_data" := PBool false;
       "rate_limit" := PInt 2; "_id" := PStr "7c9e" ]}.

Lemma C6_bus_round_trip_witness :
  exists dest_data d',
    serialize_publisher broker = Returns dest_data
    /\ build_spec this_node (PDict dest_data) = Returns d'
    /\ class_name d' = "MQTTDestination"
    /\ attrs d' !! "username" = None
    /\ attrs d' !! "server" = Some (PStr "broker.local")
    /\ attrs d' !! "port" = Some (PInt 1883)
    /\ attrs d' !! "topic" = Some (PStr "infernode/{node_id}/results")
    /\ attrs d' !! "_id" = Some (PStr "7c9e").
Proof.
  apply (C6_bus_round_trip this_node broker (PStr "broker.local") (PInt 1883)
           (PStr "infernode/{node_id}/results") (PStr "7c9e") (PInt 2));
    reflexivity.
Defined.

Example broker_record :
  serialize_publisher broker
  = Returns {[ "id" := PStr "7c9e"; "type" := PStr "mqtt"; "rate_limit" := PInt 2;
               "config" := PDict {[ "server" := PStr "broker.local";
                                    "port" := PInt 1883;
                                    "topic" := PStr "infernode/{node_id}/results";
                                    "include_image_data" := PBool false ]} ]}.
Proof. vm_compute. reflexivity. Qed.

End PersistFacts.

(** * Further properties of the streaming endpoints *)

Module StreamMore.
Import Stream StreamFacts.

Definition state_of (r : run) : loop_state :=
  match r with Running st | Ended _ st => st end.

(** ** The miss counter *)

(** A pass adds at most one miss, and never leaves by the cap. *)
Lemma loop_body_retry t ob st :
  match loop_body t ob st with
  | Continue st' _ => (retry_count st' <= S (retry_count st))%nat
  | Exit why st' _ => (retry_count st' <= S (retry_count st))%nat /\ why <> MissCap
  end.
Proof. body_cases; try split; (lia || discriminate). Qed.

(** X1: started at or below the cap, the miss counter never exceeds 50: it
    is below 50 whenever the generator is suspended, and exactly 50 when the
    loop ends on the cap. *)
Theorem miss_counter_bounded t obs : forall st evs r,
  (retry_count st <= max_retries)%nat ->
  stream_loop t obs st = (evs, r) ->
  (retry_count (state_of r) <= max_retries)%nat
  /\ match r with
     | Running st' => (retry_count st' < max_retries)%nat
     | Ended MissCap st' => retry_count st' = max_retries
     | Ended _ _ => True
     end.
Proof.
  induction obs as [|ob rest IH]; intros st evs r Hle; cbn [stream_loop];
    destruct (retry_count st <? max_retries)%nat eqn:Hlt.
  - intros [= <- <-]. apply Nat.ltb_lt in Hlt. cbn [state_of]. lia.
  - intros [= <- <-]. apply Nat.ltb_ge in Hlt. cbn [state_of]. lia.
  - apply Nat.ltb_lt in Hlt. pose proof (loop_body_retry t ob st) as Hb.
    destruct (loop_body t ob st) as [st1 evs1 | why st1 evs1].
    + destruct (stream_loop t rest st1) as [evs2 r2] eqn:Hrest.
      intros [= <- <-]. apply (IH st1 evs2 r2); [lia | exact Hrest].
    + intros [= <- <-]. cbn [state_of]. destruct Hb as [Hb Hwhy].
      split; [lia|]. now destruct why.
  - intros [= <- <-]. apply Nat.ltb_ge in Hlt. cbn [state_of]. lia.
Qed.

Definition fifty_misses : list observation := repeat (pass_no_frame 1000000) 60.

Lemma miss_counter_bounded_witness :
  (retry_count (initial_state (Some cam)) <= max_retries)%nat
  /\ retry_count {| frame_count := 0; retry_count := 50; last_frame_time := 0;
                    pipeline_instance := Some cam |} = max_retries.
Proof.
  split; [cbn; lia|].
  apply (miss_counter_bounded Standard fifty_misses (initial_state (Some cam))
           (repeat (Sleep 10000) 50 ++ [StopStreaming cam; LogEnded 0])
           (Ended MissCap {| frame_count := 0; retry_count := 50; last_frame_time := 0;
                             pipeline_instance := Some cam |})).
  - cbn; lia.
  - vm_compute. reflexivity.
Defined.

(** ** Pacing *)

(** A pass yields at most one chunk, and only when a full frame interval
    has passed since the last emission; the emission time moves to the
    clock reading of that pass unless the client has gone. *)
Lemma loop_body_pace t ob st :
  match loop_body t ob st with
  | Continue st' evs =>
      (count is_chunk evs = 0%nat /\ last_frame_time st' = last_frame_time st)
      \/ (count is_chunk evs = 1%nat
          /\ 1000000 <= (ob_time ob - last_frame_time st) * target_fps t
          /\ last_frame_time st' = ob_time ob)
  | Exit _ st' evs =>
      (count is_chunk evs = 0%nat /\ last_frame_time st' = last_frame_time st)
      \/ (count is_chunk evs = 1%nat
          /\ 1000000 <= (ob_time ob - last_frame_time st) * target_fps t
          /\ last_frame_time st' = last_frame_time st)
  end.
Proof.
  body_cases; cbv [count]; simpl;
    (left; split; reflexivity)
    || (right; repeat split;
        match goal with H : (_ <? _) = false |- _ => apply Z.ltb_ge in H; exact H end).
Qed.

Lemma target_fps_pos t : 0 < target_fps t.
Proof. destruct t; reflexivity. Qed.

(** X2: the loop never emits faster than the tier's frame rate. If every
    clock reading of a run is at most [hi], the number of chunks it yields,
    times one second, is at most the time from the last emission before the
    run to [hi], times the frame rate (30 or 60 per second). *)
Theorem emission_rate_bounded t obs (hi : Z) : forall st evs r,
  Forall (fun ob => ob_time ob <= hi) obs ->
  last_frame_time st <= hi ->
  stream_loop t obs st = (evs, r) ->
  Z.of_nat (count is_chunk evs) * 1000000 <= (hi - last_frame_time st) * target_fps t
  /\ last_frame_time (state_of r) <= hi.
Proof.
  pose proof (target_fps_pos t) as Hfps.
  induction obs as [|ob rest IH]; intros st evs r Hobs Hlast; cbn [stream_loop];
    destruct (retry_count st <? max_retries)%nat.
  - intros [= <- <-]. cbn. split; [nia | exact Hlast].
  - intros [= <- <-]. rewrite count_cleanup_chunk. cbn. split; [nia | exact Hlast].
  - inversion Hobs as [|? ? Hhere Hrest]; subst.
    pose proof (loop_body_pace t ob st) as Hb.
    destruct (loop_body t ob st) as [st1 evs1 | why st1 evs1].
    + destruct (stream_loop t rest st1) as [evs2 r2] eqn:Hrun.
      intros [= <- <-]. rewrite count_app, Nat2Z.inj_add.
      destruct Hb as [[Hc Hl] | (Hc & Hgap & Hl)].
      * destruct (IH st1 evs2 r2 Hrest) as [Hbound Hfinal];
          [rewrite Hl; exact Hlast | exact Hrun |].
        rewrite Hc, Hl in *. split; [lia | exact Hfinal].
      * destruct (IH st1 evs2 r2 Hrest) as [Hbound Hfinal];
          [rewrite Hl; exact Hhere | exact Hrun |].
        rewrite Hc, Hl in *. split; [nia | exact Hfinal].
    + intros [= <- <-]. rewrite count_app, count_cleanup_chunk, Nat.add_0_r.
      cbn [state_of].
      destruct Hb as [[Hc Hl] | (Hc & Hgap & Hl)]; rewrite Hc, Hl; split; nia.
  - intros [= <- <-]. rewrite count_cleanup_chunk. cbn. split; [nia | exact Hlast].
Qed.

(** Four frames offered 20 ms apart on the standard tier: the second and
    the fourth come too early. *)
Definition burst : list observation :=
  [pass 1000000 (Returns (Some jpeg)) Resume; pass 1020000 (Returns (Some jpeg)) Resume;
   pass 1040000 (Returns (Some jpeg)) Resume; pass 1060000 (Returns (Some jpeg)) Resume].

Lemma emission_rate_bounded_witness :
  Forall (fun ob => ob_time ob <= 1060000) burst
  /\ Z.of_nat (count is_chunk
                 [Chunk (multipart jpeg); Sleep 10000; Chunk (multipart jpeg); Sleep 10000])
     * 1000000
     <= (1060000 - 0) * 30.
Proof.
  assert (Hobs : Forall (fun ob => ob_time ob <= 1060000) burst)
    by (repeat constructor; cbn; lia).
  split; [exact Hobs|].
  refine (proj1 (emission_rate_bounded Standard burst 1060000
                   (initial_state (Some cam))
                   [Chunk (multipart jpeg); Sleep 10000; Chunk (multipart jpeg);
                    Sleep 10000]
                   (Running {| frame_count := 2; retry_count := 0;
                               last_frame_time := 1040000;
                               pipeline_instance := Some cam |})
                   Hobs _ _)).
  - cbn; lia.
  - vm_compute. reflexivity.
Defined.

(** ** The start-up wait when a frame arrives *)

(** The clock reading at the [k]-th poll after [now]. *)
Definition poll_time (env : request_env) (now : Z) (k : nat) : Z :=
  Nat.iter k (env_after_sleep env) now.

Lemma poll_time_succ env now k :
  poll_time env now (S k) = poll_time env (env_after_sleep env now) k.
Proof. unfold poll_time. apply Nat.iter_succ_r. Qed.

Lemma wait_sees_frame env wait_start f : forall (j fuel : nat) (now : Z),
  (forall k, (k < j)%nat ->
     env_latest_frame env (poll_time env now k) = Returns None
     /\ poll_time env now k - wait_start < max_wait_time) ->
  env_latest_frame env (poll_time env now j) = Returns (Some f) ->
  poll_time env now j - wait_start < max_wait_time ->
  (j < fuel)%nat ->
  wait_for_frame fuel env wait_start now = Some (repeat (Sleep poll_sleep) j, Returns true).
Proof.
  induction j as [|j IH]; intros fuel now Hbefore Hframe Hin Hfuel;
    (destruct fuel as [|fuel]; [lia|]); cbn [wait_for_frame].
  - cbn in Hframe, Hin. apply Z.ltb_lt in Hin. rewrite Hin, Hframe. reflexivity.
  - destruct (Hbefore 0%nat) as [Hnone Hlt]; [lia|]. cbn in Hnone, Hlt.
    apply Z.ltb_lt in Hlt. rewrite Hlt, Hnone.
    rewrite (IH fuel (env_after_sleep env now)); [reflexivity | | | | lia].
    + intros k Hk. rewrite <- poll_time_succ. apply Hbefore. lia.
    + now rewrite <- poll_time_succ.
    + now rewrite <- poll_time_succ.
Qed.

(** X3: when the pipeline passes the preconditions and its first frame
    shows at the [j]-th poll, still inside the five seconds, the handler
    answers with the stream after exactly [j] sleeps of 100 ms, and it does
    not call [stop_streaming]: the flag that [start_streaming] set stays
    set for the generator. *)
Theorem stream_opens_on_first_frame (t : tier) (env : request_env) (i : instance)
    (f : frame) (j fuel : nat) :
  env_manager env = true ->
  env_active env = true ->
  env_info env = HasInstance (Some i) ->
  (if exposes_is_running i then env_is_running env else Returns true) = Returns true ->
  (if exposes_is_initialized i then env_is_initialized env else Returns true)
    = Returns true ->
  (forall k, (k < j)%nat ->
     env_latest_frame env (poll_time env (env_start env) k) = Returns None
     /\ poll_time env (env_start env) k - env_start env < max_wait_time) ->
  env_latest_frame env (poll_time env (env_start env) j) = Returns (Some f) ->
  poll_time env (env_start env) j - env_start env < max_wait_time ->
  (j < fuel)%nat ->
  stream_pipeline t fuel env
  = Some (if_exposed (exposes_start_streaming i) (StartStreaming i)
            ++ repeat (Sleep poll_sleep) j,
          Reply (StreamResponse t))
  /\ (exposes_start_streaming i = true ->
      forall before,
        streaming_flag i before
          (if_exposed (exposes_start_streaming i) (StartStreaming i)
             ++ repeat (Sleep poll_sleep) j) = true).
Proof.
  intros Hm Ha Hi Hrun Hinit Hbefore Hframe Hin Hfuel. split.
  - unfold stream_pipeline. rewrite Hm, Ha, Hi. cbn [negb orb].
    rewrite Hrun, Hinit.
    rewrite (wait_sees_frame env (env_start env) f j fuel (env_start env)
               Hbefore Hframe Hin Hfuel).
    reflexivity.
  - intros -> before. cbn [if_exposed]. rewrite streaming_flag_app. cbn.
    destruct (decide (inst_id i = inst_id i)); [|contradiction].
    clear. induction j as [|j IH]; [reflexivity | exact IH].
Qed.

(** A camera whose first frame shows at the third poll. *)
Definition slow_start_env : request_env :=
  {| env_manager := true; env_active := true; env_info := HasInstance (Some cam);
     env_is_running := Returns true; env_is_initialized := Returns true;
     env_start := 0;
     env_latest_frame := fun now =>
       if now <? 200000 then Returns None
       else Returns (Some {| height := 480; width := 640 |});
     env_after_sleep := fun now => now + poll_sleep |}.

Lemma stream_opens_on_first_frame_witness :
  stream_pipeline Standard 5 slow_start_env
  = Some ([StartStreaming cam; Sleep poll_sleep; Sleep poll_sleep],
          Reply (StreamResponse Standard)).
Proof.
  refine (proj1 (stream_opens_on_first_frame Standard slow_start_env cam
                   {| height := 480; width := 640 |} 2 5
                   eq_refl eq_refl eq_refl eq_refl eq_refl _ eq_refl _ _)).
  - intros k Hk. destruct k as [|[|k]]; [split; [reflexivity | reflexivity]
                                        | split; [reflexivity | reflexivity] | lia].
  - reflexivity.
  - lia.
Defined.

(** ** What the handler does before and after the wait *)

Lemma wait_only_sleeps env wait_start : forall fuel now evs r,
  wait_for_frame fuel env wait_start now = Some (evs, r) ->
  Forall (fun e => is_sleep e = true) evs.
Proof.
  induction fuel as [|fuel IH]; intros now evs r; cbn [wait_for_frame]; [discriminate|].
  destruct (now - wait_start <? max_wait_time); [|intros [= <- <-]; constructor].
  destruct (env_latest_frame env now) as [[f|]| |];
    try (intros [= <- <-]; constructor).
  destruct (wait_for_frame fuel env wait_start (env_after_sleep env now))
    as [[evs' r']|] eqn:Hrec; [|discriminate].
  intros [= <- <-]. constructor; [reflexivity | eapply IH; exact Hrec].
Qed.

Lemma sleeps_no_stop evs :
  Forall (fun e => is_sleep e = true) evs -> count is_stop evs = 0%nat.
Proof.
  induction 1 as [|e evs He _ IH]; [reflexivity|].
  destruct e; try discriminate He. exact IH.
Qed.

Lemma count_if_exposed_stop b i :
  count is_stop (if_exposed b (StartStreaming i)) = 0%nat.
Proof. now destruct b. Qed.

(** X4: whatever the environment, the handler rejects a request (404 or
    400) before it has touched the instance, so with no event at all; it
    calls [stop_streaming] at most once, and only together with the 503
    answer; the answers that open the stream or report an exception (500)
    leave the flag as [start_streaming] set it. *)
Theorem handler_flag_discipline (t : tier) (fuel : nat) (env : request_env)
    (evs : list event) (rep : reply) :
  stream_pipeline t fuel env = Some (evs, rep) ->
  (forall status error, rep = Reply (JsonError status error) ->
     status = 404 \/ status = 400 -> evs = [])
  /\ (count is_stop evs <= 1)%nat
  /\ (count is_stop evs = 1%nat -> rep = Reply (JsonError 503 starting_msg))
  /\ count is_chunk evs = 0%nat.
Proof.
  unfold stream_pipeline.
  destruct (negb (env_manager env) || negb (env_active env)).
  { intros [= <- <-]. repeat split; auto; discriminate. }
  destruct (env_info env) as [| |[i|]];
    try (intros [= <- <-]; repeat split; auto; try discriminate;
         intros ? ? [= <- _] [|]; discriminate).
  destruct (if exposes_is_running i then env_is_running env else Returns true)
    as [[|]| |];
    try (intros [= <- <-]; repeat split; auto; try discriminate;
         intros ? ? [= <- _] [|]; discriminate).
  destruct (if exposes_is_initialized i then env_is_initialized env else Returns true)
    as [[|]| |];
    try (intros [= <- <-]; repeat split; auto; try discriminate;
         intros ? ? [= <- _] [|]; discriminate).
  destruct (wait_for_frame fuel env (env_start env) (env_start env))
    as [[wevs r]|] eqn:Hwait; [|discriminate].
  pose proof (wait_only_sleeps _ _ _ _ _ _ Hwait) as Hsleeps.
  pose proof (sleeps_no_stop _ Hsleeps) as Hstop.
  pose proof (sleeps_no_chunk _ Hsleeps) as Hchunk.
  assert (Hstart : count is_chunk
                     (if_exposed (exposes_start_streaming i) (StartStreaming i)) = 0%nat)
    by (now destruct (exposes_start_streaming i)).
  destruct r as [[|]| |]; intros [= <- <-];
    rewrite ?count_app, ?count_if_exposed_stop, Hstop, Hchunk, Hstart;
    (split; [intros ? ? [= <- _] [|]; discriminate|]);
    try (destruct (exposes_stop_streaming i); cbn; repeat split; auto; discriminate);
    cbn; repeat split; auto; discriminate.
Qed.

Lemma handler_flag_discipline_witness :
  count is_stop (StartStreaming cam :: repeat (Sleep poll_sleep) 50 ++ [StopStreaming cam])
  = 1%nat
  /\ Reply (JsonError 503 starting_msg) = Reply (JsonError 503 starting_msg).
Proof.
  split; [reflexivity|].
  refine (proj1 (proj2 (proj2 (handler_flag_discipline HighQuality 51 no_frame_env
                   (StartStreaming cam :: repeat (Sleep poll_sleep) 50 ++ [StopStreaming cam])
                   (Reply (JsonError 503 starting_msg)) _))) _).
  - vm_compute. reflexivity.
  - reflexivity.
Defined.

End StreamMore.

(** * Further properties of the bundle import *)

Module BundleMore.
Import Bundle BundleFacts.

Section Outcomes.
Context {R : Type}.
Variable store_model :
  world R -> string -> content -> pyval -> pyval -> string -> pyval ->
  call (pyval * world R).
Variable get_model_metadata : world R -> pyval -> call pyval.
Variable pipeline_names : world R -> call (list pyval).
Variable create_pipeline : world R -> gmap string pyval -> call (pyval * world R).

Local Abbreviation import :=
  (import_pipeline store_model get_model_metadata pipeline_names create_pipeline).


(** X6: when the import succeeds, the configuration handed to
    [create_pipeline] carries the name of the answer, which no listed
    pipeline has; it has no [export_metadata]; its model reference is the
    archive's with [id] replaced by the new model identifier when a model was
    stored, and the archive's own otherwise; every other entry is the
    archive's. *)
Theorem created_configuration (u : upload) (w w' : world R)
    (pipeline_id : pyval) (pipeline_name : string) (model_id : pyval) :
  import true (Some u) w = Some (Imported pipeline_id pipeline_name model_id, w') ->
  exists ex config_data w1 existing_names created,
    up_archive u = Returns ex
    /\ ex_config ex = Some (Returns (PDict config_data))
    /\ pipeline_names w1 = Returns existing_names
    /\ create_pipeline w1 created = Returns (pipeline_id, w')
    /\ created !! "name" = Some (PStr pipeline_name)
    /\ str_in pipeline_name existing_names = false
    /\ created !! "export_metadata" = None
    /\ (if truthy model_id
        then exists model, config_data !! "model" = Some (PDict model)
                           /\ created !! "model" = Some (PDict (<["id" := model_id]> model))
        else created !! "model" = config_data !! "model")
    /\ forall k, k <> "name" -> k <> "export_metadata" -> k <> "model" ->
                 created !! k = config_data !! k.
Proof.
  unfold import_pipeline, failure. cbn [negb]. intros Himp.
  repeat match type of Himp with
         | context [match ?x with _ => _ end] => destruct x eqn:?
         end; try discriminate.
  injection Himp as <- <- <- <-. subst.
  match goal with
  | Hu : unique_name ?o ?names = Some ?name |- _ =>
      pose proof (rename_loop_sound o names _ _ _ _ Hu) as [Hfree _]
  end.
  match goal with
  | Hc : create_pipeline ?w1 ?created = Returns _,
    Hn : pipeline_names ?w1 = Returns ?names,
    He : ex_config ?ex = Some (Returns (PDict ?m)) |- _ =>
      exists ex, m, w1, names, created
  end.
  split; [reflexivity|]. split; [assumption|]. split; [assumption|].
  split; [assumption|].
  split; [rewrite lookup_delete_ne by discriminate; apply lookup_insert_eq|].
  split; [exact Hfree|]. split; [apply lookup_delete_eq|].
  match goal with
  | Hcfg : (if truthy ?id then _ else _) = Returns ?c |- _ =>
      destruct (truthy id);
      [ destruct (_ !! "model") as [[| | | | |model]|] eqn:Hmodel; try discriminate Hcfg
      | ];
      injection Hcfg as <-
  end.
  - split.
    + exists model. split; [reflexivity|].
      rewrite lookup_delete_ne, lookup_insert_ne by discriminate.
      apply lookup_insert_eq.
    + intros k Hn He Hmo.
      rewrite lookup_delete_ne, !lookup_insert_ne by congruence. reflexivity.
  - split.
    + rewrite lookup_delete_ne, lookup_insert_ne by discriminate. reflexivity.
    + intros k Hn He Hmo.
      rewrite lookup_delete_ne, lookup_insert_ne by congruence. reflexivity.
Qed.

End Outcomes.


(** A complete bundle with one model file, imported next to a pipeline of
    the same name. *)
Definition cam1_bundle : upload :=
  {| up_filename := Some "cam1_export.zip";
     up_archive :=
       Returns {| ex_config :=
                    Some (Returns (PDict {[ "name" := PStr "Cam1";
                                            "frame_source" := PDict ∅;
                                            "model" := PDict ∅;
                                            "export_metadata" := PDict ∅ ]}));
                  ex_models := Some [("net.onnx", [Byte.x01])];
                  ex_metadata := Returns PNone |} |}.

Lemma created_configuration_witness :
  exists ex config_data w1 existing_names created,
    up_archive cam1_bundle = Returns ex
    /\ ex_config ex = Some (Returns (PDict config_data))
    /\ (fun _ : world nat => Returns [PStr "Cam1"]) w1 = Returns existing_names
    /\ counting_create w1 created = Returns (PStr "pipeline-1", World ∅ 2%nat)
    /\ created !! "name" = Some (PStr "Cam1 (imported 1)")
    /\ str_in "Cam1 (imported 1)" existing_names = false
    /\ created !! "export_metadata" = None
    /\ (if truthy (PStr "model-1")
        then exists model, config_data !! "model" = Some (PDict model)
                           /\ created !! "model"
                              = Some (PDict (<["id" := PStr "model-1"]> model))
        else created !! "model" = config_data !! "model")
    /\ forall k, k <> "name" -> k <> "export_metadata" -> k <> "model" ->
                 created !! k = config_data !! k.
Proof.
  apply (created_configuration counting_store (fun _ _ => Returns PNone)
           (fun _ => Returns [PStr "Cam1"]) counting_create cam1_bundle empty_world
           (World ∅ 2%nat) (PStr "pipeline-1") "Cam1 (imported 1)" (PStr "model-1")).
  vm_compute. reflexivity.
Defined.

(** ** Choosing the main model file *)

Lemma listed_elem name (l : list (string * content)) :
  listed name l = true <-> exists data, (name, data) ∈ l.
Proof.
  unfold listed. rewrite existsb_exists. split.
  - intros ([n d] & Hin & Heq). apply String.eqb_eq in Heq. cbn in Heq. subst.
    exists d. now apply list_elem_of_In.
  - intros [d Hin]. exists (name, d). split; [now apply list_elem_of_In|].
    apply String.eqb_refl.
Qed.

Lemma model_files_of_elem name data listing :
  (name, data) ∈ model_files_of listing <->
  (name, data) ∈ listing /\ name <> metadata_name.
Proof.
  unfold model_files_of. rewrite !list_elem_of_In, List.filter_In. cbn [fst].
  rewrite negb_true_iff, String.eqb_neq. reflexivity.
Qed.

(** X7: the main model file of an import is always one of the extracted
    files, never the metadata document; it is the file that the metadata
    names as [stored_filename] whenever that file was extracted (the listing
    order does not matter then), and the first listed file otherwise. *)
Theorem main_file_is_extracted (model_metadata : pyval)
    (listing : list (string * content)) (first : string) (first_data : content)
    (rest : list (string * content)) :
  model_files_of listing = (first, first_data) :: rest ->
  let main := choose_main model_metadata first (model_files_of listing) in
  listed main listing = true
  /\ main <> metadata_name
  /\ (forall m stored,
        model_metadata = PDict m -> m <> ∅ ->
        m !! "stored_filename" = Some (PStr stored) ->
        listed stored (model_files_of listing) = true -> main = stored)
  /\ (main <> first ->
      exists m, model_metadata = PDict m /\ m !! "stored_filename" = Some (PStr main)).
Proof.
  intros Hfiles main.
  assert (Hfirst : (first, first_data) ∈ model_files_of listing)
    by (rewrite Hfiles; left).
  apply model_files_of_elem in Hfirst as [Hfirst_in Hfirst_ne].
  assert (Hcases : main = first
                   \/ exists m stored, model_metadata = PDict m
                        /\ m !! "stored_filename" = Some (PStr stored)
                        /\ listed stored (model_files_of listing) = true
                        /\ main = stored).
  { subst main. unfold choose_main.
    destruct model_metadata as [| | | | |m]; auto.
    destruct (truthy (PDict m)); auto.
    destruct (m !! "stored_filename") as [[| | |stored| |]|] eqn:Hs; auto.
    destruct (listed stored (model_files_of listing)) eqn:Hl; auto.
    right. exists m, stored. auto. }
  split; [|split; [|split]].
  - destruct Hcases as [-> | (m & stored & _ & _ & Hl & ->)].
    + apply listed_elem. eauto.
    + apply listed_elem in Hl as [d Hd]. apply model_files_of_elem in Hd as [Hd _].
      apply listed_elem. eauto.
  - destruct Hcases as [-> | (m & stored & _ & _ & Hl & ->)]; [exact Hfirst_ne|].
    apply listed_elem in Hl as [d Hd]. now apply model_files_of_elem in Hd as [_ Hd].
  - intros m stored -> Hne Hs Hl. subst main. unfold choose_main. cbn [truthy].
    rewrite bool_decide_eq_false_2 by exact Hne. cbn [negb]. now rewrite Hs, Hl.
  - intros Hne. destruct Hcases as [-> | (m & stored & -> & Hs & _ & ->)];
      [contradiction | eauto].
Qed.

Lemma main_file_is_extracted_witness :
  model_files_of [("model_metadata.json", [Byte.x7b]); ("weights.bin", [Byte.x02]);
                  ("net.onnx", [Byte.x01])]
  = [("weights.bin", [Byte.x02]); ("net.onnx", [Byte.x01])]
  /\ choose_main (PDict {[ "stored_filename" := PStr "net.onnx" ]}) "weights.bin"
       (model_files_of [("model_metadata.json", [Byte.x7b]); ("weights.bin", [Byte.x02]);
                        ("net.onnx", [Byte.x01])])
     <> metadata_name.
Proof.
  split; [reflexivity|].
  exact (proj1 (proj2 (main_file_is_extracted
                         (PDict {[ "stored_filename" := PStr "net.onnx" ]})
                         [("model_metadata.json", [Byte.x7b]); ("weights.bin", [Byte.x02]);
                          ("net.onnx", [Byte.x01])]
                         "weights.bin" [Byte.x02] [("net.onnx", [Byte.x01])] eq_refl))).
Defined.

(** ** Extensions and destinations of the sibling files *)

Lemma append_cons (a : ascii) (s t : string) : String a s +:+ t = String a (s +:+ t).
Proof. reflexivity. Qed.

Lemma append_empty (s : string) : s +:+ "" = s.
Proof. induction s as [|a s IH]; [reflexivity|]. now rewrite append_cons, IH. Qed.

Lemma substring_all (s : string) : String.substring 0 (String.length s) s = s.
Proof. induction s as [|a s IH]; [reflexivity|]. cbn. now rewrite IH. Qed.

Lemma upto_from (i : nat) (s : string) : Path.upto i s +:+ Path.from i s = s.
Proof.
  unfold Path.upto, Path.from. revert i.
  induction s as [|a s IH]; intros [|i]; try reflexivity.
  - cbn. now rewrite substring_all.
  - cbn [String.substring String.length Nat.sub].
    rewrite append_cons. f_equal. apply IH.
Qed.

Lemma rfind_from (c : ascii) (s : string) : forall i,
  Path.rfind c s = Some i -> exists rest, Path.from i s = String c rest.
Proof.
  unfold Path.from. induction s as [|a s IH]; intros i; cbn [Path.rfind]; [discriminate|].
  destruct (Path.rfind c s) as [i'|].
  - intros [= <-]. destruct (IH i' eq_refl) as [rest Hrest]. exists rest. exact Hrest.
  - destruct (Ascii.eqb a c) eqn:Hac; [|discriminate].
    intros [= <-]. apply Ascii.eqb_eq in Hac as ->. cbn. eauto.
Qed.

(** An extension as [os.path.splitext] returns it. *)
Definition extension_like (e : string) : Prop :=
  e = "" \/ exists rest, e = String "." rest.

Lemma splitext_extension (p : string) : extension_like (snd (Path.splitext p)).
Proof.
  unfold Path.splitext. destruct (Path.rfind "." p) as [dot_index|] eqn:Hdot; [|now left].
  destruct (_ && _); [|now left].
  right. cbn [snd]. now apply rfind_from.
Qed.

(** X8: the name under which a sibling is copied is the new model's base
    name followed by the sibling's extension; that extension and the rest of
    the sibling's name make up the name again, and the extension is empty or
    begins with a dot. *)
Theorem sibling_name_shape (new_model_dir new_model_base model_file : string) :
  let stem := fst (Path.splitext model_file) in
  let ext := snd (Path.splitext model_file) in
  sibling_dest new_model_dir new_model_base model_file
  = Path.join new_model_dir (new_model_base +:+ ext)
  /\ stem +:+ ext = model_file
  /\ (ext = "" \/ exists rest, ext = String "." rest).
Proof.
  intros stem ext. split; [reflexivity|]. split; [|apply splitext_extension].
  subst stem ext. unfold Path.splitext.
  destruct (Path.rfind "." model_file) as [dot_index|]; [|apply append_empty].
  destruct (_ && _); [apply upto_from | apply append_empty].
Qed.

Lemma starts_with_slash_base (base e1 e2 : string) :
  extension_like e1 -> extension_like e2 ->
  Path.starts_with (base +:+ e1) "/" = Path.starts_with (base +:+ e2) "/".
Proof.
  unfold Path.starts_with. intros H1 H2.
  assert (Hempty : forall x, String.prefix "" x = true) by (now intros [|? ?]).
  destruct base as [|a base];
    [|rewrite !append_cons; cbn [String.prefix];
      destruct (ascii_dec "/" a); rewrite ?Hempty; reflexivity].
  destruct H1 as [-> | [r1 ->]], H2 as [-> | [r2 ->]]; reflexivity.
Qed.

Lemma join_extension_inj (dir base e1 e2 : string) :
  extension_like e1 -> extension_like e2 ->
  Path.join dir (base +:+ e1) = Path.join dir (base +:+ e2) -> e1 = e2.
Proof.
  intros H1 H2. unfold Path.join.
  rewrite (starts_with_slash_base base e1 e2 H1 H2).
  destruct (Path.starts_with (base +:+ e2) "/"); [|destruct (_ || _)];
    intros Heq; repeat (apply String.app_inj in Heq); exact Heq.
Qed.

Lemma NoDup_fmap_same {A B} (f : A -> B) (l : list A) x y :
  NoDup (f <$> l) -> x ∈ l -> y ∈ l -> f x = f y -> x = y.
Proof.
  induction l as [|a l IH]; intros Hnd Hx Hy Hf; [inversion Hx|].
  cbn in Hnd. apply NoDup_cons in Hnd as [Hnotin Hnd].
  apply elem_of_cons in Hx as [-> | Hx], Hy as [-> | Hy]; auto.
  - exfalso. apply Hnotin. rewrite Hf. now apply list_elem_of_fmap_2.
  - exfalso. apply Hnotin. rewrite <- Hf. now apply list_elem_of_fmap_2.
Qed.

(** X9: when the extracted model files have pairwise different names and
    the siblings pairwise different extensions, no sibling is lost: after
    the copy loop each sibling's content is at its destination. *)
Theorem distinct_extensions_keep_all
    (new_model_dir new_model_base main_model_file : string)
    (model_files : list (string * content)) (fs : gmap string content) :
  NoDup (fst <$> model_files) ->
  NoDup ((fun n => snd (Path.splitext n)) <$> sibling_names main_model_file model_files) ->
  forall name data,
    (name, data) ∈ model_files -> is_sibling main_model_file name = true ->
    copy_siblings new_model_dir new_model_base main_model_file model_files fs
      !! sibling_dest new_model_dir new_model_base name
    = Some data.
Proof.
  intros Hnames Hexts name data Hin Hsib.
  rewrite copy_lookup.
  set (p := sibling_dest new_model_dir new_model_base name).
  assert (Hmine : (name, data)
                  ∈ writers new_model_dir new_model_base main_model_file p model_files)
    by (apply writers_elem; auto).
  assert (Honly : forall e,
            e ∈ writers new_model_dir new_model_base main_model_file p model_files ->
            e = (name, data)).
  { intros e (He & Hes & Hed)%writers_elem.
    apply (NoDup_fmap_same fst model_files e (name, data) Hnames He Hin). cbn [fst].
    assert (Hsn : forall n d, (n, d) ∈ model_files -> is_sibling main_model_file n = true ->
                    n ∈ sibling_names main_model_file model_files).
    { intros n d Hn Hs. unfold sibling_names. apply list_elem_of_fmap.
      exists (n, d). split; [reflexivity|]. apply list_elem_of_In, List.filter_In.
      split; [now apply list_elem_of_In | exact Hs]. }
    apply (NoDup_fmap_same (fun n => snd (Path.splitext n))
             (sibling_names main_model_file model_files) _ _ Hexts).
    - destruct e as [n d]. now apply (Hsn n d).
    - now apply (Hsn name data).
    - apply (join_extension_inj new_model_dir new_model_base);
        [apply splitext_extension | apply splitext_extension | exact Hed]. }
  destruct (last (writers new_model_dir new_model_base main_model_file p model_files))
    as [e|] eqn:Hlast.
  - apply last_Some in Hlast as [front Hfront].
    rewrite (Honly e); [reflexivity|].
    rewrite Hfront. apply elem_of_app. right. constructor.
  - apply last_None in Hlast. rewrite Hlast in Hmine. inversion Hmine.
Qed.

Definition label_and_weights : list (string * content) :=
  [("net.onnx", [Byte.x01]); ("net.bin", [Byte.x0a]); ("net.txt", [Byte.x0c]);
   ("model_metadata.json", [Byte.x7b])].

Lemma distinct_extensions_keep_all_witness :
  NoDup (fst <$> label_and_weights)
  /\ copy_siblings "/models/m2" "m2_net" "net.onnx" label_and_weights ∅
       !! sibling_dest "/models/m2" "m2_net" "net.bin"
     = Some [Byte.x0a].
Proof.
  assert (Hnames : NoDup (fst <$> label_and_weights))
    by (apply (bool_decide_unpack _); vm_compute; exact I).
  split; [exact Hnames|].
  apply (distinct_extensions_keep_all "/models/m2" "m2_net" "net.onnx"
           label_and_weights ∅ Hnames).
  - apply (bool_decide_unpack _). vm_compute. exact I.
  - right. left.
  - reflexivity.
Defined.

End BundleMore.

(** * The download name of an export *)

Module ExportFacts.
Import Exporter.

Lemma append_step (a : ascii) (s t : string) : String a s +:+ t = String a (s +:+ t).
Proof. reflexivity. Qed.

(** What [zip_filename] does to one character of the name. *)
Definition safe_char (c : ascii) : ascii :=
  if Ascii.eqb c " " || reserved c then "_"%char else c.

Fixpoint safe (s : string) : string :=
  match s with
  | EmptyString => EmptyString
  | String a s' => String (safe_char a) (safe s')
  end.

Lemma zip_filename_safe (name : string) : zip_filename name = safe name +:+ "_export.zip".
Proof.
  unfold zip_filename. induction name as [|a name IH]; [reflexivity|].
  cbn [replace_char safe]. rewrite !append_step. cbn [sub_reserved]. rewrite IH.
  f_equal. unfold safe_char.
  destruct (Ascii.eqb a " ") eqn:Hsp.
  - apply Ascii.eqb_eq in Hsp as ->. reflexivity.
  - destruct (Ascii.eqb a "/") eqn:Hsl.
    + apply Ascii.eqb_eq in Hsl as ->. reflexivity.
    + reflexivity.
Qed.

Lemma safe_char_ok (c : ascii) :
  reserved (safe_char c) = false /\ safe_char c <> " "%char.
Proof.
  unfold safe_char. destruct (Ascii.eqb c " ") eqn:Hsp; cbn [orb].
  - split; [reflexivity | discriminate].
  - destruct (reserved c) eqn:Hr.
    + split; [reflexivity | discriminate].
    + split; [exact Hr | now apply Ascii.eqb_neq].
Qed.

Lemma get_safe (name : string) : forall i,
  String.get i (safe name) = safe_char <$> String.get i name.
Proof.
  induction name as [|a name IH]; intros [|i]; try reflexivity. cbn. apply IH.
Qed.

Lemma get_some_lt (s : string) : forall i c,
  String.get i s = Some c -> (i < String.length s)%nat.
Proof.
  induction s as [|a s IH]; intros [|i] c; cbn; try discriminate; [lia|].
  intros Hget. apply IH in Hget. lia.
Qed.

Lemma length_safe (name : string) : String.length (safe name) = String.length name.
Proof. induction name as [|a name IH]; [reflexivity|]. cbn. now rewrite IH. Qed.

Lemma length_app (s t : string) :
  String.length (s +:+ t) = (String.length s + String.length t)%nat.
Proof. induction s as [|a s IH]; [reflexivity|]. rewrite append_step. cbn. now rewrite IH. Qed.

(** X10: the download name of an export is the pipeline name with every
    space, every double quote and every character of [< > : / \ | ? *]
    replaced by an underscore, all
    other characters untouched, followed by [_export.zip]: it is 11
    characters longer than the name and holds no space and none of those
    characters, path separators included. *)
Theorem zip_filename_is_safe (name : string) :
  String.length (zip_filename name) = (String.length name + 11)%nat
  /\ (forall i c, String.get i (zip_filename name) = Some c ->
        reserved c = false /\ c <> " "%char)
  /\ (forall i c, String.get i name = Some c ->
        String.get i (zip_filename name)
        = Some (if Ascii.eqb c " " || reserved c then "_"%char else c))
  /\ (forall i, String.get (String.length name + i) (zip_filename name)
                = String.get i "_export.zip").
Proof.
  rewrite zip_filename_safe. split; [|split; [|split]].
  - rewrite length_app, length_safe. reflexivity.
  - intros i c Hget.
    destruct (decide (i < String.length (safe name))%nat) as [Hlt | Hge].
    + rewrite <- (String.append_correct1 _ _ _ Hlt), get_safe in Hget.
      destruct (String.get i name) as [a|]; [|discriminate].
      injection Hget as <-. apply safe_char_ok.
    + replace i with ((i - String.length (safe name)) + String.length (safe name))%nat
        in Hget by lia.
      rewrite <- String.append_correct2 in Hget.
      revert Hget. generalize (i - String.length (safe name))%nat. intros k.
      do 11 (destruct k as [|k]; [intros [= <-]; split; [reflexivity | discriminate]|]).
      discriminate.
  - intros i c Hget.
    assert (Hlt : (i < String.length (safe name))%nat)
      by (rewrite length_safe; eapply get_some_lt; exact Hget).
    rewrite <- (String.append_correct1 _ _ _ Hlt), get_safe, Hget. reflexivity.
  - intros i. rewrite <- (length_safe name), Nat.add_comm.
    symmetry. apply String.append_correct2.
Qed.

Example zip_filename_sample :
  zip_filename "Dock 3/North: cam?" = "Dock_3_North__cam__export.zip".
Proof. reflexivity. Qed.

End ExportFacts.

(** * Further properties of the publisher persistence *)

Module PersistMore.
Import Persist PersistFacts.

(** ** When serialisation raises *)

(** The attributes that [_serialize_publishers] reads without looking
    first: [rate_limit] always, [port] and [topic] next to [server], [baud]
    next to [com_port]. *)
Definition serializable (d : dest) : bool :=
  hasattr d "rate_limit"
  && (if hasattr d "server" then hasattr d "port" && hasattr d "topic"
      else if hasattr d "url" then true
      else if hasattr d "com_port" then hasattr d "baud"
      else true).

Lemma hasattr_attr d a :
  match attr d a with
  | Returns _ => hasattr d a = true
  | Raises => hasattr d a = false
  | Aborts => False
  end.
Proof.
  unfold attr, hasattr. destruct (attrs d !! a) as [v|].
  - apply bool_decide_eq_true. eauto.
  - apply bool_decide_eq_false. now intros [? ?].
Qed.

Lemma serialized_config_outcome d :
  match serialized_config d with
  | Returns _ =>
      (if hasattr d "server" then hasattr d "port" && hasattr d "topic"
       else if hasattr d "url" then true
       else if hasattr d "com_port" then hasattr d "baud"
       else true) = true
  | Raises =>
      (if hasattr d "server" then hasattr d "port" && hasattr d "topic"
       else if hasattr d "url" then true
       else if hasattr d "com_port" then hasattr d "baud"
       else true) = false
  | Aborts => False
  end.
Proof.
  unfold serialized_config, copy_required.
  pose proof (hasattr_attr d "server") as Hserver.
  pose proof (hasattr_attr d "port") as Hport.
  pose proof (hasattr_attr d "topic") as Htopic.
  pose proof (hasattr_attr d "url") as Hurl.
  pose proof (hasattr_attr d "com_port") as Hcom.
  pose proof (hasattr_attr d "baud") as Hbaud.
  pose proof (hasattr_attr d "folder_path") as Hfolder.
  destruct (attr d "server"), (attr d "port"), (attr d "topic"), (attr d "url"),
    (attr d "com_port"), (attr d "baud"), (attr d "folder_path");
    try contradiction;
    rewrite ?Hserver, ?Hport, ?Htopic, ?Hurl, ?Hcom, ?Hbaud, ?Hfolder;
    reflexivity.
Qed.

Lemma serialize_publisher_outcome d :
  match serialize_publisher d with
  | Returns _ => serializable d = true
  | Raises => serializable d = false
  | Aborts => False
  end.
Proof.
  unfold serialize_publisher, serializable.
  pose proof (hasattr_attr d "rate_limit") as Hr.
  pose proof (serialized_config_outcome d) as Hc.
  destruct (attr d "rate_limit"); try contradiction; rewrite Hr; [|reflexivity].
  destruct (serialized_config d); try contradiction; rewrite Hc; reflexivity.
Qed.

Lemma serialize_all_cases (destinations : list dest) :
  match _serialize_publishers destinations with
  | Returns serialized =>
      forallb serializable destinations = true
      /\ length serialized = length destinations
      /\ Forall is_object serialized
  | Raises => forallb serializable destinations = false
  | Aborts => False
  end.
Proof.
  induction destinations as [|d rest IH]; cbn [_serialize_publishers forallb].
  - repeat split. constructor.
  - pose proof (serialize_publisher_outcome d) as Hd.
    destruct (serialize_publisher d) as [data| |]; try contradiction; rewrite Hd;
      [|reflexivity].
    destruct (_serialize_publishers rest) as [serialized| |]; try contradiction.
    + destruct IH as (Hall & Hlen & Hobj). cbn. rewrite Hall, Hlen.
      repeat split. constructor; [exact I | exact Hobj].
    + exact IH.
Qed.

(** X11: [_serialize_publishers] is all or nothing. It returns one record
    per destination, each a JSON object, exactly when every destination has
    [rate_limit] and, next to [server], [port] and [topic], and next to
    [com_port] (without [server] or [url]), [baud]; a single destination
    that lacks one of them makes the whole call raise [AttributeError]. *)
Theorem serialization_all_or_nothing (destinations : list dest) :
  match _serialize_publishers destinations with
  | Returns serialized =>
      forallb serializable destinations = true
      /\ length serialized = length destinations
      /\ Forall is_object serialized
  | Raises => forallb serializable destinations = false
  | Aborts => False
  end.
Proof. exact (serialize_all_cases destinations). Qed.

(** A webhook that was never given a rate limit, after a complete broker. *)
Example one_bad_destination_spoils_the_save :
  _serialize_publishers [broker; Dest "WebhookDestination" {[ "url" := PStr "http://x" ]}]
  = Raises.
Proof. vm_compute. reflexivity. Qed.

(** ** What is written comes from the object *)

Lemma copy_attr_sub d a (c : gmap string pyval) :
  c ⊆ attrs d -> copy_attr d a c ⊆ attrs d.
Proof.
  intros Hc. unfold copy_attr. destruct (attrs d !! a) as [v|] eqn:Ha; [|exact Hc].
  now apply insert_subseteq_l.
Qed.

Lemma copy_truthy_sub d a (c : gmap string pyval) :
  c ⊆ attrs d -> copy_truthy d a c ⊆ attrs d.
Proof.
  intros Hc. unfold copy_truthy. destruct (attrs d !! a) as [v|] eqn:Ha; [|exact Hc].
  destruct (truthy v); [|exact Hc]. now apply insert_subseteq_l.
Qed.

Lemma copy_required_sub d a (c : call (gmap string pyval)) c' :
  (forall c0, c = Returns c0 -> c0 ⊆ attrs d) ->
  copy_required d a c = Returns c' -> c' ⊆ attrs d.
Proof.
  intros Hc. unfold copy_required, attr. destruct c as [c0| |]; try discriminate.
  destruct (attrs d !! a) as [v|] eqn:Ha; [|discriminate].
  intros [= <-]. apply insert_subseteq_l; [exact Ha | now apply Hc].
Qed.

(** Under key [k] the configuration holds nothing empty. *)
Definition nonempty_at (k : string) (c : gmap string pyval) : Prop :=
  forall v, c !! k = Some v -> truthy v = true.

Lemma nonempty_at_truthy d a k c : nonempty_at k c -> nonempty_at k (copy_truthy d a c).
Proof.
  intros Hc v. unfold copy_truthy. destruct (attrs d !! a) as [v'|]; [|apply Hc].
  destruct (truthy v') eqn:Ht; [|apply Hc].
  destruct (decide (a = k)) as [-> | Hne].
  - rewrite lookup_insert_eq. now intros [= <-].
  - rewrite lookup_insert_ne by exact Hne. apply Hc.
Qed.

Lemma nonempty_at_attr d a k c :
  a <> k -> nonempty_at k c -> nonempty_at k (copy_attr d a c).
Proof. intros Hne Hc v. rewrite copy_attr_ne by exact Hne. apply Hc. Qed.

Lemma nonempty_at_required d a k c c' :
  a <> k -> (forall c0, c = Returns c0 -> nonempty_at k c0) ->
  copy_required d a c = Returns c' -> nonempty_at k c'.
Proof.
  intros Hne Hc. unfold copy_required. destruct c as [c0| |]; try discriminate.
  destruct (attr d a); try discriminate. intros [= <-] v.
  rewrite lookup_insert_ne by exact Hne. now apply Hc.
Qed.

Lemma nonempty_at_empty k : nonempty_at k ∅.
Proof. intros v. now rewrite lookup_empty. Qed.

Ltac from_attributes :=
  repeat first
    [ apply copy_attr_sub | apply copy_truthy_sub | apply map_empty_subseteq
    | apply nonempty_at_truthy | (apply nonempty_at_attr; [discriminate|])
    | apply nonempty_at_empty ].

Ltac required_chain :=
  repeat match goal with
         | H : copy_required _ _ _ = Returns ?c |- ?c ⊆ _ =>
             eapply copy_required_sub; [|exact H]; clear H; intros ? ?
         | H : copy_required _ _ _ = Returns ?c |- nonempty_at _ ?c =>
             refine (nonempty_at_required _ _ _ _ _ _ _ H); [discriminate|];
             clear H; intros ? ?
         | H : Returns ∅ = Returns ?c |- _ => injection H as <-
         end.

(** X12: both persistence paths write into ['config'] only what the
    destination object holds: every entry is an attribute of the destination
    with that very value (no default is ever substituted), and a [username]
    or [password] is written only when it is non-empty. *)
Theorem config_comes_from_attributes (d : dest) :
  (saved_config d ⊆ attrs d
   /\ nonempty_at "username" (saved_config d)
   /\ nonempty_at "password" (saved_config d))
  /\ forall config, serialized_config d = Returns config ->
       config ⊆ attrs d
       /\ nonempty_at "username" config /\ nonempty_at "password" config.
Proof.
  split.
  - unfold saved_config.
    repeat match goal with
           | |- context [if ?b then _ else _] => destruct b
           end;
      (split; [|split]); from_attributes.
  - intros config. unfold serialized_config.
    repeat match goal with
           | |- context [if ?b then _ else _] => destruct b
           end;
      try (intros [= <-]; (split; [|split]); from_attributes);
      match goal with
      | |- match ?c with _ => _ end = _ -> _ => destruct c eqn:Hc; try discriminate
      end;
      intros [= <-]; (split; [|split]); from_attributes; required_chain;
      from_attributes.
Qed.

End PersistMore.

(** * Properties of [settings_manager.save_settings] and [load_settings] *)

Module SettingsFacts.
Import Persist PersistFacts PersistMore Settings.

(** ** Saving *)

Lemma save_keeps_file_on_failure (n : node_state) (file : option pyval) :
  forallb serializable (st_destinations n) = false ->
  save_settings n file = (file, true).
Proof.
  intros Hbad. unfold save_settings, settings_document.
  pose proof (serialize_all_cases (st_destinations n)) as Hs.
  destruct (_serialize_publishers (st_destinations n)) as [serialized| |];
    try contradiction; [|reflexivity].
  destruct Hs as (Hall & _). congruence.
Qed.

(** X13: [save_settings] writes the settings file only when every
    destination serialises. Then the file holds the node's name, its
    favourites, one record per destination, and a telemetry section exactly
    when the node has a telemetry service. When one destination does not
    serialise, the file is left as it was (the name and the favourites are
    not saved either) and an error is logged. *)
Theorem save_is_all_or_nothing (n : node_state) (file : option pyval) :
  if forallb serializable (st_destinations n)
  then exists settings serialized,
         save_settings n file = (Some (PDict settings), false)
         /\ settings !! "node_name" = Some (st_node_name n)
         /\ settings !! "favorite_configs" = Some (st_favorite_configs n)
         /\ settings !! "result_publishers" = Some (PList serialized)
         /\ length serialized = length (st_destinations n)
         /\ (is_Some (settings !! "telemetry") <-> is_Some (st_telemetry n))
  else save_settings n file = (file, true).
Proof.
  unfold save_settings, settings_document.
  pose proof (serialize_all_cases (st_destinations n)) as Hs.
  destruct (_serialize_publishers (st_destinations n)) as [serialized| |];
    try contradiction.
  - destruct Hs as (-> & Hlen & _).
    eexists _, serialized. split; [reflexivity|].
    destruct (st_telemetry n) as [t|].
    + repeat split; try (simplify_map_eq; reflexivity); try exact Hlen; eauto.
    + repeat split; try (simplify_map_eq; reflexivity); try exact Hlen.
      * intros [? H]. simplify_map_eq.
      * intros [? H]. discriminate.
  - rewrite Hs. reflexivity.
Qed.

(** ** Loading what was saved *)

(** The part of the node that the publisher and telemetry steps leave
    alone. *)
Definition same_identity (a b : node_state) : Prop :=
  st_node_id a = st_node_id b /\ st_node_name a = st_node_name b
  /\ st_info_name a = st_info_name b
  /\ st_favorite_configs a = st_favorite_configs b.

Section Reload.
Variable ResultDestination : pyval -> call dest.
Variable set_context_variables : dest -> pyval -> pyval -> call dest.
Variable configure : dest -> gmap string pyval -> call dest.
Variable set_rate_limit : dest -> pyval -> call dest.
Variable add : list dest -> dest -> call (list dest).
Variable configure_mqtt :
  gmap string pyval -> pyval -> pyval -> pyval -> call (gmap string pyval).
Variable start_telemetry : gmap string pyval -> call (gmap string pyval).

Local Abbreviation load :=
  (load_settings ResultDestination set_context_variables configure set_rate_limit add
     configure_mqtt start_telemetry).
Local Abbreviation publishers_step :=
  (restore_publishers ResultDestination set_context_variables configure
     set_rate_limit add).
Local Abbreviation telemetry_step :=
  (restore_telemetry_step configure_mqtt start_telemetry).

Lemma restore_publishers_identity v n : same_identity (publishers_step v n).1 n.
Proof.
  unfold restore_publishers.
  destruct (Py.iterate v); try (repeat split; fail).
  destruct (_deserialize_publishers _ _ _ _ _ _ _ _ _); repeat split.
Qed.

Lemma restore_telemetry_identity v n : same_identity (telemetry_step v n).1 n.
Proof.
  unfold restore_telemetry_step.
  destruct (st_telemetry n) as [t|]; [|repeat split].
  destruct (restore_telemetry _ _ _ _) as [[[]| |] t']; repeat split.
Qed.

(** The steps after the favourites: lines 30-55. *)
Definition after_favorites (settings : pyval) (n : node_state) : node_state * ending :=
  next (when_present settings "result_publishers" publishers_step n) (fun n =>
    match Py.contains settings "telemetry" with
    | Returns true =>
        match st_telemetry n with
        | Some _ =>
            match Py.getitem settings "telemetry" with
            | Returns v => telemetry_step v n
            | Raises => (n, Warned)
            | Aborts => (n, Left)
            end
        | None => (n, Loaded)
        end
    | Returns false => (n, Loaded)
    | Raises => (n, Warned)
    | Aborts => (n, Left)
    end).

Lemma same_identity_trans a b c :
  same_identity a b -> same_identity b c -> same_identity a c.
Proof.
  intros (?&?&?&?) (?&?&?&?). repeat split; etransitivity; eassumption.
Qed.

Lemma same_identity_refl a : same_identity a a.
Proof. repeat split. Qed.

Lemma after_favorites_identity settings n :
  same_identity (after_favorites settings n).1 n.
Proof.
  unfold after_favorites, when_present, next.
  destruct (Py.contains settings "result_publishers") as [[]| |];
    try apply same_identity_refl.
  - destruct (Py.getitem settings "result_publishers") as [v| |];
      try apply same_identity_refl.
    pose proof (restore_publishers_identity v n) as Hp.
    destruct (publishers_step v n) as [n1 []]; cbn [fst] in *; try exact Hp.
    destruct (Py.contains settings "telemetry") as [[]| |]; try exact Hp.
    destruct (st_telemetry n1); try exact Hp.
    destruct (Py.getitem settings "telemetry") as [w| |]; try exact Hp.
    eapply same_identity_trans; [apply restore_telemetry_identity | exact Hp].
  - destruct (Py.contains settings "telemetry") as [[]| |];
      try apply same_identity_refl.
    destruct (st_telemetry n); try apply same_identity_refl.
    destruct (Py.getitem settings "telemetry") as [w| |];
      try apply same_identity_refl.
    apply restore_telemetry_identity.
Qed.

(** X14: what [save_settings] wrote for a node, [load_settings] gives back
    to any node as far as the identity goes: the loading node ends with the
    saved name (also in [node_info]) and the saved favourites and keeps its
    own id, whatever the destination classes and the telemetry service do
    afterwards. *)
Theorem saved_identity_is_reloaded (n n0 : node_state) (file : option pyval) :
  forallb serializable (st_destinations n) = true ->
  exists settings,
    save_settings n file = (Some settings, false)
    /\ let n' := (load (Some (Returns settings)) n0).1 in
       st_node_name n' = st_node_name n
       /\ st_info_name n' = st_node_name n
       /\ st_favorite_configs n' = st_favorite_configs n
       /\ st_node_id n' = st_node_id n0.
Proof.
  intros Hall. unfold save_settings, settings_document.
  pose proof (serialize_all_cases (st_destinations n)) as Hs.
  destruct (_serialize_publishers (st_destinations n)) as [serialized| |];
    try contradiction; [|congruence].
  eexists. split; [reflexivity|].
  set (settings := match st_telemetry n with
                   | Some t => <["telemetry" := telemetry_section t]> _
                   | None => _
                   end).
  assert (Hname : settings !! "node_name" = Some (st_node_name n))
    by (subst settings; destruct (st_telemetry n); simplify_map_eq; reflexivity).
  assert (Hfav : settings !! "favorite_configs" = Some (st_favorite_configs n))
    by (subst settings; destruct (st_telemetry n); simplify_map_eq; reflexivity).
  clearbody settings.
  change (load (Some (Returns (PDict settings))) n0)
    with (next (when_present (PDict settings) "node_name" restore_name n0) (fun n1 =>
          next (when_present (PDict settings) "favorite_configs" restore_favorites n1)
            (after_favorites (PDict settings)))).
  unfold when_present, Py.contains, Py.getitem. rewrite Hname, Hfav.
  rewrite !bool_decide_eq_true_2 by eauto.
  cbn [next restore_name restore_favorites].
  destruct (Py.sized (st_favorite_configs n)); cbn [fst]; [|repeat split].
  destruct (after_favorites_identity (PDict settings)
              (set_favorites (st_favorite_configs n) (set_name (st_node_name n) n0)))
    as (Hid & Hn & Hi & Hf).
  cbn [st_node_id st_node_name st_info_name st_favorite_configs set_favorites set_name]
    in *.
  repeat split; assumption.
Qed.

(** ** A value that cannot be counted *)

(** X15: loading is not atomic. When the file's ['favorite_configs'] is a
    value [len] does not accept (a number, [null], a boolean), the node
    is left holding that value, the load ends in the warning handler, and
    the publishers and the telemetry section of the file are never looked
    at: the destinations and the telemetry service stay as they were. *)
Theorem uncountable_favorites_stop_the_load
    (settings : gmap string pyval) (v : pyval) (n : node_state) :
  settings !! "favorite_configs" = Some v ->
  Py.sized v = false ->
  let r := load (Some (Returns (PDict settings))) n in
  r.2 = Warned
  /\ st_favorite_configs r.1 = v
  /\ st_destinations r.1 = st_destinations n
  /\ st_telemetry r.1 = st_telemetry n.
Proof.
  intros Hfav Hsized r. subst r.
  change (load (Some (Returns (PDict settings))) n)
    with (next (when_present (PDict settings) "node_name" restore_name n) (fun n1 =>
          next (when_present (PDict settings) "favorite_configs" restore_favorites n1)
            (after_favorites (PDict settings)))).
  unfold when_present, Py.contains, Py.getitem. rewrite Hfav.
  rewrite (bool_decide_eq_true_2 (is_Some (Some v))) by eauto.
  destruct (settings !! "node_name") as [name|].
  - rewrite bool_decide_eq_true_2 by eauto.
    unfold restore_name, restore_favorites. cbn [next]. rewrite Hsized.
    repeat split.
  - rewrite bool_decide_eq_false_2 by (intros [? ?]; discriminate).
    unfold restore_favorites. cbn [next]. rewrite Hsized. repeat split.
Qed.

End Reload.

(** A file whose favourites are a number, with one publisher record. *)
Definition numeric_favorites : gmap string pyval :=
  {[ "node_name" := PStr "bench"; "favorite_configs" := PInt 3;
     "result_publishers" := PList [good_bus] ]}.

Definition fresh_node : node_state :=
  {| st_node_id := PStr "node-1"; st_node_name := PStr "InferNode";
     st_info_name := PStr "InferNode"; st_favorite_configs := PDict ∅;
     st_destinations := []; st_telemetry := None |}.

Definition quiet_mqtt (t : gmap string pyval) (server port topic : pyval)
  : call (gmap string pyval) :=
  Returns (<["mqtt_server" := server]> (<["mqtt_port" := port]>
             (<["mqtt_topic" := topic]> t))).

Definition quiet_start (t : gmap string pyval) : call (gmap string pyval) :=
  Returns (<["running" := PBool true]> t).

Lemma uncountable_favorites_stop_the_load_witness :
  let r := load_settings ResultDestination_spec set_context_variables_spec
             configure_spec set_rate_limit_spec add_spec quiet_mqtt quiet_start
             (Some (Returns (PDict numeric_favorites))) fresh_node in
  r.2 = Warned
  /\ st_favorite_configs r.1 = PInt 3
  /\ st_destinations r.1 = st_destinations fresh_node
  /\ st_telemetry r.1 = st_telemetry fresh_node.
Proof.
  apply (uncountable_favorites_stop_the_load ResultDestination_spec
           set_context_variables_spec configure_spec set_rate_limit_spec add_spec
           quiet_mqtt quiet_start numeric_favorites (PInt 3) fresh_node).
  - vm_compute. reflexivity.
  - reflexivity.
Defined.

(** A node with one complete broker destination. *)
Definition bench_node : node_state :=
  {| st_node_id := PStr "node-7"; st_node_name := PStr "bench";
     st_info_name := PStr "bench";
     st_favorite_configs := PDict {[ "fav-1" := PDict {[ "name" := PStr "lab" ]} ]};
     st_destinations := [broker]; st_telemetry := None |}.

Lemma saved_identity_is_reloaded_witness :
  forallb serializable (st_destinations bench_node) = true
  /\ exists settings,
       save_settings bench_node None = (Some settings, false)
       /\ let n' := (load_settings ResultDestination_spec set_context_variables_spec
                       configure_spec set_rate_limit_spec add_spec quiet_mqtt
                       quiet_start (Some (Returns settings)) fresh_node).1 in
          st_node_name n' = st_node_name bench_node
          /\ st_info_name n' = st_node_name bench_node
          /\ st_favorite_configs n' = st_favorite_configs bench_node
          /\ st_node_id n' = st_node_id fresh_node.
Proof.
  assert (H : forallb serializable (st_destinations bench_node) = true)
    by (vm_compute; reflexivity).
  split; [exact H|].
  exact (saved_identity_is_reloaded ResultDestination_spec set_context_variables_spec
           configure_spec set_rate_limit_spec add_spec quiet_mqtt quiet_start
           bench_node fresh_node None H).
Defined.

End SettingsFacts.

(** * Properties of [InferenceNode._load_settings] and [_save_settings] *)

Module NodeSettingsFacts.
Import Persist PersistFacts PersistMore Settings SettingsFacts NodeSettings.

(** ** Cleaning a configuration *)

Lemma clean_config_lookup (config : gmap string pyval) key value :
  clean_config config !! key = Some value
  <-> config !! key = Some value /\ kept value = true.
Proof.
  unfold clean_config. revert key value.
  apply (map_fold_weak_ind
           (fun cleaned (config : gmap string pyval) =>
              forall key value,
                cleaned !! key = Some value
                <-> config !! key = Some value /\ kept value = true)).
  - intros key value. rewrite !lookup_empty. split; [discriminate | now intros [? _]].
  - intros i x m cleaned Hfresh IH key value.
    destruct (decide (i = key)) as [-> | Hne].
    + rewrite lookup_insert_eq. destruct (kept x) eqn:Hx.
      * rewrite lookup_insert_eq. split.
        -- intros [= <-]. now split.
        -- now intros [[= <-] _].
      * rewrite IH, Hfresh. split.
        -- now intros [? _].
        -- intros [[= <-] Hk]. congruence.
    + rewrite lookup_insert_ne by exact Hne.
      destruct (kept x); [rewrite lookup_insert_ne by exact Hne|]; apply IH.
Qed.

(** X16: the cleaning that precedes [configure] (when a publisher is
    restored and when one is edited) removes exactly the entries whose value
    is [None] or the empty string: every other entry is passed on under its
    key with its value, nothing is added, and cleaning twice changes
    nothing more. *)
Theorem cleaning_drops_only_empty_values (config : gmap string pyval) :
  clean_config config ⊆ config
  /\ (forall key value,
        config !! key = Some value ->
        clean_config config !! key
        = match value with
          | PNone => None
          | PStr s => if String.eqb s EmptyString then None else Some value
          | _ => Some value
          end)
  /\ clean_config (clean_config config) = clean_config config.
Proof.
  split; [|split].
  - apply map_subseteq_spec. intros key value H.
    now apply clean_config_lookup in H as [H _].
  - intros key value Hc.
    assert (Hcases : clean_config config !! key
                     = if kept value then Some value else None).
    { destruct (kept value) eqn:Hk.
      - apply clean_config_lookup. now split.
      - destruct (clean_config config !! key) as [v|] eqn:Hv; [|reflexivity].
        apply clean_config_lookup in Hv as [Hv Hkv]. congruence. }
    rewrite Hcases. destruct value as [| | |[|a s]| |]; reflexivity.
  - apply map_eq. intros key.
    destruct (clean_config config !! key) as [v|] eqn:Hv.
    + apply clean_config_lookup. split; [exact Hv|].
      now apply clean_config_lookup in Hv as [_ Hk].
    + destruct (clean_config (clean_config config) !! key) as [w|] eqn:Hw;
        [|reflexivity].
      apply clean_config_lookup in Hw as [Hw _]. congruence.
Qed.

(** ** Type names *)

Lemma normalize_type_cases (s : string) :
  (s = "MQTTDestination" /\ normalize_type (PStr s) = PStr "mqtt")
  \/ (s = "WebhookDestination" /\ normalize_type (PStr s) = PStr "webhook")
  \/ (s = "SerialDestination" /\ normalize_type (PStr s) = PStr "serial")
  \/ (s = "FileDestination" /\ normalize_type (PStr s) = PStr "file")
  \/ normalize_type (PStr s) = PStr s.
Proof.
  unfold normalize_type.
  repeat match goal with
         | |- context [String.eqb s ?c] =>
             destruct (String.eqb_spec s c) as [-> | ?]; cbn [orb]
         end; tauto.
Qed.

Lemma normalize_dest_type d : normalize_type (PStr (dest_type d)) = PStr (dest_type d).
Proof.
  unfold dest_type.
  repeat match goal with |- context [if ?b then _ else _] => destruct b end;
    reflexivity.
Qed.

(** X17: the type names of a settings file as [_load_settings] reads them.
    Mapping a name twice is mapping it once; every name [_save_settings]
    writes ("mqtt", "webhook", "serial", "file", "unknown") is read as it
    was written; and whenever the loader does rewrite a name (a class name),
    the result is the name [settings_manager] derives from that class name. *)
Theorem saved_type_names_are_understood :
  (forall t, normalize_type (normalize_type t) = normalize_type t)
  /\ (forall d, normalize_type (PStr (dest_type d)) = PStr (dest_type d))
  /\ (forall s, normalize_type (PStr s) <> PStr s ->
                normalize_type (PStr s) = PStr (type_of_class s)).
Proof.
  split; [|split].
  - intros [| | |s| |]; try reflexivity.
    destruct (normalize_type_cases s) as [[_ ->]|[[_ ->]|[[_ ->]|[[_ ->]| H]]]];
      try reflexivity.
    rewrite !H. reflexivity.
  - exact normalize_dest_type.
  - intros s Hs.
    destruct (normalize_type_cases s) as [[-> ->]|[[-> ->]|[[-> ->]|[[-> ->]| H]]]];
      try reflexivity.
    contradiction.
Qed.

Section LoadFacts.
Variable ResultDestination : pyval -> call dest.
Variable set_context_variables : dest -> pyval -> pyval -> call dest.
Variable configure : dest -> gmap string pyval -> call dest.
Variable set_rate_limit : dest -> pyval -> call dest.

Local Abbreviation configured_one :=
  (configured ResultDestination set_context_variables configure set_rate_limit).
Local Abbreviation restore :=
  (restore_publishers ResultDestination set_context_variables configure
     set_rate_limit).

(** ** Records with an identifier *)

(** Every record that is an object carries an ['id']. *)
Definition identified (pub_config : pyval) : Prop :=
  match pub_config with
  | PDict m => is_Some (m !! "id")
  | _ => True
  end.

(** X18: a publisher record with an ['id'] is restored without
    [result_publisher.add]: whatever [add] does (assign a new id, refuse,
    raise), the outcome of restoring a list of such records is the same, and
    each restored destination carries the record's id. *)
Theorem identified_records_bypass_add
    (add1 add2 : list dest -> dest -> call (list dest))
    (n : node) (publishers : list pyval) :
  Forall identified publishers ->
  forall destinations errors,
    restore add1 n publishers destinations errors
    = restore add2 n publishers destinations errors
    /\ match restore add1 n publishers destinations errors with
       | Done destinations' _ | Escaped destinations' _ =>
           exists restored,
             destinations' = destinations ++ restored
             /\ Forall (fun d => exists m, PDict m ∈ publishers
                                           /\ attrs d !! "_id" = m !! "id") restored
       end.
Proof.
  induction 1 as [|pub_config rest Hid _ IH]; intros destinations errors.
  - cbn. split; [reflexivity|]. exists []. now rewrite app_nil_r.
  - destruct pub_config as [| | | | |m]; cbn [restore_publishers];
      try (split; [reflexivity|]; exists []; now rewrite app_nil_r).
    destruct Hid as [ident Hident]. unfold register. rewrite Hident.
    destruct (configured_one n m) as [d| |]; cbn [and_then].
    + destruct (IH (destinations ++ [setattr d "_id" ident]) errors) as [Heq Hshape].
      split; [exact Heq|].
      destruct (restore add1 n rest _ errors) as [ds es|ds es];
        destruct Hshape as (restored & -> & Hall);
        (exists (setattr d "_id" ident :: restored); split;
         [now rewrite <- app_assoc|];
         constructor;
         [exists m; split; [left|]; cbn; now rewrite lookup_insert_eq
         |eapply Forall_impl; [exact Hall|];
          intros d' (m' & Hin & Hd'); exists m'; split; [now right | exact Hd']]).
    + destruct (IH destinations (errors ++ [default (PStr "unknown") (m !! "type")]))
        as [Heq Hshape].
      split; [exact Heq|].
      destruct (restore add1 n rest _ _) as [ds es|ds es];
        destruct Hshape as (restored & -> & Hall);
        (exists restored; split; [reflexivity|];
         eapply Forall_impl; [exact Hall|];
         intros d' (m' & Hin & Hd'); exists m'; split; [now right | exact Hd']).
    + split; [reflexivity|]. exists []. now rewrite app_nil_r.
Qed.

(** ** Failing records *)

Variable add : list dest -> dest -> call (list dest).

(** The destination that a record registers, given the one it configured. *)
Definition registered (pub_config : gmap string pyval) (destination : dest) : dest :=
  match pub_config !! "id" with
  | Some ident => setattr destination "_id" ident
  | None => destination
  end.

Fixpoint reconstructed (n : node) (publishers : list pyval) : list dest :=
  match publishers with
  | [] => []
  | PDict m :: rest =>
      match configured_one n m with
      | Returns d => registered m d :: reconstructed n rest
      | _ => reconstructed n rest
      end
  | _ :: rest => reconstructed n rest
  end.

Fixpoint reported (n : node) (publishers : list pyval) : list pyval :=
  match publishers with
  | [] => []
  | PDict m :: rest =>
      match configured_one n m with
      | Raises => default (PStr "unknown") (m !! "type") :: reported n rest
      | _ => reported n rest
      end
  | _ :: rest => reported n rest
  end.

(** X19: restoring the publishers of a settings file goes through the
    whole list when the records are JSON objects, no destination class is
    interrupted by a non-[Exception] and [add] appends: a record that fails
    (no ['type'], a ['config'] that is not an object, a class that refuses)
    is reported once with its type and changes nothing, and the records that
    succeed are registered in the order of the file, after the destinations
    that were there. *)
Theorem failing_records_are_skipped (n : node) (publishers : list pyval) :
  Forall is_object publishers ->
  (forall m, PDict m ∈ publishers -> configured_one n m <> Aborts) ->
  (forall destinations d, add destinations d = Returns (destinations ++ [d])) ->
  forall destinations errors,
    restore add n publishers destinations errors
    = Done (destinations ++ reconstructed n publishers)
           (errors ++ reported n publishers).
Proof.
  intros Hobj Hno Hadd.
  induction publishers as [|pub_config rest IH]; intros destinations errors.
  - cbn. now rewrite !app_nil_r.
  - inversion Hobj as [|? ? Hhead Htail]; subst.
    destruct pub_config as [| | | | |m]; try destruct Hhead.
    assert (Hhere : configured_one n m <> Aborts) by (apply Hno; left).
    assert (Hrest : forall m', PDict m' ∈ rest -> configured_one n m' <> Aborts)
      by (intros m' Hm'; apply Hno; now right).
    specialize (IH Htail Hrest).
    cbn [restore_publishers reconstructed reported].
    destruct (configured_one n m) as [d| |]; [| |congruence]; cbn [and_then].
    + unfold register, registered.
      destruct (m !! "id") as [ident|]; [|rewrite Hadd];
        rewrite IH, <- app_assoc; reflexivity.
    + rewrite IH, <- app_assoc. reflexivity.
Qed.

End LoadFacts.

(** ** The two settings formats *)

Section Formats.
Variable ResultDestination : pyval -> call dest.
Variable set_context_variables : dest -> pyval -> pyval -> call dest.
Variable configure : dest -> gmap string pyval -> call dest.
Variable set_rate_limit : dest -> pyval -> call dest.
Variable add : list dest -> dest -> call (list dest).
Variable configure_mqtt :
  gmap string pyval -> pyval -> pyval -> pyval -> call (gmap string pyval).
Variable start_telemetry : gmap string pyval -> call (gmap string pyval).

Local Abbreviation load_settings_of :=
  (load_settings ResultDestination set_context_variables configure set_rate_limit add
     configure_mqtt start_telemetry).
Local Abbreviation node_load :=
  (load_name_and_publishers ResultDestination set_context_variables configure
     set_rate_limit add).

Lemma telemetry_step_destinations v n :
  st_destinations (restore_telemetry_step configure_mqtt start_telemetry v n).1
  = st_destinations n.
Proof.
  unfold restore_telemetry_step.
  destruct (st_telemetry n) as [t|]; [|reflexivity].
  destruct (restore_telemetry _ _ _ _) as [[[]| |] t']; reflexivity.
Qed.

(** Without a ['result_publishers'] entry [load_settings] leaves the
    destinations alone. *)
Lemma load_settings_without_publishers (settings : gmap string pyval) n :
  settings !! "result_publishers" = None ->
  st_destinations (load_settings_of (Some (Returns (PDict settings))) n).1
  = st_destinations n.
Proof.
  intros Hnone. unfold load_settings, when_present, Py.contains, Py.getitem.
  rewrite Hnone.
  rewrite (bool_decide_eq_false_2 (is_Some None)) by (intros [? ?]; discriminate).
  destruct (settings !! "node_name") as [name|];
    [rewrite bool_decide_eq_true_2 by eauto
    |rewrite bool_decide_eq_false_2 by (intros [? ?]; discriminate)];
    (destruct (settings !! "favorite_configs") as [favorites|];
     [rewrite bool_decide_eq_true_2 by eauto
     |rewrite bool_decide_eq_false_2 by (intros [? ?]; discriminate)]);
    unfold restore_name, restore_favorites; cbn [next];
    try (destruct (Py.sized favorites); cbn [next fst]; [|reflexivity]);
    (destruct (settings !! "telemetry") as [telemetry|];
     [rewrite bool_decide_eq_true_2 by eauto
     |rewrite bool_decide_eq_false_2 by (intros [? ?]; discriminate); reflexivity]);
    cbn [st_telemetry set_favorites set_name];
    (destruct (st_telemetry n) eqn:Ht; [|reflexivity]);
    rewrite telemetry_step_destinations; reflexivity.
Qed.

(** X20: the two settings formats do not exchange publishers. A file
    written by [settings_manager.save_settings] keeps them under
    ['result_publishers'], which [InferenceNode._load_settings] never reads;
    a file written by [InferenceNode._save_settings] keeps them under
    ['publishers'], which [load_settings] never reads. Either way the loading
    node keeps exactly the destinations it had. *)
Theorem formats_do_not_exchange_publishers
    (n n0 : node_state) (document : gmap string pyval) :
  settings_document n = Returns document ->
  st_destinations (node_load (PDict document) n0).1 = st_destinations n0
  /\ st_destinations (load_settings_of (Some (Returns (PDict (_save_settings n)))) n0).1
     = st_destinations n0.
Proof.
  intros Hdoc. split.
  - unfold settings_document in Hdoc.
    destruct (_serialize_publishers (st_destinations n)) as [serialized| |];
      try discriminate.
    injection Hdoc as <-.
    set (document := match st_telemetry n with
                     | Some t => <["telemetry" := telemetry_section t]> _
                     | None => _
                     end).
    assert (Hname : document !! "node_name" = Some (st_node_name n))
      by (subst document; destruct (st_telemetry n); simplify_map_eq; reflexivity).
    assert (Hpub : document !! "publishers" = None)
      by (subst document; destruct (st_telemetry n); simplify_map_eq; reflexivity).
    clearbody document.
    unfold load_name_and_publishers, Py.contains, Py.getitem.
    rewrite Hname, Hpub. rewrite bool_decide_eq_true_2 by eauto.
    rewrite bool_decide_eq_false_2 by (intros [? ?]; discriminate).
    cbn [and_then]. destruct (truthy (st_node_name n)); reflexivity.
  - apply load_settings_without_publishers.
    unfold _save_settings. simplify_map_eq. reflexivity.
Qed.

End Formats.

(** What [save_settings] writes for the bench node. *)
Definition bench_document : gmap string pyval :=
  match settings_document bench_node with
  | Returns document => document
  | _ => ∅
  end.

Lemma formats_do_not_exchange_publishers_witness :
  settings_document bench_node = Returns bench_document
  /\ st_destinations
       (load_name_and_publishers ResultDestination_spec set_context_variables_spec
          configure_spec set_rate_limit_spec add_spec (PDict bench_document)
          fresh_node).1
     = st_destinations fresh_node
  /\ st_destinations
       (load_settings ResultDestination_spec set_context_variables_spec
          configure_spec set_rate_limit_spec add_spec quiet_mqtt quiet_start
          (Some (Returns (PDict (_save_settings bench_node)))) fresh_node).1
     = st_destinations fresh_node.
Proof.
  assert (H : settings_document bench_node = Returns bench_document)
    by (vm_compute; reflexivity).
  split; [exact H|].
  exact (formats_do_not_exchange_publishers ResultDestination_spec
           set_context_variables_spec configure_spec set_rate_limit_spec add_spec
           quiet_mqtt quiet_start bench_node fresh_node bench_document H).
Defined.

(** The same node does get its publisher back from its own format. *)
Example own_format_restores :
  (fun d => attrs d !! "_id")
    <$> st_destinations
          (load_name_and_publishers ResultDestination_spec set_context_variables_spec
             configure_spec set_rate_limit_spec add_spec
             (PDict (_save_settings bench_node)) fresh_node).1
  = [Some (PStr "7c9e")].
Proof. vm_compute. reflexivity. Qed.

(** ** The round trip of the node's own format *)

Lemma save_publisher_entries d :
  save_publisher d !! "config" = Some (PDict (saved_config d))
  /\ save_publisher d !! "id"
     = match attrs d !! "_id" with
       | Some v => if truthy v then Some v else None
       | None => None
       end
  /\ save_publisher d !! "rate_limit"
     = match attrs d !! "rate_limit" with
       | Some PNone | None => None
       | Some v => Some v
       end
  /\ save_publisher d !! "include_image_data" = attrs d !! "include_image_data".
Proof.
  unfold save_publisher.
  destruct (attrs d !! "_id") as [v|]; [destruct (truthy v)|];
    destruct (attrs d !! "rate_limit") as [[]|];
    destruct (attrs d !! "include_image_data");
    repeat split;
    repeat first [ rewrite lookup_insert_eq | rewrite lookup_singleton_eq
                 | rewrite lookup_insert_ne by discriminate
                 | rewrite lookup_singleton_ne by discriminate ];
    reflexivity.
Qed.

(** The configuration [_save_settings] writes has none of the keys that
    the loader sets on the destination afterwards. *)
Lemma saved_config_keys d key :
  key = "_id" \/ key = "include_image_data" \/ key = "rate_limit"
  \/ key = "context_variables" ->
  saved_config d !! key = None.
Proof.
  intros Hkey. unfold saved_config.
  repeat match goal with |- context [if ?b then _ else _] => destruct b end;
    destruct Hkey as [-> | [-> | [-> | ->]]];
    repeat first [ rewrite copy_attr_ne by discriminate
                 | rewrite copy_truthy_ne by discriminate ];
    apply lookup_empty.
Qed.

Lemma dest_type_cases d :
  dest_type d = "mqtt" \/ dest_type d = "webhook" \/ dest_type d = "serial"
  \/ dest_type d = "file" \/ dest_type d = "unknown".
Proof.
  unfold dest_type.
  repeat match goal with |- context [if ?b then _ else _] => destruct b end; tauto.
Qed.

(** The rate limit and the image flag as the loader puts them back. *)
Definition with_rate_limit (d x : dest) : dest :=
  match attrs d !! "rate_limit" with
  | Some PNone | None => x
  | Some v => setattr x "rate_limit" v
  end.

Definition with_image_flag (d x : dest) : dest :=
  match attrs d !! "include_image_data" with
  | Some v => setattr x "include_image_data" v
  | None => x
  end.

Definition with_id (d x : dest) : dest :=
  match attrs d !! "_id" with
  | Some v => if truthy v then setattr x "_id" v else x
  | None => x
  end.

Lemma own_record_restored (n : node) (d : dest) (destinations : list dest) c :
  class_of_kind (dest_type d) = Some c ->
  and_then (configured ResultDestination_spec set_context_variables_spec
              configure_spec set_rate_limit_spec n (save_publisher d))
           (register add_spec (save_publisher d) destinations)
  = Returns (destinations ++
      [with_id d (with_image_flag d (with_rate_limit d
         (Dest c (clean_config (saved_config d)
                  ∪ <["context_variables" :=
                        PDict {[ "node_id" := node_id n;
                                 "node_name" := node_name n ]}]>
                      {[ "rate_limit" := PNone ]}))))]).
Proof.
  intros Hclass.
  destruct (save_publisher_entries d) as (Hc & Hi & Hr & Hf).
  unfold configured, register.
  rewrite save_publisher_type, Hc, Hi, Hr, Hf, normalize_dest_type.
  unfold ResultDestination_spec. rewrite Hclass.
  unfold with_id, with_image_flag, with_rate_limit.
  cbn [default and_then set_context_variables_spec configure_spec setattr
       class_name attrs].
  destruct (attrs d !! "rate_limit") as [[]|];
    cbn [and_then set_rate_limit_spec setattr class_name attrs];
    destruct (attrs d !! "include_image_data");
    cbn [and_then setattr class_name attrs];
    (destruct (attrs d !! "_id") as [v|]; [destruct (truthy v)|]);
    reflexivity.
Qed.

Lemma setattr_ne x a v k : a <> k -> attrs (setattr x a v) !! k = attrs x !! k.
Proof. intros Hne. cbn. now apply lookup_insert_ne. Qed.

Lemma setattr_eq x a v : attrs (setattr x a v) !! a = Some v.
Proof. cbn. apply lookup_insert_eq. Qed.

Lemma with_rate_limit_ne d x k :
  k <> "rate_limit" -> attrs (with_rate_limit d x) !! k = attrs x !! k.
Proof.
  intros Hne. unfold with_rate_limit.
  destruct (attrs d !! "rate_limit") as [[]|]; try reflexivity;
    now apply setattr_ne.
Qed.

Lemma with_image_flag_ne d x k :
  k <> "include_image_data" -> attrs (with_image_flag d x) !! k = attrs x !! k.
Proof.
  intros Hne. unfold with_image_flag.
  destruct (attrs d !! "include_image_data"); [now apply setattr_ne | reflexivity].
Qed.

Lemma with_id_ne d x k : k <> "_id" -> attrs (with_id d x) !! k = attrs x !! k.
Proof.
  intros Hne. unfold with_id.
  destruct (attrs d !! "_id") as [v|]; [destruct (truthy v)|]; try reflexivity.
  now apply setattr_ne.
Qed.

Lemma with_class d x :
  class_name (with_id d (with_image_flag d (with_rate_limit d x))) = class_name x.
Proof.
  unfold with_id, with_image_flag, with_rate_limit.
  destruct (attrs d !! "_id") as [v|]; [destruct (truthy v)|];
    destruct (attrs d !! "include_image_data");
    destruct (attrs d !! "rate_limit") as [[]|]; reflexivity.
Qed.

(** X21: a destination that [_save_settings] wrote is rebuilt by the
    loader of the same format. For every destination whose type was
    inferred (not "unknown"), restoring its record appends exactly one
    destination, of the class of that type, which holds every configuration
    entry that was written and is neither [None] nor empty, the same
    non-empty id, the same image flag and the same rate limit. *)
Theorem own_format_round_trip (n : node) (d : dest) (destinations : list dest) :
  dest_type d <> "unknown" ->
  exists d',
    and_then (configured ResultDestination_spec set_context_variables_spec
                configure_spec set_rate_limit_spec n (save_publisher d))
             (register add_spec (save_publisher d) destinations)
    = Returns (destinations ++ [d'])
    /\ class_of_kind (dest_type d) = Some (class_name d')
    /\ (forall key value,
          saved_config d !! key = Some value -> kept value = true ->
          attrs d' !! key = Some value)
    /\ (forall ident,
          attrs d !! "_id" = Some ident -> truthy ident = true ->
          attrs d' !! "_id" = Some ident)
    /\ (forall flag,
          attrs d !! "include_image_data" = Some flag ->
          attrs d' !! "include_image_data" = Some flag)
    /\ (forall rate_limit,
          attrs d !! "rate_limit" = Some rate_limit ->
          attrs d' !! "rate_limit" = Some rate_limit).
Proof.
  intros Hknown.
  assert (Hclass : exists c, class_of_kind (dest_type d) = Some c).
  { destruct (dest_type_cases d) as [H|[H|[H|[H|H]]]]; rewrite H; eauto.
    contradiction. }
  destruct Hclass as [c Hclass].
  eexists. split; [apply (own_record_restored n d destinations c Hclass)|].
  split; [now rewrite with_class|].
  split; [|split; [|split]].
  - intros key value Hsaved Hkept.
    assert (key <> "_id")
      by (intros ->; rewrite saved_config_keys in Hsaved by tauto; discriminate).
    assert (key <> "include_image_data")
      by (intros ->; rewrite saved_config_keys in Hsaved by tauto; discriminate).
    assert (key <> "rate_limit")
      by (intros ->; rewrite saved_config_keys in Hsaved by tauto; discriminate).
    rewrite with_id_ne, with_image_flag_ne, with_rate_limit_ne by assumption.
    cbn [attrs]. apply lookup_union_Some_l. apply clean_config_lookup. now split.
  - intros ident Hid Htruthy. unfold with_id. rewrite Hid, Htruthy.
    apply setattr_eq.
  - intros flag Hflag. rewrite with_id_ne by discriminate.
    unfold with_image_flag. rewrite Hflag. apply setattr_eq.
  - intros rate_limit Hrate.
    rewrite with_id_ne, with_image_flag_ne by discriminate.
    unfold with_rate_limit. rewrite Hrate.
    destruct rate_limit; try apply setattr_eq.
    cbn [attrs]. rewrite lookup_union_r.
    + rewrite lookup_insert_ne by discriminate. apply lookup_singleton_eq.
    + destruct (clean_config (saved_config d) !! "rate_limit") as [v|] eqn:Hv;
        [|reflexivity].
      apply clean_config_lookup in Hv as [Hv _].
      rewrite saved_config_keys in Hv by tauto. discriminate.
Qed.

Lemma own_format_round_trip_witness :
  dest_type broker <> "unknown"
  /\ exists d',
       and_then (configured ResultDestination_spec set_context_variables_spec
                   configure_spec set_rate_limit_spec this_node (save_publisher broker))
                (register add_spec (save_publisher broker) [])
       = Returns ([] ++ [d'])
       /\ class_of_kind (dest_type broker) = Some (class_name d')
       /\ (forall key value,
             saved_config broker !! key = Some value -> kept value = true ->
             attrs d' !! key = Some value)
       /\ (forall ident,
             attrs broker !! "_id" = Some ident -> truthy ident = true ->
             attrs d' !! "_id" = Some ident)
       /\ (forall flag,
             attrs broker !! "include_image_data" = Some flag ->
             attrs d' !! "include_image_data" = Some flag)
       /\ (forall rate_limit,
             attrs broker !! "rate_limit" = Some rate_limit ->
             attrs d' !! "rate_limit" = Some rate_limit).
Proof.
  assert (H : dest_type broker <> "unknown") by (vm_compute; discriminate).
  split; [exact H|].
  exact (own_format_round_trip this_node broker [] H).
Defined.

(** What does not come back: a folder sink is written as "unknown", and no
    destination class has that name. *)
Example folder_sink_is_not_restored :
  restore_publishers ResultDestination_spec set_context_variables_spec configure_spec
    set_rate_limit_spec add_spec this_node [PDict (save_publisher folder_sink)] [] []
  = Done [] [PStr "unknown"].
Proof. vm_compute. reflexivity. Qed.

(** ** Examples of restored files *)

Local Abbreviation restore_spec :=
  (restore_publishers ResultDestination_spec set_context_variables_spec configure_spec
     set_rate_limit_spec).

(** A registry that refuses every destination. *)
Definition refusing_add (destinations : list dest) (d : dest) : call (list dest) :=
  Raises.

Lemma identified_records_bypass_add_witness :
  Forall identified mixed_records
  /\ restore_spec add_spec this_node mixed_records [] []
     = restore_spec refusing_add this_node mixed_records [] []
  /\ match restore_spec add_spec this_node mixed_records [] [] with
     | Done destinations' _ | Escaped destinations' _ =>
         exists restored,
           destinations' = [] ++ restored
           /\ Forall (fun d => exists m, PDict m ∈ mixed_records
                                         /\ attrs d !! "_id" = m !! "id") restored
     end.
Proof.
  assert (Hid : Forall identified mixed_records)
    by (repeat constructor; vm_compute; eauto).
  split; [exact Hid|].
  exact (identified_records_bypass_add ResultDestination_spec
           set_context_variables_spec configure_spec set_rate_limit_spec
           add_spec refusing_add this_node mixed_records Hid [] []).
Defined.

(** A record written before publishers had ids. *)
Definition legacy_serial : pyval :=
  PDict {[ "type" := PStr "SerialDestination";
           "config" := PDict {[ "com_port" := PStr "COM3"; "baud" := PInt 9600;
                                "timeout" := PNone ]} ]}.

Definition legacy_file : list pyval := [good_bus; unknown_kind; legacy_serial; bad_config].

Lemma failing_records_are_skipped_witness :
  Forall is_object legacy_file
  /\ restore_spec add_spec this_node legacy_file [] []
     = Done ([] ++ reconstructed ResultDestination_spec set_context_variables_spec
                     configure_spec set_rate_limit_spec this_node legacy_file)
            ([] ++ reported ResultDestination_spec set_context_variables_spec
                     configure_spec set_rate_limit_spec this_node legacy_file).
Proof.
  assert (Hobj : Forall is_object legacy_file) by (repeat constructor).
  split; [exact Hobj|].
  apply (failing_records_are_skipped ResultDestination_spec set_context_variables_spec
           configure_spec set_rate_limit_spec add_spec this_node legacy_file Hobj).
  - intros m Hin.
    unfold legacy_file, good_bus, unknown_kind, legacy_serial, bad_config in Hin.
    repeat (apply elem_of_cons in Hin as [[= ->] | Hin]); [..| inversion Hin];
      vm_compute; discriminate.
  - reflexivity.
Defined.

Example legacy_file_restored :
  match restore_spec add_spec this_node legacy_file [] [] with
  | Done destinations errors =>
      (fun d => (class_name d, attrs d !! "com_port", attrs d !! "timeout"))
        <$> destinations
      = [("MQTTDestination", None, None);
         ("SerialDestination", Some (PStr "COM3"), None)]
      /\ errors = [PStr "carrier-pigeon"; PStr "webhook"]
  | Escaped _ _ => False
  end.
Proof. vm_compute. split; reflexivity. Qed.

End NodeSettingsFacts.

(** * Properties of the publisher routes *)

Module PublisherRoutesFacts.
Import Persist PersistFacts PersistMore Settings SettingsFacts PublisherRoutes.

(** ** Configuring a publisher *)

Section ConfigureFacts.
Variable ResultDestination : pyval -> call dest.
Variable set_context_variables : dest -> pyval -> pyval -> call dest.
Variable configure : dest -> gmap string pyval -> call dest.
Variable set_rate_limit : dest -> pyval -> call dest.
Variable add : list dest -> dest -> call (list dest).

Local Abbreviation handler :=
  (configure_publisher ResultDestination set_context_variables configure
     set_rate_limit add).

Ltac unchanged := split; reflexivity.

(** X22: [configure_publisher] registers a destination only with the
    reply "configured". Every other reply (the two 400s and the 500) leaves
    the node and the settings file exactly as they were, and the handler
    lets no [Exception] through. With "configured" the registry is what
    [add] returned for the destination whose [is_configured] was true (after
    its rate limit was set, when one was given), the rest of the node is
    unchanged, and the file is what [save_settings] leaves: the old
    file when a destination does not serialise. *)
Theorem configure_registers_only_on_success
    (data : pyval) (n : node_state) (file : option pyval) :
  match handler data n file with
  | Returns (Configured, n', file') =>
      (exists checked registered,
          truthy (getattr checked "is_configured" PNone) = true
          /\ (registered = checked
              \/ exists rate_limit, rate_limit <> PNone
                   /\ set_rate_limit checked rate_limit = Returns registered)
          /\ add (st_destinations n) registered = Returns (st_destinations n'))
      /\ same_identity n' n /\ st_telemetry n' = st_telemetry n
      /\ file' = (save_settings n' file).1
      /\ (forallb serializable (st_destinations n') = false -> file' = file)
  | Returns (_, n', file') => n' = n /\ file' = file
  | Raises => False
  | Aborts => True
  end.
Proof.
  unfold configure_publisher.
  destruct data as [| | | | |request]; try unchanged.
  destruct (default (PDict ∅) (request !! "config")) as [| | | | |config];
    try unchanged.
  destruct (and_then _ _) as [d0| |]; [|unchanged|exact I].
  destruct (configure d0 _) as [d1| |]; [|unchanged|exact I].
  unfold attr.
  destruct (attrs d1 !! "is_configured") as [flag|] eqn:Hflag; [|unchanged].
  destruct (truthy flag) eqn:Htruthy; [|unchanged].
  assert (Hchecked : truthy (getattr d1 "is_configured" PNone) = true)
    by (unfold getattr; now rewrite Hflag).
  assert (Hregistered :
    forall d2,
      (d2 = d1 \/ exists rate_limit, rate_limit <> PNone
                    /\ set_rate_limit d1 rate_limit = Returns d2) ->
      match
        match add (st_destinations n) d2 with
        | Returns destinations =>
            Returns (Configured, set_destinations destinations n,
                     (save_settings (set_destinations destinations n) file).1)
        | Raises => Returns (Failed, n, file)
        | Aborts => Aborts
        end
      with
      | Returns (Configured, n', file') =>
          (exists checked registered,
              truthy (getattr checked "is_configured" PNone) = true
              /\ (registered = checked
                  \/ exists rate_limit, rate_limit <> PNone
                       /\ set_rate_limit checked rate_limit = Returns registered)
              /\ add (st_destinations n) registered = Returns (st_destinations n'))
          /\ same_identity n' n /\ st_telemetry n' = st_telemetry n
          /\ file' = (save_settings n' file).1
          /\ (forallb serializable (st_destinations n') = false -> file' = file)
      | Returns (_, n', file') => n' = n /\ file' = file
      | Raises => False
      | Aborts => True
      end).
  { intros d2 Hd2. destruct (add (st_destinations n) d2) as [ds| |] eqn:Hadd;
      [|unchanged|exact I].
    split; [exists d1, d2; repeat split; assumption|].
    split; [repeat split|]. split; [reflexivity|]. split; [reflexivity|].
    intros Hbad. now rewrite save_keeps_file_on_failure. }
  destruct (default PNone (config !! "rate_limit")) as [|b|z|s|l|m] eqn:Hrate;
    cbn [and_then];
    try (apply Hregistered; now left);
    match goal with
    | |- context [set_rate_limit d1 ?r] =>
        destruct (set_rate_limit d1 r) as [d2| |] eqn:Hset; cbn [and_then];
        [apply Hregistered; right; exists r; split; [discriminate | exact Hset]
        |unchanged|exact I]
    end.
Qed.

End ConfigureFacts.


(** ** The favourites as a dictionary *)

Lemma dict_get_set_eq k v (d : favorites) : dict_get k (dict_set k v d) = Some v.
Proof.
  unfold dict_get. induction d as [|[k' v'] rest IH]; cbn.
  - now rewrite String.eqb_refl.
  - destruct (String.eqb_spec k' k) as [-> | Hne]; cbn.
    + now rewrite String.eqb_refl.
    + destruct (String.eqb_spec k' k); [contradiction | exact IH].
Qed.

Lemma dict_get_set_ne k k' v (d : favorites) :
  k' <> k -> dict_get k' (dict_set k v d) = dict_get k' d.
Proof.
  intros Hne. unfold dict_get. induction d as [|[k0 v0] rest IH]; cbn.
  - destruct (String.eqb_spec k k'); [congruence | reflexivity].
  - destruct (String.eqb_spec k0 k) as [-> | Hne0]; cbn.
    + destruct (String.eqb_spec k k'); [congruence | reflexivity].
    + destruct (String.eqb_spec k0 k'); [reflexivity | exact IH].
Qed.

Lemma dict_get_elem k v (d : favorites) : dict_get k d = Some v -> (k, v) ∈ d.
Proof.
  unfold dict_get. induction d as [|[k' v'] rest IH]; cbn; [discriminate|].
  destruct (String.eqb_spec k' k) as [-> | Hne]; cbn.
  - intros [= ->]. left.
  - intros H. right. now apply IH.
Qed.

Lemma dict_set_keys k v (d : favorites) :
  is_Some (dict_get k d) -> (dict_set k v d).*1 = d.*1.
Proof.
  unfold dict_get. induction d as [|[k' v'] rest IH]; cbn.
  - intros [? ?]. discriminate.
  - destruct (String.eqb_spec k' k) as [-> | Hne]; cbn; [reflexivity|].
    intros H. now rewrite IH.
Qed.

Lemma dict_set_elem k v (d : favorites) entry :
  entry ∈ dict_set k v d -> entry = (k, v) \/ entry ∈ d.
Proof.
  induction d as [|[k' v'] rest IH]; cbn.
  - intros H. apply list_elem_of_singleton in H. now left.
  - destruct (String.eqb_spec k' k) as [-> | Hne]; intros H;
      apply elem_of_cons in H as [-> | H].
    + now left.
    + right. now right.
    + right. left.
    + destruct (IH H) as [-> | Hin]; [now left | right; now right].
Qed.

Lemma dict_del_elem k (d : favorites) entry : entry ∈ dict_del k d -> entry ∈ d.
Proof.
  unfold dict_del. rewrite !list_elem_of_In, filter_In. now intros [? _].
Qed.

Section FavoritesFacts.
Variable strip : string -> string.
Variable lower : string -> string.

(** ** Unique names *)

(** The name of a favourite: its ['name'] entry when that is a string. *)
Definition name_of (favorite : pyval) : option string :=
  match favorite with
  | PDict m => match m !! "name" with Some (PStr s) => Some s | _ => None end
  | _ => None
  end.

Definition lowered (favs : favorites) : list (option string) :=
  (fun entry => lower <$> name_of entry.2) <$> favs.

(** The favourites form a dictionary, each has a name, and no two names
    are equal up to case. *)
Definition well_named (favs : favorites) : Prop :=
  NoDup favs.*1
  /\ Forall (fun entry => is_Some (name_of entry.2)) favs
  /\ NoDup (lowered favs).

Lemma well_named_cons k v (rest : favorites) :
  well_named ((k, v) :: rest)
  <-> (k ∉ (rest.*1)) /\ is_Some (name_of v)
      /\ ((lower <$> name_of v) ∉ lowered rest) /\ well_named rest.
Proof.
  unfold well_named, lowered. cbn [fmap list_fmap fst snd].
  rewrite !NoDup_cons, Forall_cons. cbn [snd]. tauto.
Qed.

Lemma well_named_nil : well_named [].
Proof. repeat split; constructor. Qed.

Lemma lowered_elem (favs : favorites) x :
  x ∈ lowered favs <-> exists k v, (k, v) ∈ favs /\ x = lower <$> name_of v.
Proof.
  unfold lowered. rewrite list_elem_of_fmap. split.
  - intros ([k v] & -> & Hin). now exists k, v.
  - intros (k & v & Hin & ->). now exists (k, v).
Qed.

Lemma keys_elem (favs : favorites) k : k ∈ favs.*1 <-> exists v, (k, v) ∈ favs.
Proof.
  rewrite list_elem_of_fmap. split.
  - intros ([k' v] & -> & Hin). now exists v.
  - intros (v & Hin). now exists (k, v).
Qed.

(** Storing a favourite whose name no favourite under another key has. *)
Lemma dict_set_well_named k v s (favs : favorites) :
  well_named favs ->
  name_of v = Some s ->
  (forall k' v', (k', v') ∈ favs -> k' <> k ->
                 lower <$> name_of v' <> Some (lower s)) ->
  well_named (dict_set k v favs).
Proof.
  intros Hwn Hname. induction favs as [|[k0 v0] rest IH]; intros Hfree.
  - cbn. apply well_named_cons. rewrite Hname.
    split; [apply not_elem_of_nil|]. split; [eauto|].
    split; [apply not_elem_of_nil | apply well_named_nil].
  - apply well_named_cons in Hwn as (Hk0 & Hn0 & Hl0 & Hrest).
    cbn [dict_set]. destruct (String.eqb_spec k0 k) as [-> | Hne].
    + apply well_named_cons. rewrite Hname. split; [exact Hk0|].
      split; [eauto|]. split; [|exact Hrest].
      intros Hin. apply lowered_elem in Hin as (k' & v' & Hin & Heq).
      apply (Hfree k' v'); [now right | | now symmetry].
      intros ->. apply Hk0. apply keys_elem. eauto.
    + assert (Hfree' : forall k' v', (k', v') ∈ rest -> k' <> k ->
                                     lower <$> name_of v' <> Some (lower s))
        by (intros k' v' Hin; apply Hfree; now right).
      specialize (IH Hrest Hfree').
      apply well_named_cons. split; [|split; [exact Hn0|split; [|exact IH]]].
      * intros Hin. apply keys_elem in Hin as [v' Hin].
        apply dict_set_elem in Hin as [[= -> ->] | Hin]; [contradiction|].
        apply Hk0. apply keys_elem. eauto.
      * intros Hin. apply lowered_elem in Hin as (k' & v' & Hin & Heq).
        apply dict_set_elem in Hin as [[= -> ->] | Hin].
        -- rewrite Hname in Heq. apply (Hfree k0 v0); [left | exact Hne | exact Heq].
        -- apply Hl0. apply lowered_elem. eauto.
Qed.

Lemma well_named_distinct (favs : favorites) k1 v1 k2 v2 :
  well_named favs -> (k1, v1) ∈ favs -> (k2, v2) ∈ favs -> k1 <> k2 ->
  lower <$> name_of v1 <> lower <$> name_of v2.
Proof.
  induction favs as [|[k0 v0] rest IH]; intros Hwn H1 H2 Hne.
  - now apply elem_of_nil in H1.
  - apply well_named_cons in Hwn as (Hk0 & Hn0 & Hl0 & Hrest).
    apply elem_of_cons in H1 as [[= -> ->] | H1];
      apply elem_of_cons in H2 as [[= -> ->] | H2].
    + contradiction.
    + intros Heq. apply Hl0. apply lowered_elem. eauto.
    + intros Heq. apply Hl0. apply lowered_elem. eauto.
    + now apply IH.
Qed.

Lemma dict_del_well_named k (favs : favorites) :
  well_named favs -> well_named (dict_del k favs).
Proof.
  induction favs as [|[k0 v0] rest IH]; intros Hwn; [exact Hwn|].
  apply well_named_cons in Hwn as (Hk0 & Hn0 & Hl0 & Hrest).
  specialize (IH Hrest). unfold dict_del in *. cbn [List.filter fst].
  destruct (String.eqb k0 k); cbn [negb]; [exact IH|].
  apply well_named_cons. split; [|split; [exact Hn0|split; [|exact IH]]].
  - intros Hin. apply keys_elem in Hin as [v Hin].
    apply dict_del_elem in Hin. apply Hk0. apply keys_elem. eauto.
  - intros Hin. apply lowered_elem in Hin as (k' & v' & Hin & Heq).
    apply dict_del_elem in Hin. apply Hl0. apply lowered_elem. eauto.
Qed.

(** What the comparisons establish. *)
Lemma same_name_false existing name :
  same_name lower existing name = Returns false ->
  lower <$> name_of existing <> Some (lower name).
Proof.
  unfold same_name, Py.getitem, py_lower, name_of.
  destruct existing as [| | | | |m]; try discriminate.
  destruct (m !! "name") as [[| | |s| |]|]; try discriminate.
  cbn. intros [= Hneq] [= Heq]. rewrite Heq, String.eqb_refl in Hneq. discriminate.
Qed.

Lemma name_taken_false name (favs : favorites) :
  name_taken lower name (snd <$> favs) = Returns false ->
  forall k v, (k, v) ∈ favs -> lower <$> name_of v <> Some (lower name).
Proof.
  induction favs as [|[k0 v0] rest IH]; cbn [fmap list_fmap name_taken snd].
  - intros _ k v Hin. now apply elem_of_nil in Hin.
  - destruct (same_name lower v0 name) as [[]| |] eqn:Hsame; try discriminate.
    intros Hrest k v Hin. apply elem_of_cons in Hin as [[= -> ->] | Hin].
    + now apply same_name_false.
    + now apply (IH Hrest k v).
Qed.

Lemma name_taken_by_other_false favorite_id name (favs : favorites) :
  name_taken_by_other lower favorite_id name favs = Returns false ->
  forall k v, (k, v) ∈ favs -> k <> favorite_id ->
              lower <$> name_of v <> Some (lower name).
Proof.
  induction favs as [|[k0 v0] rest IH]; cbn [name_taken_by_other].
  - intros _ k v Hin. now apply elem_of_nil in Hin.
  - destruct (String.eqb_spec k0 favorite_id) as [-> | Hne0].
    + intros Hrest k v Hin Hne. apply elem_of_cons in Hin as [[= -> ->] | Hin];
        [contradiction | now apply (IH Hrest k v)].
    + destruct (same_name lower v0 name) as [[]| |] eqn:Hsame; try discriminate.
      intros Hrest k v Hin Hne. apply elem_of_cons in Hin as [[= -> ->] | Hin].
      * now apply same_name_false.
      * now apply (IH Hrest k v).
Qed.

Lemma set_field_returns favorite_id key value (favs favs' : favorites) :
  set_field favorite_id key value favs = Returns favs' ->
  exists m, dict_get favorite_id favs = Some (PDict m)
            /\ favs' = dict_set favorite_id (PDict (<[key := value]> m)) favs.
Proof.
  unfold set_field.
  destruct (dict_get favorite_id favs) as [[| | | | |m]|]; try discriminate.
  intros [= <-]. now exists m.
Qed.

(** Setting a field other than the name keeps the favourites well named. *)
Lemma set_field_well_named favorite_id key value (favs favs' : favorites) :
  key <> "name" ->
  well_named favs ->
  set_field favorite_id key value favs = Returns favs' ->
  well_named favs'.
Proof.
  intros Hkey Hwn Hset.
  apply set_field_returns in Hset as (m & Hget & ->).
  apply dict_get_elem in Hget.
  assert (Hsame : name_of (PDict (<[key := value]> m)) = name_of (PDict m))
    by (cbn; now rewrite lookup_insert_ne).
  destruct Hwn as (Hkeys & Hnamed & Hlow).
  assert (Hown : is_Some (name_of (PDict m)))
    by (rewrite Forall_forall in Hnamed; exact (Hnamed _ Hget)).
  destruct Hown as [s Hs].
  apply (dict_set_well_named favorite_id _ s); [now repeat split | congruence |].
  intros k' v' Hin Hne Heq.
  apply (well_named_distinct favs k' v' favorite_id (PDict m)); try assumption.
  - now repeat split.
  - rewrite Hs. exact Heq.
Qed.

Lemma rename_well_named favorite_id data (favs favs' : favorites) :
  well_named favs ->
  rename strip lower favorite_id data favs = Returns (Some favs') ->
  well_named favs'.
Proof.
  intros Hwn. unfold rename.
  destruct (Py.contains data "name") as [[]| |]; cbn [and_then]; try discriminate;
    [|now intros [= <-]].
  destruct (Py.getitem data "name") as [v| |]; cbn [and_then]; try discriminate.
  destruct (py_strip strip v) as [new_name| |]; cbn [and_then]; try discriminate.
  destruct (String.eqb new_name ""); [discriminate|].
  destruct (name_taken_by_other lower favorite_id new_name favs) as [[]| |] eqn:Hother;
    cbn [and_then]; try discriminate.
  destruct (set_field favorite_id "name" (PStr new_name) favs) as [favs1| |] eqn:Hset;
    cbn [and_then]; try discriminate.
  intros [= <-]. apply set_field_returns in Hset as (m & Hget & ->).
  apply (dict_set_well_named favorite_id _ new_name); [exact Hwn | |].
  - cbn. now rewrite lookup_insert_eq.
  - now apply name_taken_by_other_false.
Qed.

Lemma redescribe_well_named favorite_id data (favs favs' : favorites) :
  well_named favs ->
  redescribe strip favorite_id data favs = Returns favs' ->
  well_named favs'.
Proof.
  intros Hwn. unfold redescribe.
  destruct (Py.contains data "description") as [[]| |]; cbn [and_then];
    try discriminate; [|now intros [= <-]].
  destruct (Py.getitem data "description") as [v| |]; cbn [and_then];
    try discriminate.
  destruct (py_strip strip v) as [description| |]; cbn [and_then]; try discriminate.
  now apply set_field_well_named.
Qed.

Lemma reconfigure_well_named favorite_id data (favs favs' : favorites) :
  well_named favs ->
  reconfigure favorite_id data favs = Returns favs' ->
  well_named favs'.
Proof.
  intros Hwn. unfold reconfigure.
  destruct (Py.contains data "config") as [[]| |]; cbn [and_then];
    try discriminate; [|now intros [= <-]].
  destruct (Py.getitem data "config") as [v| |]; cbn [and_then]; try discriminate.
  now apply set_field_well_named.
Qed.

Local Abbreviation save_favorite := (save_favorite_config strip lower).
Local Abbreviation update_favorite := (update_favorite_config strip lower).

(** The favourites a handler leaves. *)
Definition favorites_after (result : reply * favorites * option pyval) : favorites :=
  result.1.2.

(** What [save_favorite_config] does, by cases. *)
Lemma save_favorite_cases data favorite_id now (favs : favorites) n file :
  (exists raw name favorite,
      Py.get data "name" (PStr "") = Returns (PStr raw) /\ name = strip raw
      /\ name_of favorite = Some name /\ name <> ""
      /\ name_taken lower name (snd <$> favs) = Returns false
      /\ save_favorite data favorite_id now favs n file
         = (Saved favorite, dict_set favorite_id favorite favs,
            persist (dict_set favorite_id favorite favs) n file))
  \/ ((save_favorite data favorite_id now favs n file = (BadRequest, favs, file)
       \/ save_favorite data favorite_id now favs n file = (ServerError, favs, file))).
Proof.
  unfold save_favorite_config.
  destruct (Py.get data "name" (PStr "")) as [v| |]; cbn [and_then]; [|tauto..].
  destruct v as [| | |raw| |]; cbn [py_strip and_then]; try tauto.
  set (name := strip raw).
  destruct (Py.get data "description" (PStr "")) as [w| |]; cbn [and_then]; [|tauto..].
  destruct (py_strip strip w) as [description| |]; cbn [and_then]; [|tauto..].
  destruct (Py.get data "type" PNone) as [destination_type| |]; cbn [and_then];
    [|tauto..].
  destruct (Py.get data "config" (PDict ∅)) as [config| |]; cbn [and_then]; [|tauto..].
  destruct (String.eqb_spec name "") as [Hempty | Hname]; [tauto|].
  destruct (truthy destination_type); cbn [negb]; [|tauto].
  destruct (name_taken lower name (snd <$> favs)) as [[]| |] eqn:Htaken;
    cbn [and_then]; [tauto| |tauto..].
  left. eexists raw, name, _. split; [reflexivity|]. split; [reflexivity|].
  split; [|split; [exact Hname|split; [exact Htaken|reflexivity]]].
  cbn. rewrite lookup_insert_ne by discriminate. now rewrite lookup_insert_eq.
Qed.

(** X23: the favourites keep unique names. When they form a dictionary in
    which every favourite has a name and no two names are equal up to case,
    they still do after [save_favorite_config], [delete_favorite_config]
    and [update_favorite_config], whatever the request holds and whatever
    the handler replies, also when [update_favorite_config] stops half way
    with a 500. *)
Theorem favorite_names_stay_unique (favs : favorites) :
  well_named favs ->
  (forall data favorite_id now n file,
     well_named (favorites_after (save_favorite data favorite_id now favs n file)))
  /\ (forall favorite_id n file,
        well_named (favorites_after (delete_favorite_config favorite_id favs n file)))
  /\ (forall favorite_id data now n file,
        well_named (favorites_after (update_favorite favorite_id data now favs n file))).
Proof.
  intros Hwn. split; [|split].
  - intros data favorite_id now n file.
    destruct (save_favorite_cases data favorite_id now favs n file)
      as [(raw & name & favorite & _ & _ & Hname & _ & Htaken & ->) | [-> | ->]];
      try exact Hwn.
    apply (dict_set_well_named favorite_id favorite name); try assumption.
    intros k' v' Hin _. now apply (name_taken_false name favs Htaken k' v').
  - intros favorite_id n file. unfold delete_favorite_config.
    destruct (dict_get favorite_id favs) as [favorite|]; [|exact Hwn].
    destruct (Py.getitem favorite "name"); try exact Hwn.
    now apply dict_del_well_named.
  - intros favorite_id data now n file. unfold update_favorite_config.
    destruct (dict_get favorite_id favs) as [favorite|]; [|exact Hwn].
    destruct (rename strip lower favorite_id data favs) as [[favs1|]| |] eqn:H1;
      try exact Hwn.
    apply rename_well_named in H1; [|exact Hwn].
    destruct (redescribe strip favorite_id data favs1) as [favs2| |] eqn:H2;
      try exact H1.
    apply redescribe_well_named in H2; [|exact H1].
    destruct (reconfigure favorite_id data favs2) as [favs3| |] eqn:H3;
      try exact H2.
    apply reconfigure_well_named in H3; [|exact H2].
    destruct (set_field favorite_id "updated_at" (PStr now) favs3) as [favs4| |] eqn:H4;
      try exact H3.
    now apply set_field_well_named in H4.
Qed.

(** X24: a favourite that was saved can be found, and a refused one leaves
    no trace. [save_favorite_config] answers with the favourite only after
    storing it under the fresh id, with the stripped, non-empty name of the
    request, next to the unchanged other favourites, and after
    [save_settings] ran on the result; with any other answer (400 or 500)
    the favourites and the settings file are what they were. *)
Theorem saved_favorite_is_stored data favorite_id now (favs : favorites) n file :
  match save_favorite data favorite_id now favs n file with
  | (Saved favorite, favs', file') =>
      dict_get favorite_id favs' = Some favorite
      /\ (exists raw, Py.get data "name" (PStr "") = Returns (PStr raw)
                      /\ name_of favorite = Some (strip raw) /\ strip raw <> "")
      /\ (forall other, other <> favorite_id ->
                        dict_get other favs' = dict_get other favs)
      /\ file' = persist favs' n file
  | (BadRequest, favs', file') | (ServerError, favs', file') =>
      favs' = favs /\ file' = file
  | _ => False
  end.
Proof.
  destruct (save_favorite_cases data favorite_id now favs n file)
    as [(raw & name & favorite & Hraw & -> & Hname & Hne & _ & ->) | [-> | ->]];
    try (split; reflexivity).
  split; [apply dict_get_set_eq|]. split; [now exists raw|].
  split; [|reflexivity].
  intros other Hother. now apply dict_get_set_ne.
Qed.

(** ** Deleting and updating *)

Lemma dict_get_del_eq k (d : favorites) : dict_get k (dict_del k d) = None.
Proof.
  unfold dict_get, dict_del. induction d as [|[k' v'] rest IH]; cbn; [reflexivity|].
  destruct (String.eqb k' k) eqn:Hk; cbn; [exact IH|]. now rewrite Hk.
Qed.

Lemma dict_get_del_ne k k' (d : favorites) :
  k' <> k -> dict_get k' (dict_del k d) = dict_get k' d.
Proof.
  intros Hne. unfold dict_get, dict_del.
  induction d as [|[k0 v0] rest IH]; cbn; [reflexivity|].
  destruct (String.eqb_spec k0 k) as [-> | Hne0]; cbn.
  - destruct (String.eqb_spec k k'); [congruence | exact IH].
  - destruct (String.eqb_spec k0 k'); [reflexivity | exact IH].
Qed.

(** X25: [delete_favorite_config] removes exactly the favourite it was
    asked to. After "deleted" that id is no longer found, every other
    favourite is found as before and [save_settings] ran on the result; an
    unknown id gives 404, a favourite without a ['name'] gives 500, and in
    both cases nothing is removed and the settings file is not touched. *)
Theorem delete_removes_exactly_one favorite_id (favs : favorites) n file :
  match delete_favorite_config favorite_id favs n file with
  | (Deleted, favs', file') =>
      is_Some (dict_get favorite_id favs)
      /\ dict_get favorite_id favs' = None
      /\ (forall other, other <> favorite_id ->
                        dict_get other favs' = dict_get other favs)
      /\ file' = persist favs' n file
  | (NotFound, favs', file') =>
      dict_get favorite_id favs = None /\ favs' = favs /\ file' = file
  | (ServerError, favs', file') =>
      (exists favorite, dict_get favorite_id favs = Some favorite
                        /\ Py.getitem favorite "name" = Raises)
      /\ favs' = favs /\ file' = file
  | _ => False
  end.
Proof.
  unfold delete_favorite_config.
  destruct (dict_get favorite_id favs) as [favorite|] eqn:Hget; [|now repeat split].
  destruct (Py.getitem favorite "name") as [name| |] eqn:Hname.
  - split; [eauto|]. split; [apply dict_get_del_eq|]. split; [|reflexivity].
    intros other Hother. now apply dict_get_del_ne.
  - split; [now exists favorite|]. now split.
  - exfalso. unfold Py.getitem in Hname.
    destruct favorite as [| | | | |m]; try discriminate.
    destruct (m !! "name"); discriminate.
Qed.

(** The favourite ids are the same and every favourite but one is found as
    before. *)
Definition others_kept (favorite_id : string) (favs favs' : favorites) : Prop :=
  favs'.*1 = favs.*1
  /\ forall other, other <> favorite_id -> dict_get other favs' = dict_get other favs.

Lemma others_kept_refl favorite_id favs : others_kept favorite_id favs favs.
Proof. now split. Qed.

Lemma others_kept_trans favorite_id a b c :
  others_kept favorite_id a b -> others_kept favorite_id b c ->
  others_kept favorite_id a c.
Proof.
  intros [Hk1 Ho1] [Hk2 Ho2]. split; [congruence|].
  intros other Hother. rewrite Ho2, Ho1 by exact Hother. reflexivity.
Qed.

Lemma set_field_others favorite_id key value (favs favs' : favorites) :
  set_field favorite_id key value favs = Returns favs' ->
  others_kept favorite_id favs favs'.
Proof.
  intros Hset. apply set_field_returns in Hset as (m & Hget & ->). split.
  - apply dict_set_keys. eauto.
  - intros other Hother. now apply dict_get_set_ne.
Qed.

Lemma rename_others favorite_id data (favs favs' : favorites) :
  rename strip lower favorite_id data favs = Returns (Some favs') ->
  others_kept favorite_id favs favs'.
Proof.
  unfold rename.
  destruct (Py.contains data "name") as [[]| |]; cbn [and_then]; try discriminate;
    [|intros [= <-]; apply others_kept_refl].
  destruct (Py.getitem data "name") as [v| |]; cbn [and_then]; try discriminate.
  destruct (py_strip strip v) as [new_name| |]; cbn [and_then]; try discriminate.
  destruct (String.eqb new_name ""); [discriminate|].
  destruct (name_taken_by_other lower favorite_id new_name favs) as [[]| |];
    cbn [and_then]; try discriminate.
  destruct (set_field favorite_id "name" (PStr new_name) favs) as [favs1| |] eqn:Hset;
    cbn [and_then]; try discriminate.
  intros [= <-]. now apply set_field_others in Hset.
Qed.

Lemma redescribe_others favorite_id data (favs favs' : favorites) :
  redescribe strip favorite_id data favs = Returns favs' ->
  others_kept favorite_id favs favs'.
Proof.
  unfold redescribe.
  destruct (Py.contains data "description") as [[]| |]; cbn [and_then];
    try discriminate; [|intros [= <-]; apply others_kept_refl].
  destruct (Py.getitem data "description") as [v| |]; cbn [and_then];
    try discriminate.
  destruct (py_strip strip v) as [description| |]; cbn [and_then]; try discriminate.
  apply set_field_others.
Qed.

Lemma reconfigure_others favorite_id data (favs favs' : favorites) :
  reconfigure favorite_id data favs = Returns favs' ->
  others_kept favorite_id favs favs'.
Proof.
  unfold reconfigure.
  destruct (Py.contains data "config") as [[]| |]; cbn [and_then];
    try discriminate; [|intros [= <-]; apply others_kept_refl].
  destruct (Py.getitem data "config") as [v| |]; cbn [and_then]; try discriminate.
  apply set_field_others.
Qed.

(** X26: [update_favorite_config] touches one favourite only. Whatever
    the request and the reply, the favourite ids are the same afterwards,
    in the same order, and every other favourite is found unchanged; the
    settings file is written only with the reply "updated", never with a
    400, a 404 or a 500; and 400 and 404 leave the favourites as they
    were. *)
Theorem update_touches_one_favorite
    favorite_id data now (favs : favorites) n file :
  match update_favorite favorite_id data now favs n file with
  | (Updated favorite, favs', file') =>
      others_kept favorite_id favs favs'
      /\ dict_get favorite_id favs' = Some favorite
      /\ (exists m, favorite = PDict m /\ m !! "updated_at" = Some (PStr now))
      /\ file' = persist favs' n file
  | (ServerError, favs', file') => others_kept favorite_id favs favs' /\ file' = file
  | (BadRequest, favs', file') | (NotFound, favs', file') =>
      favs' = favs /\ file' = file
  | _ => False
  end.
Proof.
  unfold update_favorite_config.
  destruct (dict_get favorite_id favs) as [favorite|]; [|now split].
  destruct (rename strip lower favorite_id data favs) as [[favs1|]| |] eqn:H1;
    try (split; [apply others_kept_refl || reflexivity | reflexivity]).
  apply rename_others in H1.
  destruct (redescribe strip favorite_id data favs1) as [favs2| |] eqn:H2;
    try (split; [exact H1 | reflexivity]).
  apply redescribe_others in H2.
  pose proof (others_kept_trans _ _ _ _ H1 H2) as H12.
  destruct (reconfigure favorite_id data favs2) as [favs3| |] eqn:H3;
    try (split; [exact H12 | reflexivity]).
  apply reconfigure_others in H3.
  pose proof (others_kept_trans _ _ _ _ H12 H3) as H13.
  destruct (set_field favorite_id "updated_at" (PStr now) favs3) as [favs4| |] eqn:H4;
    try (split; [exact H13 | reflexivity]).
  pose proof (set_field_others _ _ _ _ _ H4) as H34.
  apply set_field_returns in H4 as (m & Hget & ->).
  rewrite dict_get_set_eq. cbn [default].
  split; [exact (others_kept_trans _ _ _ _ H13 H34)|].
  split; [reflexivity|]. split; [|reflexivity].
  eexists. split; [reflexivity|]. apply lookup_insert_eq.
Qed.

End FavoritesFacts.

(** ** Examples *)

(** [str.strip] on text whose only white space is the space character. *)
Fixpoint lstrip (s : string) : string :=
  match s with
  | String " " s' => lstrip s'
  | _ => s
  end.

Fixpoint rstrip (s : string) : string :=
  match s with
  | EmptyString => EmptyString
  | String a s' =>
      match rstrip s' with
      | EmptyString => if Ascii.eqb a " " then EmptyString else String a EmptyString
      | rest => String a rest
      end
  end.

Definition strip_spaces (s : string) : string := lstrip (rstrip s).

Definition two_favorites : favorites :=
  [ ("fav-1", PDict {[ "id" := PStr "fav-1"; "name" := PStr "Lab broker";
                       "type" := PStr "mqtt"; "config" := PDict ∅ ]});
    ("fav-2", PDict {[ "id" := PStr "fav-2"; "name" := PStr "Floor hook";
                       "type" := PStr "webhook"; "config" := PDict ∅ ]}) ].

Lemma favorite_names_stay_unique_witness :
  well_named Persist.lower two_favorites
  /\ (forall data favorite_id now n file,
        well_named Persist.lower
          (favorites_after
             (save_favorite_config strip_spaces Persist.lower data favorite_id now
                two_favorites n file)))
  /\ (forall favorite_id n file,
        well_named Persist.lower
          (favorites_after (delete_favorite_config favorite_id two_favorites n file)))
  /\ (forall favorite_id data now n file,
        well_named Persist.lower
          (favorites_after
             (update_favorite_config strip_spaces Persist.lower favorite_id data now
                two_favorites n file))).
Proof.
  assert (H : well_named Persist.lower two_favorites).
  { split; [|split].
    - apply (bool_decide_unpack _). vm_compute. exact I.
    - repeat constructor; vm_compute; eauto.
    - apply (bool_decide_unpack _). vm_compute. exact I. }
  split; [exact H|].
  exact (favorite_names_stay_unique strip_spaces Persist.lower two_favorites H).
Defined.

(** The same name in another case and with blanks around it is refused. *)
Example same_name_in_capitals_is_refused :
  save_favorite_config strip_spaces Persist.lower
    (PDict {[ "name" := PStr "  LAB BROKER "; "type" := PStr "mqtt" ]})
    "fav-3" "2025-01-01T00:00:00" two_favorites fresh_node None
  = (BadRequest, two_favorites, None).
Proof. vm_compute. reflexivity. Qed.

(** An update that fails after the rename: the 500 leaves the new name in
    memory and the settings file as it was. *)
Example failed_update_keeps_the_rename :
  match update_favorite_config strip_spaces Persist.lower "fav-2"
          (PDict {[ "name" := PStr "Dock hook"; "description" := PInt 7 ]})
          "2025-01-01T00:00:00" two_favorites fresh_node None with
  | (ServerError, favs', None) =>
      name_of <$> dict_get "fav-2" favs' = Some (Some "Dock hook")
  | _ => False
  end.
Proof. vm_compute. reflexivity. Qed.

End PublisherRoutesFacts.

(** * Properties of creating and updating a pipeline *)

Module PipelineRoutesFacts.
Import Persist PipelineRoutes.

Lemma first_missing_none config fields :
  first_missing config fields = Returns None ->
  Forall (fun field => Py.contains config field = Returns true) fields.
Proof.
  induction fields as [|field rest IH]; cbn [first_missing]; [constructor|].
  destruct (Py.contains config field) as [[]| |] eqn:Hc; try discriminate.
  intros H. constructor; [exact Hc | exact (IH H)].
Qed.

Lemma first_missing_some config fields field :
  first_missing config fields = Returns (Some field) ->
  exists before after,
    fields = before ++ field :: after
    /\ Forall (fun f => Py.contains config f = Returns true) before
    /\ Py.contains config field = Returns false.
Proof.
  induction fields as [|f rest IH]; cbn [first_missing]; [discriminate|].
  destruct (Py.contains config f) as [[]| |] eqn:Hc; try discriminate.
  - intros H. destruct (IH H) as (before & after & -> & Hall & Hf).
    exists (f :: before), after. split; [reflexivity|].
    split; [constructor; assumption | exact Hf].
  - intros [= <-]. exists [], rest. split; [reflexivity|].
    split; [constructor | exact Hc].
Qed.

Section RoutesFacts.
Context {R : Type}.
Variable format_for : pyval -> pyval -> call pyval.
Variable manager_create : R -> pyval -> call (pyval * R).
Variable manager_get : R -> string -> call pyval.
Variable manager_update : R -> string -> pyval -> call (pyval * R).
Variable update_node_info : R -> call R.

Local Abbreviation formatted := (format_device format_for).
Local Abbreviation create :=
  (create_pipeline format_for manager_create update_node_info).
Local Abbreviation update :=
  (update_pipeline format_for manager_get manager_update).

(** ** Formatting the device *)

Lemma format_device_cases (config config' : pyval) :
  formatted config = Returns config' ->
  (config' = config
   /\ forall c m, config = PDict c -> c !! "model" = Some (PDict m) ->
                  m !! "device" = None \/ m !! "engine_type" = None)
  \/ exists c m device engine_type formatted_device,
       config = PDict c
       /\ c !! "model" = Some (PDict m)
       /\ m !! "device" = Some device
       /\ m !! "engine_type" = Some engine_type
       /\ format_for engine_type device = Returns formatted_device
       /\ config' = PDict (<["model" := PDict (<["device" := formatted_device]> m)]> c).
Proof.
  unfold format_device.
  destruct (Py.contains config "model") as [[]| |] eqn:Hmodel; cbn [and_then negb];
    try discriminate.
  2:{ intros [= <-]. left. split; [reflexivity|].
      intros c m -> Hc. cbn in Hmodel. rewrite Hc in Hmodel.
      rewrite bool_decide_eq_true_2 in Hmodel by eauto. discriminate. }
  destruct (Py.getitem config "model") as [model| |] eqn:Hget; cbn [and_then];
    try discriminate.
  destruct config as [| | | | |c]; try discriminate.
  cbn in Hget. destruct (c !! "model") as [model'|] eqn:Hc; try discriminate.
  injection Hget as ->.
  destruct (Py.contains model "device") as [[]| |] eqn:Hdevice; cbn [and_then negb];
    try discriminate.
  2:{ intros [= <-]. left. split; [reflexivity|].
      intros c0 m [= <-] Hm. rewrite Hc in Hm. injection Hm as ->.
      cbn in Hdevice. left.
      destruct (m !! "device"); [|reflexivity].
      rewrite bool_decide_eq_true_2 in Hdevice by eauto. discriminate. }
  destruct (Py.contains model "engine_type") as [[]| |] eqn:Hengine;
    cbn [and_then negb]; try discriminate.
  2:{ intros [= <-]. left. split; [reflexivity|].
      intros c0 m [= <-] Hm. rewrite Hc in Hm. injection Hm as ->.
      cbn in Hengine. right.
      destruct (m !! "engine_type"); [|reflexivity].
      rewrite bool_decide_eq_true_2 in Hengine by eauto. discriminate. }
  destruct model as [| | | | |m]; cbn [Py.getitem and_then]; try discriminate.
  destruct (m !! "device") as [device|] eqn:Hd; cbn [and_then]; try discriminate.
  destruct (m !! "engine_type") as [engine_type|] eqn:He; cbn [and_then];
    try discriminate.
  destruct (format_for engine_type device) as [formatted_device| |] eqn:Hf;
    cbn [and_then]; try discriminate.
  intros [= <-]. right. exists c, m, device, engine_type, formatted_device.
  repeat split; assumption.
Qed.

(** X27: formatting the device changes nothing but the device. When
    [format_device] returns, the configuration is either the request itself,
    or the request with ['model']['device'] replaced by what the hardware
    detector returned for the model's engine type and device; that happens
    exactly when the model section is an object with both ['device'] and
    ['engine_type']. Every other entry of the request, and every other entry
    of its model section, is handed on unchanged. *)
Theorem formatting_changes_only_the_device (config config' : pyval) :
  formatted config = Returns config' ->
  (config' = config
   /\ forall c m, config = PDict c -> c !! "model" = Some (PDict m) ->
                  m !! "device" = None \/ m !! "engine_type" = None)
  \/ exists c m device engine_type formatted_device,
       config = PDict c
       /\ c !! "model" = Some (PDict m)
       /\ m !! "device" = Some device
       /\ m !! "engine_type" = Some engine_type
       /\ format_for engine_type device = Returns formatted_device
       /\ config' = PDict (<["model" := PDict (<["device" := formatted_device]> m)]> c).
Proof. exact (format_device_cases config config'). Qed.

(** A configuration in which ['model'] was found and that was formatted is
    a JSON object, and formatting keeps its keys. *)
Lemma formatted_object (config config' : pyval) :
  formatted config = Returns config' ->
  Py.contains config "model" = Returns true ->
  exists c c', config = PDict c /\ config' = PDict c'
               /\ forall field, is_Some (c !! field) -> is_Some (c' !! field).
Proof.
  intros Hf Hmodel.
  assert (Hobject : exists c, config = PDict c).
  { unfold format_device in Hf. rewrite Hmodel in Hf. cbn [and_then negb] in Hf.
    destruct config as [| | | | |c]; try discriminate. eauto. }
  destruct Hobject as [c ->].
  destruct (format_device_cases _ _ Hf)
    as [[-> _] | (c0 & m & d & e & f & [= <-] & _ & _ & _ & _ & ->)].
  - exists c, c. repeat split; auto.
  - exists c, (<["model" := PDict (<["device" := f]> m)]> c).
    split; [reflexivity|]. split; [reflexivity|].
    intros field Hfield. destruct (decide (field = "model")) as [-> | Hne].
    + rewrite lookup_insert_eq. eauto.
    + now rewrite lookup_insert_ne.
Qed.

(** ** Creating a pipeline *)


(** ** Updating a pipeline *)


End RoutesFacts.

(** ** Examples *)

(** A detector that writes the device the way one engine wants it. *)
Definition upper_for (engine_type device : pyval) : call pyval :=
  match engine_type, device with
  | PStr "openvino", PStr "gpu" => Returns (PStr "GPU")
  | PStr _, PStr _ => Returns device
  | _, _ => Raises
  end.

Definition camera_request : gmap string pyval :=
  {[ "name" := PStr "dock"; "frame_source" := PDict {[ "type" := PStr "webcam" ]};
     "model" := PDict {[ "id" := PStr "m1"; "device" := PStr "gpu";
                         "engine_type" := PStr "openvino" ]};
     "destinations" := PList [] ]}.

Lemma formatting_changes_only_the_device_witness :
  let config' :=
    PDict (<["model" := PDict {[ "id" := PStr "m1"; "device" := PStr "GPU";
                                 "engine_type" := PStr "openvino" ]}]> camera_request) in
  format_device upper_for (PDict camera_request) = Returns config'
  /\ ((config' = PDict camera_request
       /\ forall c m, PDict camera_request = PDict c -> c !! "model" = Some (PDict m) ->
                      m !! "device" = None \/ m !! "engine_type" = None)
      \/ exists c m device engine_type formatted_device,
           PDict camera_request = PDict c
           /\ c !! "model" = Some (PDict m)
           /\ m !! "device" = Some device
           /\ m !! "engine_type" = Some engine_type
           /\ upper_for engine_type device = Returns formatted_device
           /\ config'
              = PDict (<["model" := PDict (<["device" := formatted_device]> m)]> c)).
Proof.
  intros config'.
  assert (H : format_device upper_for (PDict camera_request) = Returns config')
    by (vm_compute; reflexivity).
  split; [exact H|].
  exact (formatting_changes_only_the_device upper_for (PDict camera_request) config' H).
Defined.

(** A manager that numbers its pipelines; its state is the list of the
    configurations it holds. *)
Definition list_create (held : list pyval) (config : pyval) : call (pyval * list pyval) :=
  Returns (PInt (Z.of_nat (length held)), held ++ [config]).

Example request_without_model_is_refused :
  create_pipeline upper_for list_create (fun held => Returns held) true
    (PDict (delete "model" camera_request)) []
  = Returns (MissingField "model", []).
Proof. vm_compute. reflexivity. Qed.

Example request_is_created_formatted :
  match create_pipeline upper_for list_create (fun held => Returns held) true
          (PDict camera_request) [] with
  | Returns (Created _, [PDict held]) =>
      match held !! "model" with
      | Some (PDict m) => m !! "device" = Some (PStr "GPU")
      | _ => False
      end
  | _ => False
  end.
Proof. vm_compute. reflexivity. Qed.

End PipelineRoutesFacts.
